(** * ncaabb-model: the prediction engine and the bet selector

    A shallow embedding of [model.py] (class [BasketballPredictionModel])
    and [best_bets.py] (class [BestBetsSelector]).

    Conventions of the embedding.
    - Python floats are modelled as exact rationals ([Q]); Python ints that
      take part in float arithmetic are injected into [Q].  Equality of
      numeric results is [Qeq] ([==]).
    - [round(x, n)] is a multiple of 10^-n nearest to the exact value.  The
      float that the code rounds is a neighbour of the exact value, so at
      a value half-way between two multiples the code may return either;
      the choice there is left open (class [Rounding]).
    - Dictionaries of numbers (team statistics, recent games) are
      [gmap string Q]; [d.get(k, default)] is [dget].
    - The game context and the market odds are records of optional
      fields, one per key that the code reads.  A value that the code
      takes for a dictionary may be something else, and a market line may
      be a number, [None] or a string; American odds are [int].
    - Bet dictionaries are mutable shared objects: they live in a heap of
      dictionaries and lists hold references to them.
    - numpy's square root (inside [np.std]), [datetime.fromisoformat] and
      the float formatting of f-strings are parameters of the model;
      [datetime.fromisoformat] is asked to read the calendar dates
      [YYYY-MM-DD] and to refuse strings shorter than seven characters
      ([reads_iso_dates]). *)

From Stdlib Require Import QArith Qabs Qround Lqa ZArith Lia String Ascii List Sorted Permutation.
From stdpp Require Import gmap strings list pretty.

Open Scope Q_scope.

(* ================================================================== *)
(** * Numbers as Python sees them *)

Definition Qleb (x y : Q) : bool := Qle_bool x y.
Definition Qltb (x y : Q) : bool := negb (Qle_bool y x).

(** [max(a, b)] and [min(a, b)] of Python: the first argument is kept
    unless the second is strictly better. *)
Definition py_max (a b : Q) : Q := if Qltb a b then b else a.
Definition py_min (a b : Q) : Q := if Qltb b a then b else a.

(** Nearest integer, ties to even. *)
Definition round_half_even (x : Q) : Z :=
  let f := Qfloor x in
  match Qcompare (x - inject_Z f) (1 # 2) with
  | Lt => f
  | Gt => (f + 1)%Z
  | Eq => if Z.even f then f else (f + 1)%Z
  end.

(** Nearest integer, ties upwards. *)
Definition round_half_up (x : Q) : Z := Qfloor (x + (1 # 2)).

(** A rounding to a nearest integer.  Nothing is asked of it at a value
    half-way between two integers, beyond giving equal values the same
    result: [round_half_even] and [round_half_up] are two of them. *)
Class Rounding := {
  round_int : Q -> Z;
  round_int_proper : forall x y, x == y -> round_int x = round_int y;
  round_int_nearest : forall x, Qabs (x - inject_Z (round_int x)) <= 1 # 2
}.

(** [round(x, n)] on a float. *)
Definition py_round {R : Rounding} (x : Q) (n : nat) : Q :=
  inject_Z (round_int (x * inject_Z (10 ^ Z.of_nat n)))
  / inject_Z (10 ^ Z.of_nat n).

(** [x] is a multiple of 10^-n. *)
Definition on_grid (x : Q) (n : nat) : bool :=
  Qeq_bool (inject_Z (Qfloor (x * inject_Z (10 ^ Z.of_nat n))))
           (x * inject_Z (10 ^ Z.of_nat n)).

(** [d.get(k, default)] on a dictionary of numbers. *)
Definition dget (d : gmap string Q) (k : string) (default : Q) : Q :=
  match d !! k with
  | Some v => v
  | None => default
  end.

(* ================================================================== *)
(** * Values and exceptions *)

(** The values that the dictionaries read here hold. *)
Inductive pyval :=
| VInt (z : Z)
| VFloat (q : Q)
| VStr (s : string)
| VNone.

(** The numeric value of an [int] or a [float]; other values make
    arithmetic and comparisons raise [TypeError]. *)
Definition as_number (v : pyval) : option Q :=
  match v with
  | VInt z => Some (inject_Z z)
  | VFloat q => Some q
  | _ => None
  end.

(** Exceptions, and computations that may raise one. *)
Inductive pyerr := KeyError | TypeError | AttributeError.

Inductive result (A : Type) :=
| Ok (a : A)
| Raise (e : pyerr).

Arguments Ok {A} a.
Arguments Raise {A} e.

Definition rbind {A B : Type} (m : result A) (f : A -> result B) : result B :=
  match m with
  | Ok a => f a
  | Raise e => Raise e
  end.

#[global] Instance result_bind : MBind result :=
  fun A B f m => rbind m f.

(** A value used as a number. *)
Definition number (v : pyval) : result Q :=
  match as_number v with
  | Some q => Ok q
  | None => Raise TypeError
  end.

(* ================================================================== *)
(** * best_bets.py: the pure helpers *)

Definition american_odds_to_probability (odds : Q) : Q :=
  if Qltb odds 0 then Qabs odds / (Qabs odds + 100)
  else 100 / (odds + 100).

Definition american_odds_to_decimal (odds : Q) : Q :=
  if Qltb odds 0 then 1 + (100 / Qabs odds)
  else 1 + (odds / 100).

(** The score before [round(score, 4)]. *)
Definition raw_bet_score (predicted_prob odds confidence : Q) : Q :=
  let base_score := predicted_prob * 0.6 in
  let confidence_score := confidence * 0.4 in
  let implied_prob := american_odds_to_probability odds in
  let odds_factor := 1 - (implied_prob - 0.5) * 0.2 in
  (base_score + confidence_score) * odds_factor.

Definition calculate_bet_score {R : Rounding}
    (predicted_prob odds confidence : Q) : Q :=
  py_round (raw_bet_score predicted_prob odds confidence) 4.

Definition meets_odds_criteria (max_odds : Q) (odds : Q) : bool :=
  if Qleb 0 odds then true else Qleb max_odds odds.

Definition _adjust_confidence_for_edge {R : Rounding}
    (base_confidence edge : Q) (bet_type : string) : Q :=
  let abs_edge := Qabs edge in
  let adjustment :=
    if String.eqb bet_type "spread" then
      if Qltb abs_edge 2 then 0.95
      else if Qltb abs_edge 5 then 1.0
      else if Qltb abs_edge 10 then 1.05
      else if Qltb abs_edge 15 then 1.0
      else if Qltb abs_edge 20 then 0.92
      else 0.85
    else
      if Qltb abs_edge 3 then 0.92
      else if Qltb abs_edge 7 then 1.0
      else if Qltb abs_edge 12 then 1.03
      else if Qltb abs_edge 18 then 0.94
      else 0.87 in
  let adjusted := base_confidence * adjustment in
  py_round (py_max 0.25 (py_min 0.88 adjusted)) 3.

Definition _spread_to_probability (edge : Q) : Q :=
  if Qltb (Qabs edge) 0.5 then 0.50
  else
    let prob :=
      if Qleb (Qabs edge) 5 then 0.50 + edge * 0.015
      else if Qleb (Qabs edge) 10 then
        let base := 0.50 + 5 * 0.015 in
        let additional := (Qabs edge - 5) * 0.012 in
        base + (if Qltb 0 edge then additional else - additional)
      else if Qleb (Qabs edge) 20 then
        let base := 0.50 + 5 * 0.015 + 5 * 0.012 in
        let additional := (Qabs edge - 10) * 0.006 in
        base + (if Qltb 0 edge then additional else - additional)
      else
        let base := 0.50 + 5 * 0.015 + 5 * 0.012 + 10 * 0.006 in
        let additional := py_min ((Qabs edge - 20) * 0.001) 0.005 in
        base + (if Qltb 0 edge then additional else - additional)
    in
    py_max 0.50 (py_min 0.70 prob).

Definition _total_to_probability (edge : Q) : Q :=
  let abs_edge := Qabs edge in
  if Qltb abs_edge 0.5 then 0.50
  else
    let prob :=
      if Qleb abs_edge 6 then 0.50 + edge * 0.012
      else if Qleb abs_edge 12 then
        let base := 0.50 + 6 * 0.012 in
        let additional := (abs_edge - 6) * 0.008 in
        base + (if Qltb 0 edge then additional else - additional)
      else if Qleb abs_edge 20 then
        let base := 0.50 + 6 * 0.012 + 6 * 0.008 in
        let additional := (abs_edge - 12) * 0.003 in
        base + (if Qltb 0 edge then additional else - additional)
      else
        let base := 0.50 + 6 * 0.012 + 6 * 0.008 + 8 * 0.003 in
        let additional := py_min ((abs_edge - 20) * 0.0005) 0.006 in
        base + (if Qltb 0 edge then additional else - additional)
    in
    py_max 0.50 (py_min 0.65 prob).

(* ================================================================== *)
(** * model.py: team metrics *)

Definition CONFERENCE_TIERS : gmap string Z :=
  list_to_map
    [ ("Big Ten", 1); ("SEC", 1); ("Big 12", 1); ("ACC", 1);
      ("Big East", 2); ("Pac-12", 2);
      ("Mountain West", 3); ("Atlantic 10", 3); ("West Coast", 3);
      ("American Athletic", 3);
      ("Missouri Valley", 4); ("Conference USA", 4); ("Sun Belt", 4);
      ("Mid-American", 4); ("MAC", 4);
      ("Horizon", 5); ("WAC", 5); ("Big West", 5); ("Big Sky", 5);
      ("Summit", 5); ("Southern", 5); ("Colonial", 5); ("America East", 5);
      ("Southland", 6); ("Ohio Valley", 6); ("MAAC", 6); ("Northeast", 6);
      ("Patriot", 6); ("Atlantic Sun", 6); ("Big South", 6); ("SWAC", 6);
      ("MEAC", 6) ]%Z.

Record TeamMetrics := {
  offensive_rating : Q;
  defensive_rating : Q;
  net_rating : Q;
  true_shooting_pct : Q;
  shooting_efficiency : Q;
  effective_fg_pct : Q;
  turnover_ratio : Q;
  offensive_rebound_pct : Q;
  free_throw_rate : Q;
  opp_effective_fg_pct : Q;
  opp_turnover_ratio : Q;
  opp_offensive_rebound_pct : Q;
  opp_free_throw_rate : Q;
  rebound_rate : Q;
  assist_to_turnover : Q;
  defensive_intensity : Q;
  pace : Q
}.

Definition calculate_team_metrics (team_stats : gmap string Q) : TeamMetrics :=
  let ppg := dget team_stats "points_per_game" 0 in
  let opp_ppg := dget team_stats "opponent_points_per_game" 0 in
  let fg_pct := dget team_stats "field_goal_percentage" 0 in
  let three_pt_pct := dget team_stats "three_point_percentage" 0 in
  let ft_pct := dget team_stats "free_throw_percentage" 0 in
  let rebounds_pg := dget team_stats "rebounds_per_game" 0 in
  let assists_pg := dget team_stats "assists_per_game" 0 in
  let turnovers_pg := dget team_stats "turnovers_per_game" 0 in
  let steals_pg := dget team_stats "steals_per_game" 0 in
  let blocks_pg := dget team_stats "blocks_per_game" 0 in
  let off := dget team_stats "offensive_rating" ppg in
  let def := dget team_stats "defensive_rating" opp_ppg in
  let ts := dget team_stats "true_shooting_pct" 0 in
  {| offensive_rating := off;
     defensive_rating := def;
     net_rating := off - def;
     true_shooting_pct := ts;
     shooting_efficiency :=
       if Qeq_bool ts 0
       then (if Qeq_bool fg_pct 0 then 0
             else fg_pct * 0.5 + three_pt_pct * 0.3 + ft_pct * 0.2)
       else ts;
     effective_fg_pct := dget team_stats "effective_fg_pct" fg_pct;
     turnover_ratio := dget team_stats "turnover_ratio" 0;
     offensive_rebound_pct := dget team_stats "offensive_rebound_pct" 0;
     free_throw_rate := dget team_stats "free_throw_rate" 0;
     opp_effective_fg_pct := dget team_stats "opp_effective_fg_pct" 0;
     opp_turnover_ratio := dget team_stats "opp_turnover_ratio" 0;
     opp_offensive_rebound_pct := dget team_stats "opp_offensive_rebound_pct" 0;
     opp_free_throw_rate := dget team_stats "opp_free_throw_rate" 0;
     rebound_rate := rebounds_pg;
     assist_to_turnover :=
       if Qltb 0 turnovers_pg then assists_pg / turnovers_pg else 0;
     defensive_intensity := steals_pg + blocks_pg;
     pace := dget team_stats "pace" (ppg + opp_ppg) |}.

(* ================================================================== *)
(** * model.py: the game context

    [game_info] is [Optional[Dict]].  [None] below stands for both falsy
    values ([None] and the empty dictionary); [Some gi] is a non-empty
    dictionary, each of whose keys the code reads may be absent.  A
    conference that is present as [None] is in no tier, like an absent
    one, and is an absent field here.  The market lines are values of any
    kind: the code fails on those that are not numbers. *)

Record SpreadOdds := {
  home_spread : option pyval;
  away_spread : option pyval;
  home_odds : option Z;
  away_odds : option Z
}.

(** A number as it is printed by an f-string: [int] or [float]. *)
Inductive pynum := PInt (z : Z) | PFloat (q : Q).

Definition num_val (n : pynum) : Q :=
  match n with
  | PInt z => inject_Z z
  | PFloat q => q
  end.

(** A value that is a number, as that number. *)
Definition as_pynum (v : pyval) : option pynum :=
  match v with
  | VInt z => Some (PInt z)
  | VFloat q => Some (PFloat q)
  | _ => None
  end.

Record TotalOdds := {
  line : option pyval;
  over_odds : option Z;
  under_odds : option Z
}.

(** The value under ['spread']: a dictionary, or something that fails
    [isinstance(spread_data, dict)] and has no [get]. *)
Inductive spread_entry := SpreadDict (d : SpreadOdds) | SpreadNotDict.

(** The value under ['total']: a dictionary, or something without [get]. *)
Inductive total_entry := TotalDict (d : TotalOdds) | TotalNotDict.

Record OddsData := {
  spread : option spread_entry;
  total : option total_entry
}.

(** The value under ['odds'] of the context: a dictionary, or something
    without [get] ([None], a list, a string). *)
Inductive odds_entry := OddsDict (d : OddsData) | OddsNotDict.

(** The value under ['start_date']: a [str], or anything else (a
    [datetime] object, [None]). *)
Inductive date_entry := DateStr (s : string) | DateNotStr.

Record GameInfo := {
  odds : option odds_entry;
  home_conference : option string;
  away_conference : option string;
  start_date : option date_entry
}.

Definition empty_spread : SpreadOdds :=
  {| home_spread := None; away_spread := None;
     home_odds := None; away_odds := None |}.

Definition empty_total : TotalOdds :=
  {| line := None; over_odds := None; under_odds := None |}.

Definition empty_odds : OddsData := {| spread := None; total := None |}.

(* ================================================================== *)
(** * model.py: the adaptive regression weight *)

Definition nat_Q (n : nat) : Q := inject_Z (Z.of_nat n).

Definition conference_tier (conf : string) : Z :=
  match CONFERENCE_TIERS !! conf with
  | Some t => t
  | None => 7%Z
  end.

Definition get_adaptive_regression_weight
    (home_stats away_stats : gmap string Q)
    (home_recent away_recent : list (gmap string Q))
    (game_info : option GameInfo) : Q :=
  let home_games := dget home_stats "games" (nat_Q (length home_recent)) in
  let away_games := dget away_stats "games" (nat_Q (length away_recent)) in
  let avg_games := (home_games + away_games) / 2 in
  let base_weight :=
    if Qleb avg_games 5 then 0.75 + (avg_games / 5) * 0.10
    else if Qleb avg_games 10 then 0.85 + ((avg_games - 5) / 5) * 0.07
    else if Qleb avg_games 20 then 0.92 + ((avg_games - 10) / 10) * 0.05
    else 0.97 + py_min ((avg_games - 20) / 20) 1.0 * 0.02 in
  let home_metrics := calculate_team_metrics home_stats in
  let away_metrics := calculate_team_metrics away_stats in
  let net_rating_gap :=
    Qabs (net_rating home_metrics - net_rating away_metrics) in
  let off_rating_gap :=
    Qabs (offensive_rating home_metrics - offensive_rating away_metrics) in
  let def_rating_gap :=
    Qabs (defensive_rating home_metrics - defensive_rating away_metrics) in
  let max_gap :=
    py_max (py_max net_rating_gap (off_rating_gap * 0.7))
           (def_rating_gap * 0.7) in
  let talent_boost :=
    if Qltb 30 max_gap then 0.10
    else if Qltb 20 max_gap then 0.07
    else if Qltb 15 max_gap then 0.04
    else 0.00 in
  let home_wins := dget home_stats "wins" 0 in
  let away_wins := dget away_stats "wins" 0 in
  let talent_boost :=
    if Qleb 2 home_games && Qleb 2 away_games then
      let home_win_pct := home_wins / py_max 1 home_games in
      let away_win_pct := away_wins / py_max 1 away_games in
      let win_pct_gap := Qabs (home_win_pct - away_win_pct) in
      if Qltb 0.6 win_pct_gap && Qltb net_rating_gap 15
      then py_max talent_boost 0.06
      else talent_boost
    else talent_boost in
  let talent_boost :=
    match game_info with
    | Some gi =>
        if Qltb avg_games 10 then
          let home_conf := default EmptyString (home_conference gi) in
          let away_conf := default EmptyString (away_conference gi) in
          let home_tier := conference_tier home_conf in
          let away_tier := conference_tier away_conf in
          let tier_gap := Z.abs (home_tier - away_tier) in
          let conference_boost :=
            if (3 <=? tier_gap)%Z then 0.12
            else if (2 <=? tier_gap)%Z then 0.08
            else if (1 <=? tier_gap)%Z then 0.04
            else 0.0 in
          let conference_boost := conference_boost * ((10 - avg_games) / 10) in
          py_max talent_boost conference_boost
        else talent_boost
    | None => talent_boost
    end in
  py_min 0.99 (base_weight + talent_boost).

(* ================================================================== *)
(** * numpy helpers *)

Definition Qsum (l : list Q) : Q := fold_right Qplus 0 l.

Definition np_mean (l : list Q) : Q := Qsum l / nat_Q (length l).

(** [np.linspace(start, stop, n)]. *)
Definition np_linspace (start stop : Q) (n : nat) : list Q :=
  match n with
  | O => []
  | S O => [start]
  | S m => map (fun i => start + nat_Q i * ((stop - start) / nat_Q m)) (seq 0 n)
  end.

(** [np.average(a, weights=w)]. *)
Definition np_average (a w : list Q) : Q :=
  Qsum (zip_with Qmult a w) / Qsum w.

(** [max(l)] and [min(l)] of a list; the empty list is not reached. *)
Definition list_max (l : list Q) : Q :=
  match l with
  | [] => 0
  | x :: r => fold_left py_max r x
  end.

Definition list_min (l : list Q) : Q :=
  match l with
  | [] => 0
  | x :: r => fold_left py_min r x
  end.

(* ================================================================== *)
(** * String helpers of the date handling *)

(** [s.split('T')[0]]: what comes before the first ['T']. *)
Fixpoint split_T_head (s : string) : string :=
  match s with
  | EmptyString => EmptyString
  | String c r =>
      if Ascii.eqb c "T" then EmptyString else String c (split_T_head r)
  end.

(** [s.replace('Z', '')]. *)
Fixpoint replace_Z (s : string) : string :=
  match s with
  | EmptyString => EmptyString
  | String c r =>
      if Ascii.eqb c "Z" then replace_Z r else String c (replace_Z r)
  end.

(** The calendar dates that [datetime.fromisoformat] is asked to read:
    [YYYY-MM-DD] with the digits of a year from 1 to 9999, of a month and
    of a day of that month. *)
Definition digit_char (k : Z) : ascii :=
  ascii_of_nat (48 + Z.to_nat (k mod 10)).

Definition two_digits (n : Z) : string :=
  String (digit_char (n / 10)) (String (digit_char n) EmptyString).

Definition four_digits (n : Z) : string :=
  String (digit_char (n / 1000))
    (String (digit_char (n / 100)) (two_digits n)).

Definition iso_date (y m d : Z) : string :=
  four_digits y +:+ "-" +:+ two_digits m +:+ "-" +:+ two_digits d.

Definition days_in_month (y m : Z) : Z :=
  if (m =? 2)%Z then
    if ((y mod 4 =? 0) && negb (y mod 100 =? 0) || (y mod 400 =? 0))%Z
    then 29 else 28
  else if ((m =? 4) || (m =? 6) || (m =? 9) || (m =? 11))%Z then 30
  else 31.

Definition valid_date (y m d : Z) : bool :=
  ((1 <=? y) && (y <=? 9999) && (1 <=? m) && (m <=? 12)
   && (1 <=? d) && (d <=? days_in_month y m))%Z.

(** What is known of [datetime.fromisoformat] in every version of
    Python: it reads a calendar date [YYYY-MM-DD], and it raises on a
    string of fewer than seven characters.  [None] is a call that
    raises. *)
Definition reads_iso_dates (fromisoformat : string -> option (Z * Z * Z))
    : Prop :=
  (forall y m d,
      valid_date y m d = true ->
      fromisoformat (iso_date y m d) = Some (y, m, d))
  /\ (forall s, (String.length s < 7)%nat -> fromisoformat s = None).

Record FormMetrics := {
  win_rate : Q;
  avg_margin : Q;
  scoring_trend : Q;
  consistency : Q
}.

(** What the model asks of the data provider ([self.api]). *)
Record API := {
  get_team_stats : Z -> gmap string Q;
  get_recent_games : Z -> nat -> list (gmap string Q)
}.

Section Model.

Context {R : Rounding}.

(** numpy's square root, used by [np.std]. *)
Variable np_sqrt : Q -> Q.

(** [datetime.fromisoformat]: the (year, month, day) of the parsed date,
    or [None] when it raises. *)
Variable fromisoformat : string -> option (Z * Z * Z).

Definition np_std (l : list Q) : Q :=
  let m := np_mean l in
  np_sqrt (np_mean (map (fun x => Qabs (x - m) * Qabs (x - m)) l)).

(* ------------------------------------------------------------------ *)
(** ** analyze_recent_form *)

(** One turn of the loop over [recent_games]: the margin and the score
    of the team in that game. *)
Definition game_margin_score (team_id : Z) (game : gmap string Q) : Q * Q :=
  let home_score := dget game "home_score" 0 in
  let away_score := dget game "away_score" 0 in
  let is_home :=
    match game !! "home_team_id" with
    | Some home_id => Qeq_bool home_id (inject_Z team_id)
    | None => false
    end in
  let team_score := if is_home then home_score else away_score in
  let opp_score := if is_home then away_score else home_score in
  (team_score - opp_score, team_score).

Definition sample_size_factor (num_games : nat) : Q :=
  if (num_games <=? 2)%nat then 0.3
  else if (num_games <=? 5)%nat then 0.4 + (nat_Q num_games - 2) * 0.05
  else if (num_games <=? 10)%nat then 0.55 + (nat_Q num_games - 5) * 0.04
  else py_min (0.75 + (nat_Q num_games - 10) * 0.02) 0.90.

Definition variance_factor (margins : list Q) : Q :=
  if (1 <? length margins)%nat then
    let margin_std := np_std margins in
    if Qltb margin_std 8 then 0.75 - (margin_std / 20)
    else if Qltb margin_std 12 then 0.6 + (12 - margin_std) / 40
    else if Qltb margin_std 18 then 0.45 + (18 - margin_std) / 60
    else py_max 0.3 (0.45 - (margin_std - 18) / 100)
  else 0.4.

Definition quality_factor (margins : list Q) : Q :=
  if (3 <=? length margins)%nat then
    let max_margin := list_max margins in
    let min_margin := list_min margins in
    let swing := max_margin - min_margin in
    if Qltb 40 swing then py_max 0.3 (1 - (swing - 40) / 100)
    else 0.8
  else 0.5.

Definition analyze_recent_form
    (recent_games : list (gmap string Q)) (team_id : Z) : FormMetrics :=
  match recent_games with
  | [] =>
      {| win_rate := 0.5; avg_margin := 0; scoring_trend := 0;
         consistency := 0.3 |}
  | _ =>
      let rows := map (game_margin_score team_id) recent_games in
      let margins := map fst rows in
      let scores := map snd rows in
      let results := map (fun m => Qltb 0 m) margins in
      let wins := length (filter (fun b => b = true) results) in
      let weights := np_linspace 0.5 1.0 (length scores) in
      let num_games := length margins in
      let c :=
        sample_size_factor num_games * 0.5
        + variance_factor margins * 0.3
        + quality_factor margins * 0.2 in
      {| win_rate := nat_Q wins / nat_Q (length results);
         avg_margin := np_mean margins;
         scoring_trend := np_average scores weights;
         consistency := py_round (py_max 0.25 (py_min 0.85 c)) 3 |}
  end.

(* ------------------------------------------------------------------ *)
(** ** The projected scores shared by predict_spread and predict_total *)

Definition validate_pace (pace : Q) : Q :=
  if Qleb pace 0 || Qltb pace 55 || Qltb 85 pace then 70 else pace.

Definition validate_rating (rating : Q) : Q :=
  if Qleb rating 0 || Qltb rating 60 || Qltb 180 rating then 100 else rating.

Definition home_court_boost : Q := 3.5.
Definition league_avg : Q := 100.

Record Projected := {
  home_pace : Q;
  away_pace : Q;
  game_pace : Q;
  home_projected : Q;
  away_projected : Q
}.

(** Lines 393-415 and 445-469 of predict_spread; predict_total repeats
    them (599-607, 614-630). *)
Definition project (home_metrics away_metrics : TeamMetrics)
    (regression_weight : Q) : Projected :=
  let hp := validate_pace (pace home_metrics) in
  let ap := validate_pace (pace away_metrics) in
  let gp := hp * 0.55 + ap * 0.45 in
  let home_off_rating := validate_rating (offensive_rating home_metrics) in
  let away_def_rating := validate_rating (defensive_rating away_metrics) in
  let away_off_rating := validate_rating (offensive_rating away_metrics) in
  let home_def_rating := validate_rating (defensive_rating home_metrics) in
  let adj r := r * regression_weight + league_avg * (1 - regression_weight) in
  let home_off_adj := adj home_off_rating in
  let away_def_adj := adj away_def_rating in
  let away_off_adj := adj away_off_rating in
  let home_def_adj := adj home_def_rating in
  let home_expected_eff :=
    home_off_adj + (away_def_adj - league_avg) + home_court_boost in
  let away_expected_eff := away_off_adj + (home_def_adj - league_avg) in
  {| home_pace := hp; away_pace := ap; game_pace := gp;
     home_projected := (home_expected_eff * gp) / 100;
     away_projected := (away_expected_eff * gp) / 100 |}.

(* ------------------------------------------------------------------ *)
(** ** predict_spread *)

(** Lines 425-443: the extra regression for unreliable early data. *)
Definition spread_regression_weight
    (home_stats away_stats : gmap string Q) (base_regression_weight : Q) : Q :=
  let home_wins := dget home_stats "wins" 0 in
  let home_losses := dget home_stats "losses" 0 in
  let away_wins := dget away_stats "wins" 0 in
  let away_losses := dget away_stats "losses" 0 in
  let home_games := dget home_stats "games" 0 in
  let away_games := dget away_stats "games" 0 in
  let home_unreliable :=
    Qltb 0 home_games && Qeq_bool (home_wins + home_losses) 0 in
  let away_unreliable :=
    Qltb 0 away_games && Qeq_bool (away_wins + away_losses) 0 in
  if (home_unreliable || away_unreliable) && Qltb (home_games + away_games) 6
  then base_regression_weight * 0.60
  else if Qltb (home_games + away_games) 4
  then base_regression_weight * 0.80
  else base_regression_weight.

Definition form_adjustment (home_form away_form : FormMetrics) : Q :=
  py_max (-5) (py_min 5 ((avg_margin home_form - avg_margin away_form) * 0.10)).

(** Line 500. *)
Definition games_factor (num_games : nat) : Q :=
  py_max 0.3 ((15 - nat_Q num_games) / 15).

(** Lines 504-515. *)
Definition blend_factor (market_mag : Q) (num_games : nat) : Q :=
  if Qleb 25 market_mag then 0.70 + (games_factor num_games * 0.20)
  else if Qleb 20 market_mag then 0.60 + (games_factor num_games * 0.20)
  else if Qleb 15 market_mag then 0.50 + (games_factor num_games * 0.15)
  else 0.40 + (games_factor num_games * 0.10).

(** Lines 484-523: the adjustment toward a market spread that is there. *)
Definition market_blend (market_spread : Q) (num_games : nat)
    (predicted_spread : Q) : Q :=
  let market_fav_home := Qltb market_spread 0 in
  let model_fav_home := Qltb 0 predicted_spread in
  let market_mag := Qabs market_spread in
  let model_mag := Qabs predicted_spread in
  if Bool.eqb market_fav_home model_fav_home then
    let gap := market_mag - model_mag in
    if Qltb 5 gap then
      let adjustment := gap * blend_factor market_mag num_games in
      if market_fav_home then predicted_spread + adjustment
      else predicted_spread - adjustment
    else predicted_spread
  else predicted_spread.

(** Lines 476-523: the market adjustment of the predicted spread.
    [odds_data.get] raises [AttributeError] when the value under ['odds']
    is not a dictionary, and the comparison [market_spread < 0] raises
    [TypeError] when the market spread is neither [None] nor a number. *)
Definition market_adjust (game_info : option GameInfo) (num_games : nat)
    (predicted_spread : Q) : result Q :=
  match game_info with
  | Some gi =>
      if (num_games <? 15)%nat then
        odds_data ←
          match default (OddsDict empty_odds) (odds gi) with
          | OddsDict d => Ok d
          | OddsNotDict => Raise AttributeError
          end;
        let spread_data :=
          default (SpreadDict empty_spread) (spread odds_data) in
        let market_spread :=
          match spread_data with
          | SpreadDict d => default VNone (home_spread d)
          | SpreadNotDict => VNone
          end in
        match market_spread with
        | VNone => Ok predicted_spread
        | _ =>
            market_spread ← number market_spread;
            Ok (market_blend market_spread num_games predicted_spread)
        end
      else Ok predicted_spread
  | None => Ok predicted_spread
  end.

(** Lines 529-547: the confidence, before the final rounding. *)
Definition spread_confidence (home_form away_form : FormMetrics)
    (num_games : nat) (predicted_spread : Q) : Q :=
  let base_confidence := (consistency home_form + consistency away_form) / 2 in
  let confidence := py_max 0.40 base_confidence in
  let confidence :=
    if (num_games <? 4)%nat then confidence * 0.90
    else if (num_games <? 8)%nat then confidence * 0.95
    else confidence in
  let confidence :=
    if Qltb 30 (Qabs predicted_spread) then confidence * 0.85
    else if Qltb 20 (Qabs predicted_spread) then confidence * 0.92
    else if Qltb 15 (Qabs predicted_spread) then confidence * 0.96
    else confidence in
  py_min confidence 0.85.

(** Lines 366-472: the predicted spread before the market adjustment. *)
Definition unblended_spread (api : API) (home_team_id away_team_id : Z)
    (game_info : option GameInfo) : Q :=
  let home_stats := get_team_stats api home_team_id in
  let away_stats := get_team_stats api away_team_id in
  let home_recent := get_recent_games api home_team_id 10 in
  let away_recent := get_recent_games api away_team_id 10 in
  let home_metrics := calculate_team_metrics home_stats in
  let away_metrics := calculate_team_metrics away_stats in
  let home_form := analyze_recent_form home_recent home_team_id in
  let away_form := analyze_recent_form away_recent away_team_id in
  let base_regression_weight :=
    get_adaptive_regression_weight
      home_stats away_stats home_recent away_recent game_info in
  let regression_weight :=
    spread_regression_weight home_stats away_stats base_regression_weight in
  let p := project home_metrics away_metrics regression_weight in
  (home_projected p - away_projected p)
  + form_adjustment home_form away_form.

Definition predict_spread (api : API) (home_team_id away_team_id : Z)
    (game_info : option GameInfo) : result (Q * Q) :=
  let home_recent := get_recent_games api home_team_id 10 in
  let away_recent := get_recent_games api away_team_id 10 in
  let home_form := analyze_recent_form home_recent home_team_id in
  let away_form := analyze_recent_form away_recent away_team_id in
  let num_games := (length home_recent + length away_recent)%nat in
  let predicted_spread :=
    unblended_spread api home_team_id away_team_id game_info in
  predicted_spread ← market_adjust game_info num_games predicted_spread;
  let predicted_spread := py_max (-50) (py_min 50 predicted_spread) in
  let confidence :=
    spread_confidence home_form away_form num_games predicted_spread in
  Ok (py_round predicted_spread 1, py_round confidence 3).

(* ------------------------------------------------------------------ *)
(** ** predict_total *)

(** Lines 638-655.  The body of the [try] is [None] when it raises; the
    bare [except: pass] then leaves the total as it was. *)
Definition early_season_try (s : date_entry) (predicted_total : Q) : option Q :=
  match s with
  | DateStr start_date_str =>
      match fromisoformat (replace_Z (split_T_head start_date_str)) with
      | Some (_, month, day) =>
          if (month =? 11)%Z then Some (predicted_total * 0.95)
          else if (month =? 12)%Z && (day <=? 14)%Z
          then Some (predicted_total * 0.97)
          else Some predicted_total
      | None => None
      end
  | DateNotStr => Some predicted_total
  end.

Definition early_season_adjust (game_info : option GameInfo)
    (predicted_total : Q) : Q :=
  match game_info with
  | Some gi =>
      match start_date gi with
      | Some s =>
          match early_season_try s predicted_total with
          | Some t => t
          | None => predicted_total
          end
      | None => predicted_total
      end
  | None => predicted_total
  end.

(** Lines 661-689: the confidence, before the final rounding. *)
Definition total_confidence (home_form away_form : FormMetrics)
    (num_games : nat) (predicted_total : Q) (p : Projected) : Q :=
  let base_confidence := (consistency home_form + consistency away_form) / 2 in
  let confidence := py_max 0.35 base_confidence in
  let confidence :=
    if (num_games <? 4)%nat then confidence * 0.88
    else if (num_games <? 8)%nat then confidence * 0.94
    else confidence in
  let league_avg_total := 142 in
  let total_deviation := Qabs (predicted_total - league_avg_total) in
  let confidence :=
    if Qltb 30 total_deviation then confidence * 0.80
    else if Qltb 20 total_deviation then confidence * 0.88
    else if Qltb 15 total_deviation then confidence * 0.94
    else confidence in
  let pace_diff := Qabs (home_pace p - away_pace p) in
  let confidence :=
    if Qltb 15 pace_diff then confidence * 0.90 else confidence in
  let confidence := confidence * 0.92 in
  py_max 0.35 (py_min 0.75 confidence).

(** Lines 566-633: the projected total before the seasonal adjustment. *)
Definition total_projection (api : API) (home_team_id away_team_id : Z)
    (game_info : option GameInfo) : Projected :=
  let home_stats := get_team_stats api home_team_id in
  let away_stats := get_team_stats api away_team_id in
  let home_recent := get_recent_games api home_team_id 10 in
  let away_recent := get_recent_games api away_team_id 10 in
  let home_metrics := calculate_team_metrics home_stats in
  let away_metrics := calculate_team_metrics away_stats in
  let regression_weight :=
    get_adaptive_regression_weight
      home_stats away_stats home_recent away_recent game_info in
  project home_metrics away_metrics regression_weight.

Definition predict_total (api : API) (home_team_id away_team_id : Z)
    (game_info : option GameInfo) : Q * Q :=
  let home_recent := get_recent_games api home_team_id 10 in
  let away_recent := get_recent_games api away_team_id 10 in
  let home_form := analyze_recent_form home_recent home_team_id in
  let away_form := analyze_recent_form away_recent away_team_id in
  let num_games := (length home_recent + length away_recent)%nat in
  let p := total_projection api home_team_id away_team_id game_info in
  let predicted_total := home_projected p + away_projected p in
  let predicted_total := early_season_adjust game_info predicted_total in
  let predicted_total := py_max 110 (py_min 200 predicted_total) in
  let confidence :=
    total_confidence home_form away_form num_games predicted_total p in
  (py_round predicted_total 1, py_round confidence 3).

End Model.

(* ------------------------------------------------------------------ *)
(** ** calculate_win_probability *)

Section WinProbability.

Context {R : Rounding}.

(** numpy's exponential. *)
Variable np_exp : Q -> Q.

Definition calculate_win_probability (predicted_spread confidence : Q) : Q :=
  let base_prob := 1 / (1 + np_exp (- predicted_spread / 7)) in
  let adjusted_prob := 0.5 + (base_prob - 0.5) * confidence in
  py_round adjusted_prob 3.

End WinProbability.

(* ================================================================== *)
(** * best_bets.py: bet dictionaries *)

(** The [game] dictionary as create_bet_from_prediction reads it. *)
Record GameRef := {
  game_id : option pyval;
  home_team : option string;
  away_team : option string
}.

Section Formatting.

Context {R : Rounding}.

(** [str(x)] of a float inside an f-string, and the format
    specifications [:.1f] and [:+.1f]. *)
Variable repr_float : Q -> string.
Variable fmt_1f : Q -> string.
Variable fmt_plus_1f : Q -> string.

Definition py_str (n : pynum) : string :=
  match n with
  | PInt z => pretty z
  | PFloat q => repr_float q
  end.

(** Lines 171-197: the side of the spread to bet, with its line, its
    odds and the edge.  [abs] and the arithmetic raise [TypeError] on a
    line that is not a number, on the path that uses it. *)
Definition spread_side (home_team away_team : string) (prediction : Q)
    (home_spread away_spread : pyval) (home_odds away_odds : Z)
    : result (string * Q * Z * Q) :=
  if Qltb 0 prediction then
    home_spread ← number home_spread;
    if Qltb (Qabs home_spread) prediction
    then Ok (home_team, home_spread, home_odds, prediction - home_spread)
    else
      away_spread ← number away_spread;
      Ok (away_team, away_spread, away_odds, away_spread - prediction)
  else
    away_spread ← number away_spread;
    if Qltb (Qabs away_spread) (Qabs prediction)
    then Ok (away_team, away_spread, away_odds,
             Qabs prediction - Qabs away_spread)
    else
      home_spread ← number home_spread;
      Ok (home_team, home_spread, home_odds, home_spread + Qabs prediction).

Definition create_bet_from_prediction
    (game : GameRef) (prediction_type : string)
    (prediction confidence : Q) (odds_data : OddsData)
    : result (list (gmap string pyval)) :=
  let home_team := default "Home" (home_team game) in
  let away_team := default "Away" (away_team game) in
  let game_desc := away_team +:+ " @ " +:+ home_team in
  if String.eqb prediction_type "spread" then
    market_spread ←
      match default (SpreadDict empty_spread) (spread odds_data) with
      | SpreadDict d => Ok d
      | SpreadNotDict => Raise AttributeError
      end;
    let home_spread := default (VInt 0) (home_spread market_spread) in
    let away_spread := default (VInt 0) (away_spread market_spread) in
    let home_odds := default (-110)%Z (home_odds market_spread) in
    let away_odds := default (-110)%Z (away_odds market_spread) in
    '(pick_team, pick_spread, pick_odds, edge) ←
      spread_side home_team away_team prediction
        home_spread away_spread home_odds away_odds;
    let win_prob := _spread_to_probability edge in
    let adjusted_confidence :=
      _adjust_confidence_for_edge confidence edge "spread" in
    let reasoning :=
      if Qltb 0 prediction then
        "Model predicts " +:+ home_team +:+ " by " +:+ fmt_1f (Qabs prediction)
      else if Qltb prediction 0 then
        "Model predicts " +:+ away_team +:+ " by " +:+ fmt_1f (Qabs prediction)
      else "Model predicts even game" in
    Ok [ list_to_map
        [ ("game_id", default (VStr EmptyString) (game_id game));
          ("game_description", VStr game_desc);
          ("bet_type", VStr "Spread");
          ("pick", VStr (pick_team +:+ " " +:+ fmt_plus_1f pick_spread));
          ("odds", VInt pick_odds);
          ("predicted_prob", VFloat win_prob);
          ("confidence", VFloat adjusted_confidence);
          ("reasoning", VStr reasoning) ] ]
  else if String.eqb prediction_type "total" then
    market_total ←
      match default (TotalDict empty_total) (total odds_data) with
      | TotalDict d => Ok d
      | TotalNotDict => Raise AttributeError
      end;
    total_line ←
      match as_pynum (default (VInt 140) (line market_total)) with
      | Some n => Ok n
      | None => Raise TypeError
      end;
    let over_odds := default (-110)%Z (over_odds market_total) in
    let under_odds := default (-110)%Z (under_odds market_total) in
    let '(pick, pick_odds, edge) :=
      if Qltb (num_val total_line) prediction
      then ("Over " +:+ py_str total_line, over_odds,
            prediction - num_val total_line)
      else ("Under " +:+ py_str total_line, under_odds,
            num_val total_line - prediction) in
    let win_prob := _total_to_probability edge in
    let adjusted_confidence :=
      _adjust_confidence_for_edge confidence edge "total" in
    let reasoning :=
      if Qltb (num_val total_line) prediction then
        "Model predicts " +:+ fmt_1f prediction +:+ " (Over "
        +:+ fmt_1f (num_val total_line) +:+ " by " +:+ fmt_1f edge +:+ ")"
      else
        "Model predicts " +:+ fmt_1f prediction +:+ " (Under "
        +:+ fmt_1f (num_val total_line) +:+ " by " +:+ fmt_1f edge +:+ ")" in
    Ok [ list_to_map
        [ ("game_id", default (VStr EmptyString) (game_id game));
          ("game_description", VStr game_desc);
          ("bet_type", VStr "Total");
          ("pick", VStr pick);
          ("odds", VInt pick_odds);
          ("predicted_prob", VFloat win_prob);
          ("confidence", VFloat adjusted_confidence);
          ("reasoning", VStr reasoning) ] ]
  else Ok [].

End Formatting.

(* ================================================================== *)
(** * best_bets.py: select_best_bets

    The bets are dictionaries shared with the caller: [all_bets] is a
    list of references into a heap of dictionaries, and the assignment
    [bet['score'] = ...] updates the heap. *)

Definition loc := nat.

Abbreviation heap := (gmap loc (gmap string pyval)).

(** [bet[k]]: [KeyError] when the key is missing. *)
Definition get_item (h : heap) (bet : loc) (k : string) : result pyval :=
  match h !! bet with
  | Some d =>
      match d !! k with
      | Some v => Ok v
      | None => Raise KeyError
      end
  | None => Raise KeyError
  end.

(** [bet[k] = v]. *)
Definition set_item (h : heap) (bet : loc) (k : string) (v : pyval) : heap :=
  match h !! bet with
  | Some d => <[bet := <[k := v]> d]> h
  | None => h
  end.

(** Line 123: the list comprehension; it only reads. *)
Fixpoint eligible_bets (max_odds : Q) (h : heap) (all_bets : list loc)
    : result (list loc) :=
  match all_bets with
  | [] => Ok []
  | bet :: rest =>
      v ← get_item h bet "odds";
      o ← number v;
      r ← eligible_bets max_odds h rest;
      Ok (if meets_odds_criteria max_odds o then bet :: r else r)
  end.

(** The right-hand side of line 127: the three subscripts are evaluated
    first, then the arithmetic of calculate_bet_score. *)
Definition bet_score {R : Rounding} (h : heap) (bet : loc) : result Q :=
  vp ← get_item h bet "predicted_prob";
  vo ← get_item h bet "odds";
  vc ← get_item h bet "confidence";
  p ← number vp;
  c ← number vc;
  o ← number vo;
  Ok (calculate_bet_score p o c).

(** Lines 126-131: the loop that assigns the scores.  An exception
    leaves the heap as the loop had it. *)
Fixpoint assign_scores {R : Rounding} (h : heap) (bets : list loc)
    : heap * result unit :=
  match bets with
  | [] => (h, Ok tt)
  | bet :: rest =>
      match bet_score h bet with
      | Ok s => assign_scores (set_item h bet "score" (VFloat s)) rest
      | Raise e => (h, Raise e)
      end
  end.

(** The sort key of line 134, [x['score']]. *)
Fixpoint sort_keys (h : heap) (bets : list loc) : result (list (Q * loc)) :=
  match bets with
  | [] => Ok []
  | bet :: rest =>
      v ← get_item h bet "score";
      k ← number v;
      r ← sort_keys h rest;
      Ok ((k, bet) :: r)
  end.

(** [sorted(..., reverse=True)] is a stable sort: among equal keys the
    input order is kept.  A stable sort has one possible result, given
    here by insertion. *)
Fixpoint insert_desc (x : Q * loc) (l : list (Q * loc)) : list (Q * loc) :=
  match l with
  | [] => [x]
  | y :: r =>
      if Qltb (fst x) (fst y) then y :: insert_desc x r else x :: y :: r
  end.

Definition sorted_desc (l : list (Q * loc)) : list (Q * loc) :=
  fold_right insert_desc [] l.

Definition select_best_bets {R : Rounding} (max_odds : Q) (h : heap)
    (all_bets : list loc) : heap * result (list loc) :=
  match eligible_bets max_odds h all_bets with
  | Raise e => (h, Raise e)
  | Ok eligible =>
      match assign_scores h eligible with
      | (h', Raise e) => (h', Raise e)
      | (h', Ok _) =>
          match sort_keys h' eligible with
          | Raise e => (h', Raise e)
          | Ok keyed =>
              let sorted_bets := map snd (sorted_desc keyed) in
              (h', Ok (firstn 5 sorted_bets))
          end
      end
  end.

(* ================================================================== *)
(** * model_picks_db.py: grading stored picks

    A stored pick is a row of the table of picks; the graders read its
    text columns ['pick'] and ['home_team'].  Strings are taken to be
    ASCII: [str.split()] splits at the ASCII whitespace characters. *)

Record PickRow := {
  row_pick : string;
  row_home_team : string
}.

(** What parsing a pick can raise. *)
Inductive parse_exn := IndexError | ValueError.

Inductive outcome (A : Type) :=
| Returns (a : A)
| Raises (e : parse_exn).

Arguments Returns {A} a.
Arguments Raises {A} e.

(** [c.isspace()] for an ASCII character. *)
Definition is_space (c : ascii) : bool :=
  let n := nat_of_ascii c in
  ((9 <=? n) && (n <=? 13) || (28 <=? n) && (n <=? 32))%nat.

(** [s.split()]: the maximal runs of non-whitespace characters.  [word]
    is the run read so far. *)
Fixpoint py_split_from (s : string) (word : string) : list string :=
  match s with
  | EmptyString =>
      match word with
      | EmptyString => []
      | _ => [word]
      end
  | String c r =>
      if is_space c then
        match word with
        | EmptyString => py_split_from r EmptyString
        | _ => word :: py_split_from r EmptyString
        end
      else py_split_from r (word +:+ String c EmptyString)
  end.

Definition py_split (s : string) : list string := py_split_from s EmptyString.

(** [' '.join(parts)]. *)
Fixpoint join_spaces (parts : list string) : string :=
  match parts with
  | [] => EmptyString
  | [w] => w
  | w :: rest => w +:+ " " +:+ join_spaces rest
  end.

(** [sub in s]. *)
Fixpoint py_contains (sub s : string) : bool :=
  String.prefix sub s
  || match s with
     | EmptyString => false
     | String _ r => py_contains sub r
     end.

Section Grading.

(** [float(s)], [None] when it raises [ValueError]. *)
Variable py_float : string -> option Q.

(** [float(pick_parts[-1])]. *)
Definition last_number (pick_parts : list string) : outcome Q :=
  match last pick_parts with
  | None => Raises IndexError
  | Some w =>
      match py_float w with
      | Some x => Returns x
      | None => Raises ValueError
      end
  end.

Definition _calculate_spread_result (pick : PickRow)
    (home_score away_score : Z) : outcome bool :=
  let pick_parts := py_split (row_pick pick) in
  let pick_team := join_spaces (removelast pick_parts) in
  match last_number pick_parts with
  | Raises e => Raises e
  | Returns pick_spread =>
      let actual_margin := inject_Z (home_score - away_score) in
      if String.eqb pick_team (row_home_team pick)
      then Returns (Qltb (- pick_spread) actual_margin)
      else Returns (Qltb actual_margin pick_spread)
  end.

Definition _calculate_total_result (pick : PickRow)
    (home_score away_score : Z) : outcome bool :=
  let total := inject_Z (home_score + away_score) in
  let pick_parts := py_split (row_pick pick) in
  match last_number pick_parts with
  | Raises e => Raises e
  | Returns line =>
      if py_contains "Over" (row_pick pick)
      then Returns (Qltb line total)
      else Returns (Qltb total line)
  end.

End Grading.

(** The string has no whitespace character. *)
Fixpoint no_space (s : string) : bool :=
  match s with
  | EmptyString => true
  | String c r => negb (is_space c) && no_space r
  end.

(** The string is empty or all whitespace. *)
Fixpoint all_space (s : string) : bool :=
  match s with
  | EmptyString => true
  | String c r => is_space c && all_space r
  end.

(* ================================================================== *)
(** * analyze_best_bets.py: checking a bet against a final score

    The bet is one of the dictionaries of create_bet_from_prediction, read
    through its text values ['bet_type'] and ['pick'].  The game holds
    integer scores and team names; a key that is absent gets the default
    of [game.get]. *)

Record BetRow := {
  bet_type : string;
  bet_pick : string
}.

Record FinalGame := {
  final_home_score : option Z;
  final_away_score : option Z;
  final_home_team : option string;
  final_away_team : option string
}.

(** [s.rsplit(' ', 1)]: the text before and after the last space; [None]
    stands for the one-element list that a string without a space gives. *)
Fixpoint rsplit_space (s : string) : option (string * string) :=
  match s with
  | EmptyString => None
  | String c r =>
      match rsplit_space r with
      | Some (a, b) => Some (String c a, b)
      | None => if Ascii.eqb c " " then Some (EmptyString, r) else None
      end
  end.

Fixpoint drop_chars (n : nat) (s : string) : string :=
  match n, s with
  | S k, String _ r => drop_chars k r
  | _, _ => s
  end.

(** The text after the first occurrence of [sep], when there is one. *)
Fixpoint after_first (sep s : string) : option string :=
  if String.prefix sep s then Some (drop_chars (String.length sep) s)
  else match s with
       | EmptyString => None
       | String _ r => after_first sep r
       end.

(** The text before the first occurrence of [sep]; all of [s] when there
    is none. *)
Fixpoint before_first (sep s : string) : string :=
  if String.prefix sep s then EmptyString
  else match s with
       | EmptyString => EmptyString
       | String c r => String c (before_first sep r)
       end.

(** [s.split(sep)[1]] for a separator that is not empty. *)
Definition second_part (sep s : string) : outcome string :=
  match after_first sep s with
  | Some rest => Returns (before_first sep rest)
  | None => Raises IndexError
  end.

Section Checking.

Variable py_float : string -> option Q.

(** [str(x)] of a float, and the format specification [:+.0f]. *)
Variable repr_float : Q -> string.
Variable fmt_plus_0f : Q -> string.

Definition check_bet_result (bet : BetRow) (game : FinalGame)
    : outcome (bool * string * Q) :=
  let home_score := default 0%Z (final_home_score game) in
  let away_score := default 0%Z (final_away_score game) in
  let actual_spread := inject_Z (home_score - away_score) in
  let actual_total := inject_Z (home_score + away_score) in
  let pick := bet_pick bet in
  let total_result line :=
    "Total: " +:+ pretty (home_score + away_score)%Z
    +:+ " (Line: " +:+ repr_float line +:+ ")" in
  if String.eqb (bet_type bet) "Spread" then
    match rsplit_space pick with
    | None => Returns (false, "Error parsing pick", 0)
    | Some (team_name, number) =>
        match py_float number with
        | None => Raises ValueError
        | Some spread_value =>
            let home_team := default EmptyString (final_home_team game) in
            let away_team := default EmptyString (final_away_team game) in
            if String.eqb team_name home_team then
              Returns (Qltb spread_value actual_spread,
                       home_team +:+ " " +:+ pretty home_score +:+ ", "
                       +:+ away_team +:+ " " +:+ pretty away_score
                       +:+ " (Home by " +:+ fmt_plus_0f actual_spread +:+ ")",
                       actual_spread - spread_value)
            else if String.eqb team_name away_team then
              Returns (Qltb actual_spread spread_value,
                       away_team +:+ " " +:+ pretty away_score +:+ ", "
                       +:+ home_team +:+ " " +:+ pretty home_score
                       +:+ " (Away by " +:+ fmt_plus_0f (- actual_spread)
                       +:+ ")",
                       spread_value - actual_spread)
            else Returns (false, "Team name mismatch", 0)
        end
    end
  else if String.eqb (bet_type bet) "Total" then
    if py_contains "Over" pick then
      match second_part "Over " pick with
      | Raises e => Raises e
      | Returns number =>
          match py_float number with
          | None => Raises ValueError
          | Some line =>
              Returns (Qltb line actual_total, total_result line,
                       actual_total - line)
          end
      end
    else if py_contains "Under" pick then
      match second_part "Under " pick with
      | Raises e => Raises e
      | Returns number =>
          match py_float number with
          | None => Raises ValueError
          | Some line =>
              Returns (Qltb actual_total line, total_result line,
                       line - actual_total)
          end
      end
    else Returns (false, "Error parsing total", 0)
  else Returns (false, "Unknown bet type", 0).

End Checking.

(* ================================================================== *)
(** * Reading a game context *)

(** The market home spread that predict_spread finds in the context:
    the number at [game_info['odds']['spread']['home_spread']] when every
    step of that path is there. *)
Definition context_home_spread (game_info : option GameInfo) : option Q :=
  match game_info with
  | Some gi =>
      match odds gi with
      | Some (OddsDict od) =>
          match spread od with
          | Some (SpreadDict d) => home_spread d ≫= as_number
          | _ => None
          end
      | _ => None
      end
  | None => None
  end.

(** The context is one whose market predict_spread can read: the value
    under ['odds'], when there is one, is a dictionary, and the market
    home spread, when there is one, is a number or [None]. *)
Definition odds_readable (game_info : option GameInfo) : bool :=
  match game_info with
  | Some gi =>
      match odds gi with
      | Some OddsNotDict => false
      | Some (OddsDict od) =>
          match spread od with
          | Some (SpreadDict d) =>
              match home_spread d with
              | Some (VStr _) => false
              | _ => true
              end
          | _ => true
          end
      | None => true
      end
  | None => true
  end.

(** A market line with its default, as a number. *)
Definition line_number (dflt : Z) (v : option pyval) : option Q :=
  as_number (default (VInt dflt) v).

(* ================================================================== *)
(** * Bets that come from predictions *)

(** The dictionary is one of those that create_bet_from_prediction
    returns, for some game, prediction and odds. *)
Definition created_bet {R : Rounding} (bet : gmap string pyval) : Prop :=
  exists (repr_float fmt_1f fmt_plus_1f : Q -> string) (game : GameRef)
         (prediction_type : string) (prediction confidence : Q)
         (odds_data : OddsData) (bets : list (gmap string pyval)),
    create_bet_from_prediction repr_float fmt_1f fmt_plus_1f game
      prediction_type prediction confidence odds_data = Ok bets
    /\ bet ∈ bets.

(* ================================================================== *)
(** * Reading a heap of bets *)

(** The number under key [k] of the bet at [bet], when there is one. *)
Definition item_number (h : heap) (bet : loc) (k : string) : option Q :=
  d ← h !! bet; v ← d !! k; as_number v.

(** The bet passes the odds filter. *)
Definition bet_passes (max_odds : Q) (h : heap) (bet : loc) : bool :=
  match item_number h bet "odds" with
  | Some o => meets_odds_criteria max_odds o
  | None => false
  end.

(** The score that calculate_bet_score gives the bet. *)
Definition expected_score {R : Rounding} (h : heap) (bet : loc) : option Q :=
  p ← item_number h bet "predicted_prob";
  o ← item_number h bet "odds";
  c ← item_number h bet "confidence";
  Some (calculate_bet_score p o c).

(** What select_best_bets needs of an input bet: numeric odds, and a
    numeric value rating and confidence when it passes the odds filter. *)
Definition bet_ready {R : Rounding} (max_odds : Q) (h : heap) (bet : loc)
    : bool :=
  match item_number h bet "odds" with
  | Some o =>
      if meets_odds_criteria max_odds o
      then bool_decide (is_Some (expected_score h bet))
      else true
  | None => false
  end.

(** The ['score'] of a bet, 0 when it has none. *)
Definition score_in (h : heap) (bet : loc) : Q :=
  default 0 (item_number h bet "score").

(** The bet has been given its score: nothing but ['score'] differs. *)
Definition scored {R : Rounding} (h0 h : heap) (bet : loc) : Prop :=
  exists d s,
    h0 !! bet = Some d /\ expected_score h0 bet = Some s
    /\ h !! bet = Some (<["score" := VFloat s]> d).

(** Every bet is as it was or has been given its score. *)
Definition scores_only {R : Rounding} (h0 h : heap) : Prop :=
  forall bet, h !! bet = h0 !! bet \/ scored h0 h bet.

(** Descending order of the sort key, and the pairs with a given key. *)
Definition key_ge (a b : Q * loc) : Prop := fst b <= fst a.

Definition has_key (s : Q) (p : Q * loc) : bool := Qeq_bool (fst p) s.

(** Descending order of the score. *)
Definition score_ge (h : heap) (a b : loc) : Prop :=
  score_in h b <= score_in h a.

(** The bets whose score is [s], in the order of the list. *)
Definition with_score (h : heap) (s : Q) (bets : list loc) : list loc :=
  List.filter (fun bet => Qeq_bool (score_in h bet) s) bets.

(* ================================================================== *)
(** * Instances of the parameters, and sample data *)

(** Two roundings: ties to the even neighbour, and ties upwards. *)
#[refine] Definition half_even : Rounding :=
  {| round_int := round_half_even |}.
Proof.
  - intros x y Hxy. unfold round_half_even.
    rewrite (Qfloor_comp x y Hxy).
    assert (Hc : Qcompare (x - inject_Z (Qfloor y)) (1 # 2)
                 = Qcompare (y - inject_Z (Qfloor y)) (1 # 2))
      by (apply Qcompare_comp; [rewrite Hxy|]; reflexivity).
    rewrite Hc. reflexivity.
  - intros x. unfold round_half_even.
    pose proof (Qfloor_le x) as H1. pose proof (Qlt_floor x) as H2.
    rewrite inject_Z_plus in H2. change (inject_Z 1) with 1 in H2.
    destruct (Qcompare (x - inject_Z (Qfloor x)) (1 # 2)) eqn:E;
      [apply Qeq_alt in E; destruct (Z.even (Qfloor x))
      | apply Qlt_alt in E | apply Qgt_alt in E];
      try (rewrite inject_Z_plus; change (inject_Z 1) with 1);
      apply Qabs_Qle_condition; split; lra.
Defined.

#[refine] Definition half_up : Rounding :=
  {| round_int := round_half_up |}.
Proof.
  - intros x y Hxy. unfold round_half_up. apply Qfloor_comp.
    rewrite Hxy. reflexivity.
  - intros x. unfold round_half_up.
    pose proof (Qfloor_le (x + (1 # 2))) as H1.
    pose proof (Qlt_floor (x + (1 # 2))) as H2.
    rewrite inject_Z_plus in H2. change (inject_Z 1) with 1 in H2.
    apply Qabs_Qle_condition; split; lra.
Defined.

(** A square root to three decimals. *)
Definition sqrt_milli (q : Q) : Q :=
  inject_Z (Z.sqrt (Qfloor (q * 1000000))) / 1000.

Definition digit_of (c : ascii) : option Z :=
  let n := Z.of_nat (nat_of_ascii c) in
  if (48 <=? n)%Z && (n <=? 57)%Z then Some (n - 48)%Z else None.

Fixpoint digits_value (s : string) (acc : Z) : option Z :=
  match s with
  | EmptyString => Some acc
  | String c r =>
      match digit_of c with
      | Some d => digits_value r (10 * acc + d)%Z
      | None => None
      end
  end.

(** The calendar dates [YYYY-MM-DD] that [datetime.fromisoformat]
    accepts; every other string is refused here. *)
Definition iso_calendar_date (s : string) : option (Z * Z * Z) :=
  if (String.length s =? 10)%nat
     && bool_decide (String.get 4 s = Some "-"%char)
     && bool_decide (String.get 7 s = Some "-"%char)
  then
    match digits_value (String.substring 0 4 s) 0,
          digits_value (String.substring 5 2 s) 0,
          digits_value (String.substring 8 2 s) 0 with
    | Some y, Some m, Some d =>
        if ((1 <=? y) && (1 <=? m) && (m <=? 12) && (1 <=? d)
            && (d <=? days_in_month y m))%Z
        then Some (y, m, d) else None
    | _, _, _ => None
    end
  else None.

(** A reading of plain decimals, [[+-]digits[.digits]], as [float] reads
    them; every other string is refused here. *)
Fixpoint before_dot (s : string) : string :=
  match s with
  | EmptyString => EmptyString
  | String c r => if Ascii.eqb c "." then EmptyString else String c (before_dot r)
  end.

Fixpoint after_dot (s : string) : option string :=
  match s with
  | EmptyString => None
  | String c r => if Ascii.eqb c "." then Some r else after_dot r
  end.

Definition unsigned_decimal (s : string) : option Q :=
  let whole := before_dot s in
  let frac := default EmptyString (after_dot s) in
  if ((String.length whole =? 0) && (String.length frac =? 0))%nat then None
  else
    match digits_value whole 0, digits_value frac 0 with
    | Some i, Some f =>
        Some (inject_Z i
              + inject_Z f / inject_Z (10 ^ Z.of_nat (String.length frac)))
    | _, _ => None
    end.

Definition decimal_of_string (s : string) : option Q :=
  match s with
  | String "-" r => Qopp <$> unsigned_decimal r
  | String "+" r => unsigned_decimal r
  | _ => unsigned_decimal s
  end.

(** [:.1f] and [:+.1f] on an exact value. *)
Definition fmt_1f_digits (q : Q) : string :=
  let n := Z.abs (round_half_even (q * 10)) in
  pretty (n / 10)%Z +:+ "." +:+ pretty (n mod 10)%Z.

Definition fmt_1f_exact (q : Q) : string :=
  (if Qltb q 0 then "-" else EmptyString) +:+ fmt_1f_digits q.

Definition fmt_plus_1f_exact (q : Q) : string :=
  (if Qltb q 0 then "-" else "+") +:+ fmt_1f_digits q.

(** [:+.0f] on an exact value. *)
Definition fmt_plus_0f_exact (q : Q) : string :=
  (if Qltb q 0 then "-" else "+") +:+ pretty (Z.abs (round_half_even q)).

(** A final score of 72 to 70 for the home team. *)
Definition home_by_two : FinalGame :=
  {| final_home_score := Some 72%Z; final_away_score := Some 70%Z;
     final_home_team := Some "Home"; final_away_team := Some "Away" |}.

(** A provider that knows nothing: empty statistics, no recent games. *)
Definition api_empty : API :=
  {| get_team_stats := fun _ => ∅;
     get_recent_games := fun _ _ => [] |}.

(** Both teams with a pace of 72 and nothing else on record. *)
Definition api_pace72 : API :=
  {| get_team_stats := fun _ => {[ "pace" := 72 ]};
     get_recent_games := fun _ _ => [] |}.

(** An extreme mismatch without recent games on record: team 1 scores
    180 and allows 60 per 100 possessions, team 2 the reverse. *)
Definition team_record (off def games wins losses : Q) : gmap string Q :=
  list_to_map
    [ ("offensive_rating", off); ("defensive_rating", def);
      ("games", games); ("wins", wins); ("losses", losses) ].

Definition api_mismatch : API :=
  {| get_team_stats := fun team =>
       if (team =? 1)%Z then team_record 180 60 30 30 0
       else team_record 60 180 30 0 30;
     get_recent_games := fun _ _ => [] |}.

Definition home_game (home_id : Z) (home_pts away_pts : Q) : gmap string Q :=
  list_to_map
    [ ("home_score", home_pts); ("away_score", away_pts);
      ("home_team_id", inject_Z home_id) ].

(** Team 1 won its two recent home games 90-65 and 96-70; team 2 has no
    recent game; no statistics for either. *)
Definition api_two_wins : API :=
  {| get_team_stats := fun _ => ∅;
     get_recent_games := fun team _ =>
       if (team =? 1)%Z then [home_game 1 90 65; home_game 1 96 70] else [] |}.

(** A context whose market has the home team favoured by 20. *)
Definition info_home_minus_20 : GameInfo :=
  {| odds := Some (OddsDict
                {| spread := Some (SpreadDict
                       {| home_spread := Some (VInt (-20));
                          away_spread := Some (VInt 20);
                          home_odds := Some (-110)%Z;
                          away_odds := Some (-110)%Z |});
                   total := None |});
     home_conference := None; away_conference := None;
     start_date := None |}.

(** A context whose ['odds'] is [None]. *)
Definition info_odds_none : GameInfo :=
  {| odds := Some OddsNotDict;
     home_conference := None; away_conference := None;
     start_date := None |}.

(** A market with the home team as underdog by 5. *)
Definition odds_home_plus_5 : OddsData :=
  {| spread := Some (SpreadDict
                 {| home_spread := Some (VFloat 5);
                    away_spread := Some (VFloat (-5));
                    home_odds := Some (-110)%Z; away_odds := Some (-110)%Z |});
     total := None |}.

(** A market whose total is [None], and one whose line is [None]. *)
Definition odds_total_none : OddsData :=
  {| spread := None; total := Some TotalNotDict |}.

Definition odds_line_none : OddsData :=
  {| spread := None;
     total := Some (TotalDict
                {| line := Some VNone; over_odds := None;
                   under_odds := None |}) |}.

Definition info_with_date (s : string) : GameInfo :=
  {| odds := None; home_conference := None; away_conference := None;
     start_date := Some (DateStr s) |}.

(** Four bets at the odds -110, -150 (refused at a ceiling of -125), +120
    and -110 again; the first and the last have the same score. *)
Definition sample_bet (bet_odds : Z) (prob conf : Q) : gmap string pyval :=
  list_to_map
    [ ("pick", VStr "Home -3.5"); ("odds", VInt bet_odds);
      ("predicted_prob", VFloat prob); ("confidence", VFloat conf) ].

Definition sample_heap : heap :=
  list_to_map
    [ (0%nat, sample_bet (-110) 0.55 0.5);
      (1%nat, sample_bet (-150) 0.60 0.5);
      (2%nat, sample_bet 120 0.60 0.5);
      (3%nat, sample_bet (-110) 0.55 0.5) ].

Definition game_unnamed : GameRef :=
  {| game_id := None; home_team := None; away_team := None |}.

(* ================================================================== *)
(** * Facts about the numeric helpers *)

Lemma Qleb_le (x y : Q) : Qleb x y = true <-> x <= y.
Proof. apply Qle_bool_iff. Qed.

Lemma Qleb_gt (x y : Q) : Qleb x y = false <-> y < x.
Proof.
  unfold Qleb. split; intros H.
  - apply Qnot_le_lt. intros Hle. apply Qle_bool_iff in Hle. congruence.
  - destruct (Qle_bool x y) eqn:E; [|reflexivity].
    apply Qle_bool_iff in E. lra.
Qed.

Lemma Qltb_lt (x y : Q) : Qltb x y = true <-> x < y.
Proof.
  unfold Qltb. rewrite negb_true_iff. apply (Qleb_gt y x).
Qed.

Lemma Qltb_ge (x y : Q) : Qltb x y = false <-> y <= x.
Proof.
  unfold Qltb. rewrite negb_false_iff. apply Qle_bool_iff.
Qed.

Lemma py_max_spec (a b : Q) : a <= py_max a b /\ b <= py_max a b.
Proof.
  unfold py_max. destruct (Qltb a b) eqn:E.
  - apply Qltb_lt in E. lra.
  - apply Qltb_ge in E. lra.
Qed.

Lemma py_min_spec (a b : Q) : py_min a b <= a /\ py_min a b <= b.
Proof.
  unfold py_min. destruct (Qltb b a) eqn:E.
  - apply Qltb_lt in E. lra.
  - apply Qltb_ge in E. lra.
Qed.

Lemma py_max_lub (a b c : Q) : a <= c -> b <= c -> py_max a b <= c.
Proof. unfold py_max. destruct (Qltb a b); auto. Qed.

Lemma py_min_glb (a b c : Q) : c <= a -> c <= b -> c <= py_min a b.
Proof. unfold py_min. destruct (Qltb b a); auto. Qed.

(** A clamp [max(lo, min(hi, x))] lands in [[lo, hi]]. *)
Lemma clamp_bounds (lo hi x : Q) :
  lo <= hi -> lo <= py_max lo (py_min hi x) <= hi.
Proof.
  intros Hlh. split.
  - apply py_max_spec.
  - apply py_max_lub; [exact Hlh | apply py_min_spec].
Qed.

Lemma pow10_pos (n : nat) : 0 < inject_Z (10 ^ Z.of_nat n).
Proof.
  change 0 with (inject_Z 0). rewrite <- Zlt_Qlt.
  apply Z.pow_pos_nonneg; lia.
Qed.

(* ================================================================== *)
(** * Rounding to a nearest multiple *)

Section RoundingFacts.

Context {R : Rounding}.

(** Away from a tie the nearest integer is the only choice. *)
Lemma round_int_unique (x : Q) (k : Z) :
  Qabs (x - inject_Z k) < 1 # 2 -> round_int x = k.
Proof.
  intros H. pose proof (round_int_nearest x) as Hn.
  apply Qabs_Qlt_condition in H. apply Qabs_Qle_condition in Hn.
  destruct H as [H1 H2], Hn as [H3 H4].
  assert (Hlt : inject_Z (round_int x - k) < 1).
  { unfold Z.sub. rewrite inject_Z_plus, inject_Z_opp. lra. }
  assert (Hgt : -1 < inject_Z (round_int x - k)).
  { unfold Z.sub. rewrite inject_Z_plus, inject_Z_opp. lra. }
  change 1 with (inject_Z 1) in Hlt. change (-1) with (inject_Z (-1)) in Hgt.
  rewrite <- Zlt_Qlt in Hlt, Hgt. lia.
Qed.

Lemma round_int_mono (x y : Q) :
  x <= y -> (round_int x <= round_int y)%Z.
Proof.
  intros Hxy. destruct (Z_le_gt_dec (round_int x) (round_int y)) as [|Hgt];
    [assumption|]. exfalso.
  pose proof (round_int_nearest x) as Hx.
  pose proof (round_int_nearest y) as Hy.
  apply Qabs_Qle_condition in Hx, Hy.
  destruct Hx as [Hx1 Hx2], Hy as [Hy1 Hy2].
  assert (Hz : inject_Z (round_int y) + 1 <= inject_Z (round_int x)).
  { change 1 with (inject_Z 1). rewrite <- inject_Z_plus, <- Zle_Qle. lia. }
  assert (Heq : x == y) by lra.
  apply round_int_proper in Heq. lia.
Qed.

Lemma py_round_mono (x y : Q) (n : nat) :
  x <= y -> py_round x n <= py_round y n.
Proof.
  intros Hxy. unfold py_round.
  pose proof (pow10_pos n) as Hp.
  apply Qmult_le_compat_r.
  - rewrite <- Zle_Qle. apply round_int_mono.
    apply Qmult_le_compat_r; [exact Hxy | lra].
  - apply Qlt_le_weak, Qinv_lt_0_compat, Hp.
Qed.

Lemma py_round_eq (x y : Q) (n : nat) :
  x == y -> py_round x n = py_round y n.
Proof.
  intros Hxy. unfold py_round. f_equal. f_equal.
  apply round_int_proper. rewrite Hxy. reflexivity.
Qed.

Lemma py_round_proper (x y : Q) (n : nat) :
  x == y -> py_round x n == py_round y n.
Proof. intros Hxy. rewrite (py_round_eq x y n Hxy). reflexivity. Qed.

(** A multiple of 10^-n is left as it is. *)
Lemma py_round_on_grid (x : Q) (n : nat) :
  on_grid x n = true -> py_round x n == x.
Proof.
  unfold on_grid, py_round. intros H. apply Qeq_bool_iff in H.
  pose proof (pow10_pos n) as Hp.
  set (p := inject_Z (10 ^ Z.of_nat n)) in *.
  rewrite (round_int_unique (x * p) (Qfloor (x * p))).
  - rewrite H. field. lra.
  - rewrite H. setoid_replace (x * p - x * p) with 0 using relation Qeq by ring.
    reflexivity.
Qed.


(** Away from a tie the result is the nearest multiple, whatever the
    rounding. *)
Lemma py_round_value (x v : Q) (n : nat) :
  on_grid v n = true ->
  Qabs (x - v) < (1 # 2) / inject_Z (10 ^ Z.of_nat n) ->
  py_round x n == v.
Proof.
  intros Hg Hx. pose proof (pow10_pos n) as Hp. unfold py_round.
  unfold on_grid in Hg. apply Qeq_bool_iff in Hg.
  set (p := inject_Z (10 ^ Z.of_nat n)) in *.
  rewrite (round_int_unique (x * p) (Qfloor (v * p))).
  - rewrite Hg. field. lra.
  - rewrite Hg. apply Qabs_Qlt_condition in Hx. destruct Hx as [H1 H2].
    assert (Hh : (1 # 2) / p * p == 1 # 2) by (field; lra).
    set (h := (1 # 2) / p) in *.
    apply Qabs_Qlt_condition. split.
    + assert (- h * p < (x - v) * p) by (apply Qmult_lt_compat_r; lra). lra.
    + assert ((x - v) * p < h * p) by (apply Qmult_lt_compat_r; lra). lra.
Qed.

(** Rounding keeps a value between two bounds that are multiples of
    10^-n. *)
Lemma py_round_between (lo hi x : Q) (n : nat) :
  on_grid lo n = true -> on_grid hi n = true ->
  lo <= x <= hi -> lo <= py_round x n <= hi.
Proof.
  intros Hlo Hhi [H1 H2]. split.
  - rewrite <- (py_round_on_grid lo n Hlo). apply py_round_mono, H1.
  - rewrite <- (py_round_on_grid hi n Hhi). apply py_round_mono, H2.
Qed.

End RoundingFacts.

(** The value of a rounding away from a tie, by computation. *)
Ltac round_value :=
  apply py_round_value; [reflexivity | vm_compute; reflexivity].

(** A multiple of 10^-n is its own rounding. *)
Ltac round_fixed := apply py_round_on_grid; reflexivity.

(* ================================================================== *)
(** * The bet score *)

Lemma implied_probability_le_1 (odds : Q) :
  american_odds_to_probability odds <= 1.
Proof.
  unfold american_odds_to_probability.
  destruct (Qltb odds 0) eqn:E.
  - pose proof (Qabs_nonneg odds) as Ha.
    apply Qle_shift_div_r; lra.
  - apply Qltb_ge in E. apply Qle_shift_div_r; lra.
Qed.

(** The odds factor of calculate_bet_score is positive for all odds. *)
Lemma odds_factor_pos (odds : Q) :
  0 < 1 - (american_odds_to_probability odds - 0.5) * 0.2.
Proof. pose proof (implied_probability_le_1 odds). lra. Qed.

Lemma raw_bet_score_lt (odds v1 v2 c1 c2 : Q) :
  v1 * 0.6 + c1 * 0.4 < v2 * 0.6 + c2 * 0.4 ->
  raw_bet_score v1 odds c1 < raw_bet_score v2 odds c2.
Proof.
  intros H. unfold raw_bet_score.
  apply Qmult_lt_compat_r; [apply odds_factor_pos | exact H].
Qed.

(** C5, as the code has it: with the odds held fixed, the score before
    rounding is strictly increasing in the value rating and in the
    confidence, and the returned score, which is rounded to 4 decimals, is
    non-decreasing in each of them. *)
Theorem calculate_bet_score_monotone {R : Rounding} (odds v1 v2 c1 c2 : Q) :
  (v1 < v2 ->
   raw_bet_score v1 odds c1 < raw_bet_score v2 odds c1
   /\ calculate_bet_score v1 odds c1 <= calculate_bet_score v2 odds c1)
  /\ (c1 < c2 ->
      raw_bet_score v1 odds c1 < raw_bet_score v1 odds c2
      /\ calculate_bet_score v1 odds c1 <= calculate_bet_score v1 odds c2).
Proof.
  split.
  - intros Hv.
    assert (Hr : raw_bet_score v1 odds c1 < raw_bet_score v2 odds c1)
      by (apply raw_bet_score_lt; lra).
    split; [exact Hr|].
    unfold calculate_bet_score. apply py_round_mono. lra.
  - intros Hc.
    assert (Hr : raw_bet_score v1 odds c1 < raw_bet_score v1 odds c2)
      by (apply raw_bet_score_lt; lra).
    split; [exact Hr|].
    unfold calculate_bet_score. apply py_round_mono. lra.
Qed.

Lemma calculate_bet_score_monotone_witness :
  (0.55 < 0.60 /\ 0.5 < 0.7)
  /\ (raw_bet_score 0.55 (-110) 0.5 < raw_bet_score 0.60 (-110) 0.5
      /\ calculate_bet_score (R := half_even) 0.55 (-110) 0.5
         <= calculate_bet_score (R := half_even) 0.60 (-110) 0.5)
  /\ (raw_bet_score 0.55 (-110) 0.5 < raw_bet_score 0.55 (-110) 0.7
      /\ calculate_bet_score (R := half_even) 0.55 (-110) 0.5
         <= calculate_bet_score (R := half_even) 0.55 (-110) 0.7).
Proof.
  destruct (calculate_bet_score_monotone (R := half_even)
        (-110) 0.55 0.60 0.5 0.7)
    as [Hv Hc].
  split; [split; reflexivity|].
  split; [apply Hv | apply Hc]; reflexivity.
Defined.

(** C5 as stated fails: two value ratings that differ by 0.00001 get the
    same rounded score 0.4976 at odds -110 and confidence 0.5, whatever
    the rounding does at ties. *)
Lemma calculate_bet_score_not_strict :
  0.5 < 0.50001
  /\ forall R : Rounding,
       calculate_bet_score 0.5 (-110) 0.5 == 0.4976
       /\ calculate_bet_score 0.50001 (-110) 0.5 == 0.4976
       /\ ~ (calculate_bet_score 0.5 (-110) 0.5
             < calculate_bet_score 0.50001 (-110) 0.5).
Proof.
  split; [reflexivity|]. intros R.
  assert (H1 : calculate_bet_score 0.5 (-110) 0.5 == 0.4976)
    by (unfold calculate_bet_score; round_value).
  assert (H2 : calculate_bet_score 0.50001 (-110) 0.5 == 0.4976)
    by (unfold calculate_bet_score; round_value).
  split; [exact H1|]. split; [exact H2|].
  rewrite H1, H2. intros H. discriminate H.
Qed.

Lemma meets_odds_criteria_examples :
  meets_odds_criteria (-125) (-110) = true
  /\ meets_odds_criteria (-125) (-150) = false
  /\ meets_odds_criteria (-125) 150 = true.
Proof. repeat split. Qed.

(* ================================================================== *)
(** * The value-rating curves *)

Lemma total_to_probability_range (edge : Q) :
  0.50 <= _total_to_probability edge <= 0.65.
Proof.
  unfold _total_to_probability.
  destruct (Qltb (Qabs edge) 0.5).
  - split; [apply Qle_refl | discriminate].
  - apply clamp_bounds. discriminate.
Qed.

Lemma spread_to_probability_range (edge : Q) :
  0.50 <= _spread_to_probability edge <= 0.70.
Proof.
  unfold _spread_to_probability.
  destruct (Qltb (Qabs edge) 0.5).
  - split; [apply Qle_refl | discriminate].
  - apply clamp_bounds. discriminate.
Qed.

Lemma spread_to_probability_small :
  _spread_to_probability 0.3 == 0.50.
Proof. reflexivity. Qed.

(** Case analysis on every boolean comparison of the goal. *)
Ltac qbool :=
  repeat match goal with
  | |- context [Qltb ?a ?b] =>
      let E := fresh "E" in
      destruct (Qltb a b) eqn:E;
      [apply Qltb_lt in E | apply Qltb_ge in E]
  | |- context [Qleb ?a ?b] =>
      let E := fresh "E" in
      destruct (Qleb a b) eqn:E;
      [apply Qleb_le in E | apply Qleb_gt in E]
  end.

Lemma py_min_cases (a b : Q) :
  (py_min a b = a /\ a <= b) \/ (py_min a b = b /\ b < a).
Proof.
  unfold py_min. destruct (Qltb b a) eqn:E.
  - right. apply Qltb_lt in E. auto.
  - left. apply Qltb_ge in E. auto.
Qed.

Lemma py_max_cases (a b : Q) :
  (py_max a b = a /\ b <= a) \/ (py_max a b = b /\ a < b).
Proof.
  unfold py_max. destruct (Qltb a b) eqn:E.
  - right. apply Qltb_lt in E. auto.
  - left. apply Qltb_ge in E. auto.
Qed.

(** Case analysis on every [py_min] and [py_max] in sight. *)
Ltac qclamp :=
  repeat match goal with
  | |- context [py_min ?a ?b] =>
      destruct (py_min_cases a b) as [[-> ?] | [-> ?]]
  | |- context [py_max ?a ?b] =>
      destruct (py_max_cases a b) as [[-> ?] | [-> ?]]
  | H : context [py_min ?a ?b] |- _ =>
      destruct (py_min_cases a b) as [[-> ?] | [-> ?]]
  | H : context [py_max ?a ?b] |- _ =>
      destruct (py_max_cases a b) as [[-> ?] | [-> ?]]
  end.

Lemma clamp_mono (lo hi x y : Q) :
  x <= y -> py_max lo (py_min hi x) <= py_max lo (py_min hi y).
Proof. intros H. qclamp; lra. Qed.

(** On the favoured side the curve never goes down. *)
Lemma spread_to_probability_mono_pos (e1 e2 : Q) :
  0 < e1 -> e1 <= e2 ->
  _spread_to_probability e1 <= _spread_to_probability e2.
Proof.
  intros H1 H12.
  assert (Ha1 : Qabs e1 == e1) by (apply Qabs_pos; lra).
  assert (Ha2 : Qabs e2 == e2) by (apply Qabs_pos; lra).
  assert (Hs1 : Qltb 0 e1 = true) by (apply Qltb_lt; lra).
  assert (Hs2 : Qltb 0 e2 = true) by (apply Qltb_lt; lra).
  pose proof (spread_to_probability_range e2) as Hr2.
  unfold _spread_to_probability in *. rewrite Hs1, Hs2 in *.
  set (a1 := Qabs e1) in *. set (a2 := Qabs e2) in *.
  destruct (Qltb a1 0.5) eqn:E1; [apply Hr2|].
  apply Qltb_ge in E1.
  destruct (Qltb a2 0.5) eqn:E2; [apply Qltb_lt in E2; lra|].
  apply clamp_mono. qbool; qclamp; lra.
Qed.

(** C2 at the failing input: for the negative edges -10 and -6 the
    curve gives 0.515 and 0.563, so it rises where it should not (and for
    the edge -5 in between the two bands it gives 0.50). *)
Theorem spread_to_probability_negative_edges :
  _spread_to_probability (-10) == 0.515
  /\ _spread_to_probability (-6) == 0.563
  /\ _spread_to_probability (-5) == 0.50
  /\ -10 < -6
  /\ -6 < 0
  /\ _spread_to_probability (-10) < _spread_to_probability (-6).
Proof. repeat split. Qed.

(** A negative edge is what create_bet_from_prediction passes on when
    the model has the home team ahead by 3 and the market has it behind by
    5: the away side is picked with the edge -5 - 3 = -8 and the rating
    0.539. *)
Lemma spread_bet_negative_edge :
  exists bet rating,
    create_bet_from_prediction (R := half_even)
          fmt_1f_exact fmt_1f_exact fmt_plus_1f_exact
      game_unnamed "spread" 3 0.5 odds_home_plus_5 = Ok [bet]
    /\ bet !! "pick" = Some (VStr "Away -5.0")
    /\ bet !! "predicted_prob" = Some (VFloat rating)
    /\ rating = _spread_to_probability (-5 - 3)
    /\ rating == 0.539.
Proof.
  eexists _, _. split; [reflexivity|]. split; [reflexivity|].
  split; [reflexivity|]. split; reflexivity.
Qed.

(* ================================================================== *)
(** * Recent form *)

(** C9: with no recent game the form is the neutral default, whatever
    the team: win rate 0.5, average margin 0, consistency 0.3 (and scoring
    trend 0). *)
Theorem analyze_recent_form_empty {R : Rounding}
    (np_sqrt : Q -> Q) (team_id : Z) :
  let form := analyze_recent_form np_sqrt [] team_id in
  win_rate form = 0.5
  /\ avg_margin form = 0
  /\ scoring_trend form = 0
  /\ consistency form = 0.3.
Proof. repeat split. Qed.

(** The consistency score stays in [[0.25, 0.85]]. *)
Lemma consistency_range {R : Rounding} (np_sqrt : Q -> Q)
    (recent_games : list (gmap string Q)) (team_id : Z) :
  0.25 <= consistency (analyze_recent_form np_sqrt recent_games team_id) <= 0.85.
Proof.
  destruct recent_games as [| g rest].
  - split; discriminate.
  - cbn [analyze_recent_form consistency].
    apply py_round_between; [reflexivity | reflexivity |].
    apply clamp_bounds. discriminate.
Qed.

(* ================================================================== *)
(** * Confidence of the predictions *)

Lemma spread_confidence_range (home_form away_form : FormMetrics)
    (num_games : nat) (predicted_spread : Q) :
  0.25 <= consistency home_form <= 0.85 ->
  0.25 <= consistency away_form <= 0.85 ->
  0.306 <= spread_confidence home_form away_form num_games predicted_spread
        <= 0.85.
Proof.
  intros [Hh1 Hh2] [Ha1 Ha2]. unfold spread_confidence.
  set (ch := consistency home_form) in *.
  set (ca := consistency away_form) in *.
  assert (Hb : 0.40 <= py_max 0.40 ((ch + ca) / 2) <= 0.85).
  { split; [apply py_max_spec |].
    apply py_max_lub; [discriminate | apply Qle_shift_div_r; lra]. }
  set (c0 := py_max 0.40 ((ch + ca) / 2)) in *.
  destruct (num_games <? 4)%nat; [| destruct (num_games <? 8)%nat];
    qbool; qclamp; lra.
Qed.

Lemma total_confidence_range (home_form away_form : FormMetrics)
    (num_games : nat) (predicted_total : Q) (p : Projected) :
  0.35 <= total_confidence home_form away_form num_games predicted_total p
       <= 0.75.
Proof. unfold total_confidence. apply clamp_bounds. discriminate. Qed.

(** predict_spread returns when the market of the context can be read. *)
Lemma market_adjust_returns (game_info : option GameInfo) (num_games : nat)
    (x : Q) :
  odds_readable game_info = true ->
  exists r, market_adjust game_info num_games x = Ok r.
Proof.
  unfold odds_readable, market_adjust. intros H.
  destruct game_info as [gi |]; [| eauto].
  destruct (num_games <? 15)%nat; [| eauto].
  destruct (odds gi) as [[od |] |]; try discriminate; cbn; [| eauto].
  destruct (spread od) as [[d |] |]; cbn; eauto.
  destruct (home_spread d) as [[z | q | t |] |]; cbn; eauto. discriminate.
Qed.

(** With fewer than 15 recent games it raises on a context whose
    ['odds'] is not a dictionary. *)
Lemma market_adjust_odds_not_dict (gi : GameInfo) (num_games : nat) (x : Q) :
  odds gi = Some OddsNotDict -> (num_games < 15)%nat ->
  market_adjust (Some gi) num_games x = Raise AttributeError.
Proof.
  intros Ho Hn. unfold market_adjust.
  apply Nat.ltb_lt in Hn. rewrite Hn, Ho. reflexivity.
Qed.

Lemma predict_spread_returned {R : Rounding} (np_sqrt : Q -> Q) (api : API)
    (home_team_id away_team_id : Z) (game_info : option GameInfo) (s c : Q) :
  predict_spread np_sqrt api home_team_id away_team_id game_info = Ok (s, c) ->
  let home_recent := get_recent_games api home_team_id 10 in
  let away_recent := get_recent_games api away_team_id 10 in
  let num_games := (length home_recent + length away_recent)%nat in
  exists blended,
    market_adjust game_info num_games
      (unblended_spread np_sqrt api home_team_id away_team_id game_info)
    = Ok blended
    /\ s = py_round (py_max (-50) (py_min 50 blended)) 1
    /\ c = py_round
             (spread_confidence
                (analyze_recent_form np_sqrt home_recent home_team_id)
                (analyze_recent_form np_sqrt away_recent away_team_id)
                num_games (py_max (-50) (py_min 50 blended))) 3.
Proof.
  unfold predict_spread. cbv zeta.
  destruct (market_adjust _ _ _) as [blended | e]; cbn; [| discriminate].
  intros H. injection H as <- <-. eauto.
Qed.

(** C1, as the code has it, for every valid input: whatever the provider
    returns, on a context whose market can be read predict_spread returns,
    and the confidence it returns lies in [[0.306, 0.85]] (the 0.40 floor
    comes before the sample-size and extreme-spread penalties); the
    confidence of predict_total lies in [[0.35, 0.75]].  A context whose
    ['odds'] is not a dictionary is not a valid input: with fewer than 15
    recent games predict_spread raises [AttributeError] on it. *)
Theorem prediction_confidence_bounds {R : Rounding}
    (np_sqrt : Q -> Q) (fromisoformat : string -> option (Z * Z * Z))
    (api : API) (home_team_id away_team_id : Z)
    (game_info : option GameInfo) :
  let spread_result :=
    predict_spread np_sqrt api home_team_id away_team_id game_info in
  let num_games :=
    (length (get_recent_games api home_team_id 10)
     + length (get_recent_games api away_team_id 10))%nat in
  (odds_readable game_info = true ->
   exists s c, spread_result = Ok (s, c) /\ 0.306 <= c <= 0.85)
  /\ (forall s c, spread_result = Ok (s, c) -> 0.306 <= c <= 0.85)
  /\ (forall gi,
        game_info = Some gi -> odds gi = Some OddsNotDict ->
        (num_games < 15)%nat -> spread_result = Raise AttributeError)
  /\ 0.35 <= snd (predict_total np_sqrt fromisoformat api
                    home_team_id away_team_id game_info)
          <= 0.75.
Proof.
  cbv zeta.
  assert (Hc : forall s c,
             predict_spread np_sqrt api home_team_id away_team_id game_info
             = Ok (s, c) -> 0.306 <= c <= 0.85).
  { intros s c H. apply predict_spread_returned in H.
    destruct H as (blended & _ & _ & ->).
    apply py_round_between; [reflexivity | reflexivity |].
    apply spread_confidence_range; apply consistency_range. }
  split; [| split; [exact Hc | split]].
  - intros Hr.
    destruct (market_adjust_returns game_info
                (length (get_recent_games api home_team_id 10)
                 + length (get_recent_games api away_team_id 10))
                (unblended_spread np_sqrt api home_team_id away_team_id
                   game_info) Hr) as [r Hm].
    unfold predict_spread. cbv zeta. rewrite Hm. cbn.
    eexists _, _. split; [reflexivity|].
    apply py_round_between; [reflexivity | reflexivity |].
    apply spread_confidence_range; apply consistency_range.
  - intros gi -> Ho Hn. unfold predict_spread. cbv zeta.
    rewrite (market_adjust_odds_not_dict gi _ _ Ho Hn). reflexivity.
  - unfold predict_total. cbn [snd].
    apply py_round_between; [reflexivity | reflexivity |].
    apply total_confidence_range.
Qed.

(** C1 as stated fails for the spread: with empty statistics and no
    recent games the confidence is 0.40 x 0.90 = 0.36, below 0.40,
    whatever the rounding does at ties. *)
Lemma spread_confidence_below_floor :
  0.36 < 0.40
  /\ forall R : Rounding,
     exists s c,
       predict_spread sqrt_milli api_empty 1 2 None = Ok (s, c)
       /\ c == 0.36 /\ ~ (0.40 <= c <= 0.85).
Proof.
  split; [reflexivity|].
  intros R. eexists _, _. split; [reflexivity|].
  assert (Hc : py_round
                 (spread_confidence
                    (analyze_recent_form sqrt_milli [] 1)
                    (analyze_recent_form sqrt_milli [] 2) 0
                    (py_max (-50)
                       (py_min 50
                          (unblended_spread sqrt_milli api_empty 1 2 None)))) 3
               == 0.36).
  { rewrite (py_round_proper _ 0.36); [round_fixed | vm_compute; reflexivity]. }
  split; [exact Hc|]. rewrite Hc. intros [H _]. apply H. reflexivity.
Qed.

(** Both penalties can apply at once, and the lower bound is reached:
    an extreme mismatch without recent games is predicted at the cap of
    50 points with confidence 0.40 x 0.90 x 0.85. *)
Lemma spread_confidence_lowest (R : Rounding) :
  exists s c,
    predict_spread sqrt_milli api_mismatch 1 2 None = Ok (s, c)
    /\ s == 50 /\ c == 0.306.
Proof. eexists _, _. split; [reflexivity|]. split.
  - rewrite (py_round_proper _ 50); [round_fixed | vm_compute; reflexivity].
  - rewrite (py_round_proper _ 0.306); [round_fixed | vm_compute; reflexivity].
Qed.

(* ================================================================== *)
(** * The early-season adjustment of the total *)

(** The digits of a date are read back, and none of them is a [T] or a
    [Z]. *)
Lemma digit_char_cases (k : Z) :
  exists n, (n < 10)%nat /\ digit_char k = ascii_of_nat (48 + n)
            /\ Z.of_nat n = (k mod 10)%Z.
Proof.
  exists (Z.to_nat (k mod 10)).
  pose proof (Z.mod_pos_bound k 10 ltac:(lia)) as Hb.
  split; [lia|]. split; [reflexivity | lia].
Qed.

Ltac digit_cases k :=
  let n := fresh "n" in
  let Hn := fresh "Hn" in
  let Hc := fresh "Hc" in
  let Hv := fresh "Hv" in
  destruct (digit_char_cases k) as (n & Hn & Hc & Hv);
  rewrite Hc;
  do 10 (destruct n as [| n]; [try reflexivity |]); try lia.

Lemma digit_char_not_T (k : Z) : Ascii.eqb (digit_char k) "T" = false.
Proof. digit_cases k. Qed.

Lemma digit_char_not_Z (k : Z) : Ascii.eqb (digit_char k) "Z" = false.
Proof. digit_cases k. Qed.

Lemma digit_of_digit_char (k : Z) : digit_of (digit_char k) = Some (k mod 10)%Z.
Proof.
  destruct (digit_char_cases k) as (n & Hn & Hc & Hv). rewrite Hc, <- Hv.
  do 10 (destruct n as [| n]; [reflexivity |]). lia.
Qed.

(** [split('T')[0]] keeps a date and drops the time of day after it. *)
Lemma split_T_head_iso_date (y m d : Z) (rest : string) :
  split_T_head (iso_date y m d) = iso_date y m d
  /\ split_T_head (iso_date y m d +:+ "Z") = iso_date y m d +:+ "Z"
  /\ split_T_head (iso_date y m d +:+ "T" +:+ rest) = iso_date y m d.
Proof.
  unfold iso_date, four_digits, two_digits.
  unfold String.app. cbn [split_T_head].
  rewrite !digit_char_not_T. cbn [split_T_head Ascii.eqb Bool.eqb]. auto.
Qed.

(** [replace('Z', '')] keeps a date and drops a [Z] after it. *)
Lemma replace_Z_iso_date (y m d : Z) :
  replace_Z (iso_date y m d) = iso_date y m d
  /\ replace_Z (iso_date y m d +:+ "Z") = iso_date y m d.
Proof.
  unfold iso_date, four_digits, two_digits.
  unfold String.app. cbn [replace_Z].
  rewrite !digit_char_not_Z. cbn [replace_Z Ascii.eqb Bool.eqb]. auto.
Qed.

(** What reaches [datetime.fromisoformat] from a start date that is a
    calendar date, alone, followed by [Z], or followed by [T] and
    anything. *)
Lemma start_date_head (y m d : Z) (rest s : string) :
  s = iso_date y m d \/ s = iso_date y m d +:+ "Z"
  \/ s = iso_date y m d +:+ "T" +:+ rest ->
  replace_Z (split_T_head s) = iso_date y m d.
Proof.
  destruct (split_T_head_iso_date y m d rest) as (H1 & H2 & H3).
  destruct (replace_Z_iso_date y m d) as (H4 & H5).
  intros [-> | [-> | ->]]; congruence.
Qed.

(** The sample parser reads the calendar dates and refuses short
    strings. *)
Lemma iso_calendar_date_reads : reads_iso_dates iso_calendar_date.
Proof.
  split.
  - intros y m d Hv. unfold valid_date in Hv.
    apply andb_true_iff in Hv as [Hv Hd2].
    apply andb_true_iff in Hv as [Hv Hd1].
    apply andb_true_iff in Hv as [Hv Hm2].
    apply andb_true_iff in Hv as [Hv Hm1].
    apply andb_true_iff in Hv as [Hy1 Hy2].
    assert (Hd31 : (d <= 31)%Z).
    { apply Z.leb_le in Hd2. unfold days_in_month in Hd2.
      repeat match type of Hd2 with
             | context [if ?b then _ else _] => destruct b
             end; lia. }
    unfold iso_calendar_date, iso_date, four_digits, two_digits.
    unfold String.app.
    cbn [String.length Nat.eqb String.get String.substring andb].
    rewrite !bool_decide_eq_true_2 by reflexivity.
    cbn [andb digits_value].
    rewrite !digit_of_digit_char.
    assert (Ey : (10 * (10 * (10 * (10 * 0 + (y / 1000) mod 10)
                              + (y / 100) mod 10) + (y / 10) mod 10)
                  + y mod 10 = y)%Z).
    { apply Z.leb_le in Hy1, Hy2. Z.div_mod_to_equations. lia. }
    assert (Em : (10 * (10 * 0 + (m / 10) mod 10) + m mod 10 = m)%Z).
    { apply Z.leb_le in Hm1, Hm2. Z.div_mod_to_equations. lia. }
    assert (Ed : (10 * (10 * 0 + (d / 10) mod 10) + d mod 10 = d)%Z).
    { apply Z.leb_le in Hd1. Z.div_mod_to_equations. lia. }
    rewrite Ey, Em, Ed, Hy1, Hm1, Hm2, Hd1, Hd2. reflexivity.
  - intros s Hs. unfold iso_calendar_date.
    destruct (String.length s =? 10)%nat eqn:E; [| reflexivity].
    apply Nat.eqb_eq in E. lia.
Qed.

(** C7: predict_total returns, for every context, the projected total
    after the early-season step, clamped to [[110, 200]] and rounded to one
    decimal.  With a [datetime.fromisoformat] that reads calendar dates,
    a start date [YYYY-MM-DD], alone or followed by [Z] or by [T] and a
    time of day, multiplies the projected total by 0.95 in November, by
    0.97 from December 1 to 14, and leaves it as it is on any other day.
    The total is also left as it is when what is left of the start date
    has fewer than seven characters or is otherwise refused by the parser
    (the exception is swallowed), when the start date is not a string,
    when there is none, and when there is no context. *)
Theorem early_season_dampener {R : Rounding}
    (np_sqrt : Q -> Q) (fromisoformat : string -> option (Z * Z * Z))
    (api : API) (home_team_id away_team_id : Z) (gi : GameInfo) :
  reads_iso_dates fromisoformat ->
  let p := total_projection api home_team_id away_team_id (Some gi) in
  let projected := home_projected p + away_projected p in
  let returned t := py_round (py_max 110 (py_min 200 t)) 1 in
  let total :=
    fst (predict_total np_sqrt fromisoformat api
           home_team_id away_team_id (Some gi)) in
  (forall y m d rest s,
      valid_date y m d = true ->
      s = iso_date y m d \/ s = iso_date y m d +:+ "Z"
      \/ s = iso_date y m d +:+ "T" +:+ rest ->
      start_date gi = Some (DateStr s) ->
      (m = 11%Z -> total = returned (projected * 0.95))
      /\ (m = 12%Z -> (d <= 14)%Z -> total = returned (projected * 0.97))
      /\ (m <> 11%Z -> ~ (m = 12%Z /\ (d <= 14)%Z) ->
          total = returned projected))
  /\ (forall s,
        start_date gi = Some (DateStr s) ->
        (String.length (replace_Z (split_T_head s)) < 7)%nat
        \/ fromisoformat (replace_Z (split_T_head s)) = None ->
        total = returned projected)
  /\ (start_date gi = Some DateNotStr -> total = returned projected)
  /\ (start_date gi = None -> total = returned projected)
  /\ (let p0 := total_projection api home_team_id away_team_id None in
      fst (predict_total np_sqrt fromisoformat api
             home_team_id away_team_id None)
      = returned (home_projected p0 + away_projected p0)).
Proof.
  intros [Hdates Hshort]. cbv zeta.
  unfold predict_total. cbv zeta. cbn [fst].
  unfold early_season_adjust, early_season_try.
  split; [| split; [| split; [| split]]].
  - intros y m d rest s Hv Hs Hstart.
    rewrite Hstart, (start_date_head y m d rest s Hs), (Hdates y m d Hv).
    split; [| split].
    + intros ->. reflexivity.
    + intros -> Hd. apply Z.leb_le in Hd.
      change (11 =? 12)%Z with false. change (12 =? 11)%Z with false.
      change (12 =? 12)%Z with true. cbn [andb]. rewrite Hd. reflexivity.
    + intros Hm Hd.
      destruct (m =? 11)%Z eqn:E11; [apply Z.eqb_eq in E11; contradiction|].
      destruct (m =? 12)%Z eqn:E12; [| reflexivity].
      destruct (d <=? 14)%Z eqn:E14; [| reflexivity].
      exfalso. apply Hd. split; [apply Z.eqb_eq, E12 | apply Z.leb_le, E14].
  - intros s Hstart Hbad. rewrite Hstart.
    assert (Hn : fromisoformat (replace_Z (split_T_head s)) = None)
      by (destruct Hbad as [Hlen | Hn]; [apply Hshort, Hlen | exact Hn]).
    rewrite Hn. reflexivity.
  - intros Hstart. rewrite Hstart. reflexivity.
  - intros Hstart. rewrite Hstart. reflexivity.
  - reflexivity.
Qed.

Lemma early_season_dampener_witness :
  reads_iso_dates iso_calendar_date
  /\ fst (predict_total (R := half_even) sqrt_milli iso_calendar_date
            api_pace72 1 2 (Some (info_with_date "2025-11-15T19:00:00Z")))
     == 139.2
  /\ fst (predict_total (R := half_even) sqrt_milli iso_calendar_date
            api_pace72 1 2 (Some (info_with_date "2025-12-14Z")))
     == 142.1
  /\ fst (predict_total (R := half_even) sqrt_milli iso_calendar_date
            api_pace72 1 2 (Some (info_with_date "2025-12-15")))
     == 146.5
  /\ fst (predict_total (R := half_even) sqrt_milli iso_calendar_date
            api_pace72 1 2 (Some (info_with_date "TBD")))
     == 146.5.
Proof.
  split; [exact iso_calendar_date_reads|].
  split; [| split; [| split]].
  - destruct (early_season_dampener (R := half_even) sqrt_milli
                iso_calendar_date api_pace72 1 2
                (info_with_date "2025-11-15T19:00:00Z")
                iso_calendar_date_reads) as (Hdate & _).
    destruct (Hdate 2025%Z 11%Z 15%Z "19:00:00Z"%string
                "2025-11-15T19:00:00Z"%string eq_refl
                (or_intror (or_intror eq_refl)) eq_refl) as (Hnov & _).
    rewrite (Hnov eq_refl). vm_compute. reflexivity.
  - destruct (early_season_dampener (R := half_even) sqrt_milli
                iso_calendar_date api_pace72 1 2
                (info_with_date "2025-12-14Z")
                iso_calendar_date_reads) as (Hdate & _).
    destruct (Hdate 2025%Z 12%Z 14%Z EmptyString
                "2025-12-14Z"%string eq_refl
                (or_intror (or_introl eq_refl)) eq_refl) as (_ & Hdec & _).
    rewrite (Hdec eq_refl ltac:(lia)). vm_compute. reflexivity.
  - destruct (early_season_dampener (R := half_even) sqrt_milli
                iso_calendar_date api_pace72 1 2
                (info_with_date "2025-12-15")
                iso_calendar_date_reads) as (Hdate & _).
    destruct (Hdate 2025%Z 12%Z 15%Z EmptyString
                "2025-12-15"%string eq_refl
                (or_introl eq_refl) eq_refl) as (_ & _ & Hoth).
    rewrite (Hoth ltac:(lia) ltac:(lia)). vm_compute. reflexivity.
  - destruct (early_season_dampener (R := half_even) sqrt_milli
                iso_calendar_date api_pace72 1 2 (info_with_date "TBD")
                iso_calendar_date_reads) as (_ & Hbad & _).
    assert (Hlen : (String.length (replace_Z (split_T_head "TBD")) < 7)%nat)
      by (apply Nat.ltb_lt; reflexivity).
    rewrite (Hbad "TBD"%string eq_refl (or_introl Hlen)).
    vm_compute. reflexivity.
Defined.

(* ================================================================== *)
(** * Bets on the total *)



(* ================================================================== *)
(** * Projected scores *)

Lemma validate_pace_range (pace : Q) : 55 <= validate_pace pace <= 85.
Proof.
  unfold validate_pace.
  destruct (Qleb pace 0); [split; discriminate|].
  destruct (Qltb pace 55) eqn:E1; [split; discriminate|].
  destruct (Qltb 85 pace) eqn:E2; [split; discriminate|].
  apply Qltb_ge in E1, E2. cbn [orb]. lra.
Qed.


Lemma clamp_id (lo hi x : Q) :
  lo <= x <= hi -> py_max lo (py_min hi x) == x.
Proof. intros [H1 H2]. qclamp; lra. Qed.





(** The tenth returned at 2.45 is the rounding's choice: 2.4 with ties
    to even, 2.5 with ties upwards. *)
Lemma symmetric_matchup_default_tie :
  unblended_spread (R := half_even) sqrt_milli api_empty 1 2 None == 2.45
  /\ (exists s c,
        predict_spread (R := half_even) sqrt_milli api_empty 1 2 None
        = Ok (s, c) /\ s == 2.4)
  /\ (exists s c,
        predict_spread (R := half_up) sqrt_milli api_empty 1 2 None
        = Ok (s, c) /\ s == 2.5).
Proof.
  split; [vm_compute; reflexivity|].
  split; eexists _, _; (split; [reflexivity | vm_compute; reflexivity]).
Qed.


(* ================================================================== *)
(** * Blending toward the market *)

Lemma nat_Q_nonneg (n : nat) : 0 <= nat_Q n.
Proof.
  unfold nat_Q. change 0 with (inject_Z 0). rewrite <- Zle_Qle. lia.
Qed.

Lemma games_factor_range (num_games : nat) :
  0.3 <= games_factor num_games <= 1.
Proof.
  unfold games_factor. pose proof (nat_Q_nonneg num_games) as Hn.
  split; [apply py_max_spec|].
  apply py_max_lub; [discriminate|]. apply Qle_shift_div_r; lra.
Qed.

Lemma blend_factor_range (market_mag : Q) (num_games : nat) :
  0.40 <= blend_factor market_mag num_games <= 0.90.
Proof.
  unfold blend_factor. pose proof (games_factor_range num_games) as Hg.
  set (g := games_factor num_games) in *.
  qbool; lra.
Qed.

(** Lines 476-482: with fewer than 15 recent games, a market home
    spread that is a number is read and blended in. *)
Lemma market_adjust_reads (gi : GameInfo) (od : OddsData) (d : SpreadOdds)
    (v : pyval) (market_spread : Q) (num_games : nat) (x : Q) :
  odds gi = Some (OddsDict od) -> spread od = Some (SpreadDict d) ->
  home_spread d = Some v -> as_number v = Some market_spread ->
  (num_games < 15)%nat ->
  market_adjust (Some gi) num_games x
  = Ok (market_blend market_spread num_games x).
Proof.
  intros Hod Hsp Hhs Hv Hn. unfold market_adjust.
  apply Nat.ltb_lt in Hn. rewrite Hn, Hod. cbn. rewrite Hsp. cbn.
  rewrite Hhs.
  destruct v as [z | q | t |]; try discriminate;
    cbn in Hv; injection Hv as <-; reflexivity.
Qed.

(** Lines 484-523 when the market and the model both have the home team
    as favourite and the market is more than 5 points further out. *)
Lemma market_blend_home_favoured (market_spread : Q) (num_games : nat)
    (x : Q) :
  market_spread < 0 -> 0 < x -> 5 < Qabs market_spread - x ->
  market_blend market_spread num_games x
  == x + (Qabs market_spread - x) * blend_factor (Qabs market_spread) num_games.
Proof.
  intros Hm Hx Hgap. unfold market_blend. cbv zeta.
  assert (Hax : Qabs x == x) by (apply Qabs_pos; lra).
  assert (E1 : Qltb market_spread 0 = true) by (apply Qltb_lt; exact Hm).
  assert (E2 : Qltb 0 x = true) by (apply Qltb_lt; exact Hx).
  assert (E3 : Qltb 5 (Qabs market_spread - Qabs x) = true)
    by (apply Qltb_lt; lra).
  rewrite E1, E2. cbn [Bool.eqb]. rewrite E3, Hax. reflexivity.
Qed.

(** C3: with a market home spread of -20, an unblended spread of 5 for
    the home team and fewer than 15 recent games, the market adjustment
    adds gap x blend factor with gap 15 and blend factor
    0.60 + 0.20 x games factor, which lies in the 0.60-0.80 band; the
    spread that predict_spread returns is that sum rounded to one decimal
    and lies strictly between 5 and 20. *)
Theorem market_blend_home_minus_20 {R : Rounding}
    (np_sqrt : Q -> Q) (api : API) (home_team_id away_team_id : Z)
    (gi : GameInfo) (od : OddsData) (d : SpreadOdds) (v : pyval)
    (market_spread : Q) :
  odds gi = Some (OddsDict od) -> spread od = Some (SpreadDict d) ->
  home_spread d = Some v -> as_number v = Some market_spread ->
  market_spread == -20 ->
  unblended_spread np_sqrt api home_team_id away_team_id (Some gi) == 5 ->
  (length (get_recent_games api home_team_id 10)
   + length (get_recent_games api away_team_id 10) < 15)%nat ->
  let num_games :=
    (length (get_recent_games api home_team_id 10)
     + length (get_recent_games api away_team_id 10))%nat in
  let blend := blend_factor (Qabs market_spread) num_games in
  exists blended returned confidence,
    market_adjust (Some gi) num_games
      (unblended_spread np_sqrt api home_team_id away_team_id (Some gi))
    = Ok blended
    /\ predict_spread np_sqrt api home_team_id away_team_id (Some gi)
       = Ok (returned, confidence)
    /\ blend == 0.60 + games_factor num_games * 0.20
    /\ 0.60 <= blend <= 0.80
    /\ blended == 5 + 15 * blend
    /\ 5 < blended < 20
    /\ returned == py_round (5 + 15 * blend) 1
    /\ 5 < returned < 20.
Proof.
  intros Hod Hsp Hhs Hv Hm Hu Hn. cbv zeta.
  set (n := (length (get_recent_games api home_team_id 10)
             + length (get_recent_games api away_team_id 10))%nat) in *.
  set (u := unblended_spread np_sqrt api home_team_id away_team_id (Some gi))
    in *.
  assert (Hmag : Qabs market_spread == 20) by (rewrite Hm; reflexivity).
  pose proof (games_factor_range n) as Hg.
  assert (Hb : blend_factor (Qabs market_spread) n
               == 0.60 + games_factor n * 0.20).
  { unfold blend_factor.
    destruct (Qleb 25 (Qabs market_spread)) eqn:E1;
      [apply Qleb_le in E1; lra|].
    destruct (Qleb 20 (Qabs market_spread)) eqn:E2;
      [reflexivity | apply Qleb_gt in E2; lra]. }
  pose proof (market_adjust_reads gi od d v market_spread n u
                Hod Hsp Hhs Hv Hn) as Hread.
  assert (Hadj : market_blend market_spread n u
                 == 5 + 15 * blend_factor (Qabs market_spread) n).
  { rewrite market_blend_home_favoured; [| lra | lra | lra].
    set (b := blend_factor (Qabs market_spread) n).
    rewrite Hmag, Hu. ring. }
  set (b := blend_factor (Qabs market_spread) n) in *.
  set (blended := market_blend market_spread n u) in *.
  assert (Hrange : 14.9 <= blended <= 17) by lra.
  assert (Hround : 14.9 <= py_round (5 + 15 * b) 1 <= 17).
  { apply py_round_between; [reflexivity | reflexivity | lra]. }
  assert (Hret : py_round (py_max (-50) (py_min 50 blended)) 1
                 == py_round (5 + 15 * b) 1).
  { apply py_round_proper. rewrite clamp_id; [exact Hadj | lra]. }
  eexists blended, _, _. split; [exact Hread|].
  split.
  { unfold predict_spread. cbv zeta. fold n u. rewrite Hread.
    reflexivity. }
  fold n.
  split; [exact Hb|]. split; [lra|]. split; [exact Hadj|].
  split; [lra|]. split; [exact Hret|]. rewrite Hret. lra.
Qed.

Lemma market_blend_home_minus_20_witness :
  unblended_spread (R := half_even) sqrt_milli api_two_wins 1 2
    (Some info_home_minus_20) == 5
  /\ exists returned confidence,
       predict_spread (R := half_even) sqrt_milli api_two_wins 1 2
         (Some info_home_minus_20) = Ok (returned, confidence)
       /\ returned == 16.6
       /\ 5 < returned < 20.
Proof.
  split; [vm_compute; reflexivity|].
  destruct (market_blend_home_minus_20 (R := half_even) sqrt_milli
              api_two_wins 1 2 info_home_minus_20 _ _ _ (-20)
              eq_refl eq_refl eq_refl eq_refl)
    as (blended & returned & confidence & _ & Hrun & _ & _ & _ & _ & Hret & H);
    [reflexivity | vm_compute; reflexivity | cbn; lia |].
  exists returned, confidence. split; [exact Hrun|]. split; [| exact H].
  rewrite Hret. vm_compute. reflexivity.
Defined.

(* ================================================================== *)
(** * The heap of bets *)

Lemma item_number_Some (h : heap) (bet : loc) (k : string) (q : Q) :
  item_number h bet k = Some q <->
  exists d v, h !! bet = Some d /\ d !! k = Some v /\ as_number v = Some q.
Proof.
  unfold item_number. split.
  - destruct (h !! bet) as [d|]; [| discriminate]. cbn.
    destruct (d !! k) as [v|] eqn:Ev; [| discriminate]. cbn. eauto.
  - intros (d & v & -> & Hv & Hq). cbn. rewrite Hv. exact Hq.
Qed.

Lemma get_number_item (h : heap) (bet : loc) (k : string) (q : Q) :
  item_number h bet k = Some q ->
  exists v, get_item h bet k = Ok v /\ number v = Ok q.
Proof.
  intros (d & v & Hd & Hv & Hq)%item_number_Some.
  exists v. unfold get_item, number. rewrite Hd, Hv, Hq. auto.
Qed.

Lemma bet_score_expected {R : Rounding} (h : heap) (bet : loc) (s : Q) :
  expected_score h bet = Some s -> bet_score h bet = Ok s.
Proof.
  unfold expected_score, bet_score. intros H.
  destruct (item_number h bet "predicted_prob") as [p|] eqn:Ep;
    [| discriminate].
  destruct (item_number h bet "odds") as [o|] eqn:Eo; [| discriminate].
  destruct (item_number h bet "confidence") as [c|] eqn:Ec; [| discriminate].
  cbn in H. injection H as <-.
  destruct (get_number_item _ _ _ _ Ep) as (vp & -> & Hp).
  destruct (get_number_item _ _ _ _ Eo) as (vo & -> & Ho).
  destruct (get_number_item _ _ _ _ Ec) as (vc & -> & Hc).
  cbn. rewrite Hp. cbn. rewrite Hc. cbn. rewrite Ho. reflexivity.
Qed.

(** Assigning scores leaves every other key of every bet readable as
    before. *)
Lemma scores_only_item {R : Rounding} (h0 h : heap) (bet : loc) (k : string) :
  scores_only h0 h -> k <> "score" ->
  (h !! bet) ≫= (.!! k) = (h0 !! bet) ≫= (.!! k).
Proof.
  intros Hinv Hk. destruct (Hinv bet) as [-> | (d & s & Hd & _ & Hh)].
  - reflexivity.
  - rewrite Hd, Hh. cbn. apply lookup_insert_ne. congruence.
Qed.

Lemma item_number_bind (h : heap) (bet : loc) (k : string) :
  item_number h bet k = ((h !! bet) ≫= (.!! k)) ≫= as_number.
Proof. unfold item_number. destruct (h !! bet); reflexivity. Qed.

Lemma scores_only_number {R : Rounding} (h0 h : heap) (bet : loc) (k : string) :
  scores_only h0 h -> k <> "score" ->
  item_number h bet k = item_number h0 bet k.
Proof.
  intros Hinv Hk. rewrite !item_number_bind.
  rewrite (scores_only_item h0 h bet k Hinv Hk). reflexivity.
Qed.

Lemma scores_only_expected {R : Rounding} (h0 h : heap) (bet : loc) :
  scores_only h0 h -> expected_score h bet = expected_score h0 bet.
Proof.
  intros Hinv. unfold expected_score.
  rewrite !(scores_only_number h0 h) by (exact Hinv || discriminate).
  reflexivity.
Qed.

Lemma scores_only_passes {R : Rounding}
    (max_odds : Q) (h0 h : heap) (bet : loc) :
  scores_only h0 h -> bet_passes max_odds h bet = bet_passes max_odds h0 bet.
Proof.
  intros Hinv. unfold bet_passes.
  rewrite (scores_only_number h0 h) by (exact Hinv || discriminate).
  reflexivity.
Qed.

Lemma scored_score_in {R : Rounding} (h0 h : heap) (bet : loc) :
  scored h0 h bet -> expected_score h0 bet = Some (score_in h bet).
Proof.
  intros (d & s & Hd & Hs & Hh). rewrite Hs. f_equal.
  unfold score_in, item_number. rewrite Hh. cbn.
  rewrite lookup_insert_eq. reflexivity.
Qed.

(** One assignment [bet['score'] = s]. *)
Lemma set_score_step {R : Rounding} (h0 h : heap) (bet : loc) (s : Q) :
  scores_only h0 h -> expected_score h0 bet = Some s ->
  let h1 := set_item h bet "score" (VFloat s) in
  scores_only h0 h1 /\ scored h0 h1 bet
  /\ (forall b, b <> bet -> h1 !! b = h !! b).
Proof.
  intros Hinv Hs. cbv zeta.
  assert (Hd : exists d, h0 !! bet = Some d).
  { unfold expected_score in Hs.
    destruct (item_number h0 bet "predicted_prob") as [p|] eqn:Ep;
      [| discriminate].
    apply item_number_Some in Ep as (d & _ & Hd & _). eauto. }
  destruct Hd as [d Hd].
  assert (Hnew : exists dh, h !! bet = Some dh
                 /\ <["score" := VFloat s]> dh = <["score" := VFloat s]> d).
  { destruct (Hinv bet) as [Hsame | (d' & s' & Hd' & Hs' & Hh)].
    - exists d. split; [congruence | reflexivity].
    - assert (d' = d) by congruence. assert (s' = s) by congruence. subst.
      eexists. split; [exact Hh | apply insert_insert_eq]. }
  destruct Hnew as (dh & Hdh & Hins).
  assert (Hbet : scored h0 (set_item h bet "score" (VFloat s)) bet).
  { exists d, s. repeat split; try assumption.
    unfold set_item. rewrite Hdh, lookup_insert_eq, Hins. reflexivity. }
  assert (Hother : forall b, b <> bet ->
            set_item h bet "score" (VFloat s) !! b = h !! b).
  { intros b Hb. unfold set_item. rewrite Hdh.
    apply lookup_insert_ne. congruence. }
  split; [| split; assumption].
  intros b. destruct (decide (b = bet)) as [-> | Hb].
  - right. exact Hbet.
  - destruct (Hinv b) as [Hsame | (d' & s' & Hd' & Hs' & Hh)].
    + left. rewrite Hother by exact Hb. exact Hsame.
    + right. exists d', s'. rewrite Hother by exact Hb. auto.
Qed.

(** The loop of lines 126-131 gives every bet of its list its score and
    touches nothing else. *)
Lemma assign_scores_spec {R : Rounding} (bets : list loc) :
  forall h0 h : heap,
    scores_only h0 h ->
    Forall (fun bet => is_Some (expected_score h0 bet)) bets ->
    exists h',
      assign_scores h bets = (h', Ok tt)
      /\ scores_only h0 h'
      /\ (forall b, b ∈ bets -> scored h0 h' b)
      /\ (forall b, b ∉ bets -> h' !! b = h !! b)
      /\ (forall b, scored h0 h b -> scored h0 h' b).
Proof.
  induction bets as [| bet rest IH]; intros h0 h Hinv Hall.
  - exists h. cbn. repeat split; try assumption; try reflexivity.
    + intros b Hb. inversion Hb.
    + auto.
  - apply Forall_cons in Hall as [[s Hs] Hrest].
    destruct (set_score_step h0 h bet s Hinv Hs) as (Hinv1 & Hbet & Hother).
    set (h1 := set_item h bet "score" (VFloat s)) in *.
    destruct (IH h0 h1 Hinv1 Hrest) as (h' & Hrun & Hinv' & Hin & Hout & Hkeep).
    exists h'. cbn [assign_scores].
    rewrite (bet_score_expected h bet s)
      by (rewrite (scores_only_expected h0 h bet Hinv); exact Hs).
    fold h1. split; [exact Hrun|]. split; [exact Hinv'|].
    split; [| split].
    + intros b [-> | Hb]%elem_of_cons; auto.
    + intros b Hb. apply not_elem_of_cons in Hb as [Hne Hb].
      rewrite (Hout b Hb). apply Hother, Hne.
    + intros b (d' & s' & Hd' & Hs' & Hh). apply Hkeep.
      destruct (decide (b = bet)) as [-> | Hne]; [exact Hbet|].
      exists d', s'. rewrite (Hother b Hne). auto.
Qed.

Lemma eligible_bets_ok {R : Rounding}
    (max_odds : Q) (h : heap) (all_bets : list loc) :
  Forall (fun bet => bet_ready max_odds h bet = true) all_bets ->
  eligible_bets max_odds h all_bets
  = Ok (List.filter (bet_passes max_odds h) all_bets).
Proof.
  induction 1 as [| bet rest Hbet _ IH]; [reflexivity|].
  cbn [eligible_bets List.filter]. unfold bet_ready in Hbet.
  unfold bet_passes at 1.
  destruct (item_number h bet "odds") as [o|] eqn:Eo; [| discriminate].
  destruct (get_number_item _ _ _ _ Eo) as (v & -> & Hv).
  cbn. rewrite Hv. cbn. rewrite IH. reflexivity.
Qed.

Lemma sort_keys_ok (h : heap) (bets : list loc) :
  Forall (fun bet => is_Some (item_number h bet "score")) bets ->
  sort_keys h bets = Ok (map (fun bet => (score_in h bet, bet)) bets).
Proof.
  induction 1 as [| bet rest [s Hs] _ IH]; [reflexivity|].
  cbn [sort_keys map]. unfold score_in at 1. rewrite Hs.
  destruct (get_number_item _ _ _ _ Hs) as (v & -> & Hv).
  cbn. rewrite Hv. cbn. rewrite IH. reflexivity.
Qed.

(* ================================================================== *)
(** * The stable descending sort *)

Lemma insert_desc_perm (x : Q * loc) (l : list (Q * loc)) :
  Permutation (insert_desc x l) (x :: l).
Proof.
  induction l as [| y r IH]; cbn [insert_desc]; [reflexivity|].
  destruct (Qltb (fst x) (fst y)); [| reflexivity].
  rewrite IH. apply perm_swap.
Qed.

Lemma sorted_desc_perm (l : list (Q * loc)) : Permutation (sorted_desc l) l.
Proof.
  induction l as [| x r IH]; [reflexivity|].
  cbn. rewrite insert_desc_perm. apply perm_skip, IH.
Qed.

Lemma insert_desc_sorted (x : Q * loc) (l : list (Q * loc)) :
  StronglySorted key_ge l -> StronglySorted key_ge (insert_desc x l).
Proof.
  induction 1 as [| y r Hr IH Hy]; cbn [insert_desc].
  - repeat constructor.
  - destruct (Qltb (fst x) (fst y)) eqn:E.
    + apply Qltb_lt in E. constructor; [exact IH|].
      rewrite insert_desc_perm. constructor; [| exact Hy].
      unfold key_ge. lra.
    + apply Qltb_ge in E. constructor; [constructor; assumption|].
      constructor; [exact E|].
      eapply Forall_impl; [exact Hy|].
      unfold key_ge. intros z Hz. lra.
Qed.

Lemma sorted_desc_sorted (l : list (Q * loc)) :
  StronglySorted key_ge (sorted_desc l).
Proof.
  induction l as [| x r IH]; [constructor|].
  cbn. apply insert_desc_sorted, IH.
Qed.

(** Insertion keeps the new element in front of its equals. *)
Lemma insert_desc_stable (s : Q) (x : Q * loc) (l : list (Q * loc)) :
  List.filter (has_key s) (insert_desc x l) = List.filter (has_key s) (x :: l).
Proof.
  induction l as [| y r IH]; cbn [insert_desc]; [reflexivity|].
  destruct (Qltb (fst x) (fst y)) eqn:E; [| reflexivity].
  apply Qltb_lt in E.
  cbn [List.filter] in *. rewrite IH.
  destruct (has_key s x) eqn:Ex; [| reflexivity].
  destruct (has_key s y) eqn:Ey; [| reflexivity].
  unfold has_key in Ex, Ey. apply Qeq_bool_iff in Ex, Ey. lra.
Qed.

Lemma sorted_desc_stable (s : Q) (l : list (Q * loc)) :
  List.filter (has_key s) (sorted_desc l) = List.filter (has_key s) l.
Proof.
  induction l as [| x r IH]; [reflexivity|].
  change (sorted_desc (x :: r)) with (insert_desc x (sorted_desc r)).
  rewrite insert_desc_stable. cbn [List.filter]. rewrite IH. reflexivity.
Qed.

Lemma filter_key_above (k : Q) (y : Q * loc) (r : list (Q * loc)) :
  fst y < k -> Forall (key_ge y) r -> List.filter (has_key k) (y :: r) = [].
Proof.
  intros Hy Hr. cbn [List.filter].
  assert (Hno : forall z, fst z < k -> has_key k z = false).
  { intros z Hz. unfold has_key.
    destruct (Qeq_bool (fst z) k) eqn:E; [| reflexivity].
    apply Qeq_bool_iff in E. lra. }
  rewrite (Hno y Hy). induction Hr as [| z r Hz _ IH]; [reflexivity|].
  cbn [List.filter]. rewrite (Hno z) by (unfold key_ge in Hz; lra).
  exact IH.
Qed.

(** There is one stable descending ordering: two sorted lists that list
    the elements of every key in the same order are equal.  So the
    insertion sort above gives what any stable sort gives. *)
Lemma stable_sorted_unique (l1 l2 : list (Q * loc)) :
  StronglySorted key_ge l1 -> StronglySorted key_ge l2 ->
  (forall s, List.filter (has_key s) l1 = List.filter (has_key s) l2) ->
  l1 = l2.
Proof.
  intros H1. revert l2.
  induction H1 as [| x r1 Hr1 IH Hx]; intros l2 H2 Hsame.
  - destruct l2 as [| y r2]; [reflexivity|].
    specialize (Hsame (fst y)). cbn in Hsame. unfold has_key in Hsame.
    rewrite (Qeq_bool_refl (fst y)) in Hsame. discriminate Hsame.
  - assert (Hxx : has_key (fst x) x = true) by apply Qeq_bool_refl.
    destruct H2 as [| y r2 Hr2 Hy].
    { specialize (Hsame (fst x)). cbn in Hsame. rewrite Hxx in Hsame.
      discriminate Hsame. }
    assert (Hyy : has_key (fst y) y = true) by apply Qeq_bool_refl.
    assert (Hhead : x = y).
    { destruct (Qlt_le_dec (fst y) (fst x)) as [Hlt | Hle].
      - pose proof (Hsame (fst x)) as Hs.
        rewrite (filter_key_above (fst x) y r2 Hlt Hy) in Hs.
        cbn in Hs. rewrite Hxx in Hs. discriminate Hs.
      - destruct (Qlt_le_dec (fst x) (fst y)) as [Hlt | Hge].
        + pose proof (Hsame (fst y)) as Hs.
          rewrite (filter_key_above (fst y) x r1 Hlt Hx) in Hs.
          cbn in Hs. rewrite Hyy in Hs. discriminate Hs.
        + pose proof (Hsame (fst x)) as Hs. cbn in Hs. rewrite Hxx in Hs.
          assert (Hyx : has_key (fst x) y = true)
            by (apply Qeq_bool_iff; lra).
          rewrite Hyx in Hs. congruence. }
    subst y. f_equal. apply IH; [exact Hr2|].
    intros s. specialize (Hsame s). cbn in Hsame.
    destruct (has_key s x); congruence.
Qed.

(** Lists of pairs whose key is the score of the bet. *)
Lemma keyed_filter (h : heap) (s : Q) (l : list (Q * loc)) :
  Forall (fun p => fst p = score_in h (snd p)) l ->
  with_score h s (map snd l) = map snd (List.filter (has_key s) l).
Proof.
  induction 1 as [| p r Hp _ IH]; [reflexivity|].
  cbn [map with_score List.filter]. unfold has_key at 1. rewrite <- Hp.
  fold (with_score h s (map snd r)). rewrite IH.
  destruct (Qeq_bool (fst p) s); reflexivity.
Qed.

Lemma keyed_sorted (h : heap) (l : list (Q * loc)) :
  Forall (fun p => fst p = score_in h (snd p)) l ->
  StronglySorted key_ge l -> StronglySorted (score_ge h) (map snd l).
Proof.
  intros Hk Hs. induction Hs as [| p r Hr IH Hp]; [constructor|].
  apply Forall_cons in Hk as [Hkp Hkr].
  cbn [map]. constructor; [apply IH, Hkr|].
  apply Forall_map. rewrite Forall_forall in *.
  intros q Hq. unfold score_ge. rewrite <- Hkp, <- (Hkr q Hq).
  apply (Hp q Hq).
Qed.

Lemma StronglySorted_firstn {A : Type} (R : A -> A -> Prop)
    (n : nat) (l : list A) :
  StronglySorted R l -> StronglySorted R (firstn n l).
Proof.
  intros Hs. revert n. induction Hs as [| x r Hr IH Hx]; intros [| n];
    cbn [firstn]; try constructor.
  - apply IH.
  - apply Forall_take, Hx.
Qed.

(* ================================================================== *)
(** * select_best_bets *)

Lemma keyed_snd (h : heap) (bets : list loc) :
  map snd (map (fun bet => (score_in h bet, bet)) bets) = bets.
Proof. rewrite map_map. cbn. apply map_id. Qed.

Lemma keyed_consistent (h : heap) (bets : list loc) :
  Forall (fun p => fst p = score_in h (snd p))
    (map (fun bet => (score_in h bet, bet)) bets).
Proof. apply Forall_map, Forall_forall. reflexivity. Qed.

Lemma eligible_elem (max_odds : Q) (h : heap) (all_bets : list loc) (b : loc) :
  b ∈ List.filter (bet_passes max_odds h) all_bets
  <-> b ∈ all_bets /\ bet_passes max_odds h b = true.
Proof. rewrite !list_elem_of_In. apply filter_In. Qed.

(** A run of select_best_bets on bets that are ready for it: it returns,
    the heap differs from the old one by the scores of the eligible bets,
    and the result is the head of the stable descending sort. *)
Lemma select_best_bets_run {R : Rounding}
    (max_odds : Q) (h : heap) (all_bets : list loc) :
  Forall (fun bet => bet_ready max_odds h bet = true) all_bets ->
  let eligible := List.filter (bet_passes max_odds h) all_bets in
  exists h',
    select_best_bets max_odds h all_bets
    = (h', Ok (firstn 5 (map snd (sorted_desc
                 (map (fun bet => (score_in h' bet, bet)) eligible)))))
    /\ scores_only h h'
    /\ (forall b, b ∈ eligible -> scored h h' b)
    /\ (forall b, b ∉ eligible -> h' !! b = h !! b).
Proof.
  intros Hready. cbv zeta.
  set (eligible := List.filter (bet_passes max_odds h) all_bets).
  assert (Hexp : Forall (fun bet => is_Some (expected_score h bet)) eligible).
  { apply Forall_forall. intros b [Hin Hpass]%eligible_elem.
    rewrite Forall_forall in Hready. specialize (Hready b Hin).
    unfold bet_ready in Hready. unfold bet_passes in Hpass.
    destruct (item_number h b "odds") as [o|]; [| discriminate].
    rewrite Hpass in Hready. apply bool_decide_eq_true in Hready.
    exact Hready. }
  assert (Hinv0 : scores_only h h) by (intros b; left; reflexivity).
  destruct (assign_scores_spec eligible h h Hinv0 Hexp)
    as (h' & Hrun & Hinv & Hin & Hout & _).
  exists h'. unfold select_best_bets.
  rewrite (eligible_bets_ok max_odds h all_bets Hready). fold eligible.
  rewrite Hrun.
  rewrite (sort_keys_ok h' eligible).
  - auto.
  - apply Forall_forall. intros b Hb.
    destruct (Hin b Hb) as (d & s & _ & _ & Hh).
    exists s. unfold item_number. rewrite Hh. cbn.
    rewrite lookup_insert_eq. reflexivity.
Qed.

(** C10: select_best_bets changes its input in place.  On bets that are
    ready for it, it returns, and afterwards every input bet that passes
    the odds filter is the dictionary it was with ['score'] set to its
    computed score (a score that was there is overwritten), every other
    dictionary of the heap is as it was, and no key other than ['score']
    has changed in any dictionary. *)
Theorem select_best_bets_frame {R : Rounding}
    (max_odds : Q) (h : heap) (all_bets : list loc) :
  Forall (fun bet => bet_ready max_odds h bet = true) all_bets ->
  exists h' best,
    select_best_bets max_odds h all_bets = (h', Ok best)
    /\ (forall bet,
          bet ∈ all_bets -> bet_passes max_odds h bet = true ->
          exists d s,
            h !! bet = Some d /\ expected_score h bet = Some s
            /\ h' !! bet = Some (<["score" := VFloat s]> d))
    /\ (forall bet,
          ~ (bet ∈ all_bets /\ bet_passes max_odds h bet = true) ->
          h' !! bet = h !! bet)
    /\ (forall bet k,
          k <> "score" -> (h' !! bet) ≫= (.!! k) = (h !! bet) ≫= (.!! k)).
Proof.
  intros Hready.
  destruct (select_best_bets_run max_odds h all_bets Hready)
    as (h' & Hrun & Hinv & Hin & Hout).
  eexists h', _. split; [exact Hrun|]. split; [| split].
  - intros bet Hb Hp. apply Hin, eligible_elem. auto.
  - intros bet Hb. apply Hout. rewrite eligible_elem. exact Hb.
  - intros bet k Hk. apply scores_only_item; assumption.
Qed.

(** C6: on bets that are ready for it, select_best_bets returns at most
    5 bets, each of which passes the odds filter and carries its computed
    score; they are in descending order of that score; and they are the
    first 5 of the one stable descending ordering of the bets that pass
    the filter: that ordering is a permutation of them, is sorted, and
    keeps bets of equal score in their input order. *)
Theorem select_best_bets_ranked {R : Rounding} (max_odds : Q) (h : heap)
    (all_bets : list loc) :
  Forall (fun bet => bet_ready max_odds h bet = true) all_bets ->
  let eligible := List.filter (bet_passes max_odds h) all_bets in
  exists h' best ranked,
    select_best_bets max_odds h all_bets = (h', Ok best)
    /\ (length best <= 5)%nat
    /\ Forall (fun bet => bet_passes max_odds h' bet = true) best
    /\ Forall (fun bet => expected_score h bet = Some (score_in h' bet)) best
    /\ StronglySorted (score_ge h') best
    /\ best = firstn 5 ranked
    /\ Permutation ranked eligible
    /\ StronglySorted (score_ge h') ranked
    /\ (forall s, with_score h' s ranked = with_score h' s eligible).
Proof.
  intros Hready. cbv zeta.
  destruct (select_best_bets_run max_odds h all_bets Hready)
    as (h' & Hrun & Hinv & Hin & Hout).
  set (eligible := List.filter (bet_passes max_odds h) all_bets) in *.
  set (keyed := map (fun bet => (score_in h' bet, bet)) eligible) in *.
  set (ranked := map snd (sorted_desc keyed)) in *.
  assert (Hperm : Permutation ranked eligible).
  { unfold ranked. rewrite sorted_desc_perm. unfold keyed.
    rewrite keyed_snd. reflexivity. }
  assert (Hcons : Forall (fun p => fst p = score_in h' (snd p))
                    (sorted_desc keyed)).
  { rewrite sorted_desc_perm. apply keyed_consistent. }
  assert (Hsorted : StronglySorted (score_ge h') ranked).
  { apply keyed_sorted; [exact Hcons | apply sorted_desc_sorted]. }
  assert (Hall : Forall (fun bet => bet_passes max_odds h' bet = true
                         /\ expected_score h bet = Some (score_in h' bet))
                   ranked).
  { rewrite Hperm. apply Forall_forall. intros b Hb. split.
    - rewrite (scores_only_passes max_odds h h' b Hinv).
      apply eligible_elem in Hb. apply Hb.
    - apply scored_score_in, Hin, Hb. }
  exists h', (firstn 5 ranked), ranked.
  split; [exact Hrun|]. split; [apply firstn_le_length|].
  split; [apply Forall_take; eapply Forall_impl;
          [exact Hall | intros b [Hp _]; exact Hp]|].
  split; [apply Forall_take; eapply Forall_impl;
          [exact Hall | intros b [_ Hs]; exact Hs]|].
  split; [apply StronglySorted_firstn, Hsorted|].
  split; [reflexivity|]. split; [exact Hperm|]. split; [exact Hsorted|].
  intros s. unfold ranked.
  rewrite (keyed_filter h' s _ Hcons), sorted_desc_stable.
  unfold keyed.
  rewrite <- (keyed_filter h' s _ (keyed_consistent h' eligible)), keyed_snd.
  reflexivity.
Qed.

(** The sample bets, the first of them listed twice: the bet at -150 is
    dropped, the bet at +120 comes first, and the three entries with the
    score 0.5275 keep their input order. *)
Lemma select_best_bets_sample :
  snd (select_best_bets (R := half_even) (-125) sample_heap [0; 1; 2; 3; 0]%nat)
  = Ok [2; 0; 3; 0]%nat.
Proof. vm_compute. reflexivity. Qed.

Lemma sample_bets_ready :
  Forall (fun bet => bet_ready (R := half_even) (-125) sample_heap bet = true)
    [0; 1; 2; 3; 0]%nat.
Proof. repeat constructor. Qed.

Lemma select_best_bets_ranked_witness :
  exists h' best,
    select_best_bets (R := half_even)
          (-125) sample_heap [0; 1; 2; 3; 0]%nat = (h', Ok best)
    /\ (length best <= 5)%nat
    /\ Forall (fun bet => bet_passes (-125) h' bet = true) best
    /\ StronglySorted (score_ge h') best.
Proof.
  destruct (select_best_bets_ranked (R := half_even)
        (-125) sample_heap [0; 1; 2; 3; 0]%nat
              sample_bets_ready)
    as (h' & best & ranked & Hrun & Hlen & Hpass & _ & Hsorted & _).
  exists h', best. auto.
Defined.

Lemma select_best_bets_frame_witness :
  exists h' best,
    select_best_bets (R := half_even)
          (-125) sample_heap [0; 1; 2; 3; 0]%nat = (h', Ok best)
    /\ h' !! 1%nat = sample_heap !! 1%nat
    /\ h' !! 0%nat
       = Some (<["score" := VFloat (calculate_bet_score (R := half_even)
             0.55 (-110) 0.5)]>
                 (sample_bet (-110) 0.55 0.5)).
Proof.
  destruct (select_best_bets_frame (R := half_even)
        (-125) sample_heap [0; 1; 2; 3; 0]%nat
              sample_bets_ready)
    as (h' & best & Hrun & Hin & Hout & _).
  exists h', best. split; [exact Hrun|]. split.
  - apply Hout. intros [_ Hp]. discriminate Hp.
  - destruct (Hin 0%nat) as (d & s & Hd & Hs & Hh);
      [apply list_elem_of_here | reflexivity |].
    assert (Ed : Some d = Some (sample_bet (-110) 0.55 0.5))
      by (rewrite <- Hd; reflexivity).
    assert (Es : Some s = Some (calculate_bet_score (R := half_even)
          0.55 (-110) 0.5))
      by (rewrite <- Hs; reflexivity).
    injection Ed as ->. injection Es as ->. exact Hh.
Defined.

(* ------------------------------------------------------------------ *)
(** ** When select_best_bets returns *)

Lemma item_number_of_get (h : heap) (bet : loc) (k : string)
    (v : pyval) (q : Q) :
  get_item h bet k = Ok v -> number v = Ok q -> item_number h bet k = Some q.
Proof.
  unfold get_item, number. intros Hg Hn. apply item_number_Some.
  destruct (h !! bet) as [d|]; [| discriminate].
  destruct (d !! k) as [w|] eqn:Ew; [| discriminate].
  injection Hg as ->.
  destruct (as_number v) as [q'|] eqn:Ev; [| discriminate].
  injection Hn as ->. eauto.
Qed.

Lemma bet_score_Ok {R : Rounding} (h : heap) (bet : loc) (s : Q) :
  bet_score h bet = Ok s -> expected_score h bet = Some s.
Proof.
  unfold bet_score, expected_score.
  destruct (get_item h bet "predicted_prob") as [vp|] eqn:Ep; [| discriminate].
  destruct (get_item h bet "odds") as [vo|] eqn:Eo; [| discriminate].
  destruct (get_item h bet "confidence") as [vc|] eqn:Ec; [| discriminate].
  cbn.
  destruct (number vp) as [p|] eqn:Np; [| discriminate]. cbn.
  destruct (number vc) as [c|] eqn:Nc; [| discriminate]. cbn.
  destruct (number vo) as [o|] eqn:No; [| discriminate]. cbn.
  intros H. injection H as <-.
  rewrite (item_number_of_get _ _ _ _ _ Ep Np),
          (item_number_of_get _ _ _ _ _ Eo No),
          (item_number_of_get _ _ _ _ _ Ec Nc).
  reflexivity.
Qed.

Lemma eligible_bets_Ok (max_odds : Q) (h : heap) (all_bets : list loc) :
  forall eligible,
    eligible_bets max_odds h all_bets = Ok eligible ->
    Forall (fun bet => is_Some (item_number h bet "odds")) all_bets
    /\ eligible = List.filter (bet_passes max_odds h) all_bets.
Proof.
  induction all_bets as [| bet rest IH]; intros eligible Hrun.
  - injection Hrun as <-. split; [constructor | reflexivity].
  - cbn [eligible_bets] in Hrun.
    destruct (get_item h bet "odds") as [v|] eqn:Eg; [| discriminate].
    cbn in Hrun.
    destruct (number v) as [o|] eqn:En; [| discriminate]. cbn in Hrun.
    destruct (eligible_bets max_odds h rest) as [r|]; [| discriminate].
    cbn in Hrun. injection Hrun as <-.
    destruct (IH r eq_refl) as [Hall ->].
    pose proof (item_number_of_get _ _ _ _ _ Eg En) as Ho.
    assert (Hp : bet_passes max_odds h bet = meets_odds_criteria max_odds o)
      by (unfold bet_passes; rewrite Ho; reflexivity).
    split; [constructor; [eauto | exact Hall]|].
    cbn [List.filter]. rewrite Hp. reflexivity.
Qed.

Lemma assign_scores_Ok {R : Rounding} (bets : list loc) :
  forall h0 h h' : heap,
    scores_only h0 h -> assign_scores h bets = (h', Ok tt) ->
    Forall (fun bet => is_Some (expected_score h0 bet)) bets.
Proof.
  induction bets as [| bet rest IH]; intros h0 h h' Hinv Hrun;
    [constructor|].
  cbn [assign_scores] in Hrun.
  destruct (bet_score h bet) as [s|] eqn:Es; [| discriminate].
  apply bet_score_Ok in Es.
  rewrite (scores_only_expected h0 h bet Hinv) in Es.
  destruct (set_score_step h0 h bet s Hinv Es) as (Hinv1 & _ & _).
  constructor; [eauto|]. exact (IH h0 _ h' Hinv1 Hrun).
Qed.

(** select_best_bets returns only on bets that are ready for it; on any
    other input it raises [KeyError] or [TypeError]. *)
Lemma select_best_bets_returns_ready {R : Rounding} (max_odds : Q) (h h' : heap)
    (all_bets best : list loc) :
  select_best_bets max_odds h all_bets = (h', Ok best) ->
  Forall (fun bet => bet_ready max_odds h bet = true) all_bets.
Proof.
  unfold select_best_bets. intros Hrun.
  destruct (eligible_bets max_odds h all_bets) as [eligible|] eqn:Ee;
    [| discriminate].
  destruct (eligible_bets_Ok _ _ _ _ Ee) as [Hodds ->].
  destruct (assign_scores h _) as [h1 [[]|]] eqn:Ea; [| discriminate].
  assert (Hinv0 : scores_only h h) by (intros b; left; reflexivity).
  pose proof (assign_scores_Ok _ h h h1 Hinv0 Ea) as Hexp.
  rewrite Forall_forall in *. intros b Hb.
  destruct (Hodds b Hb) as [o Ho]. unfold bet_ready. rewrite Ho.
  destruct (meets_odds_criteria max_odds o) eqn:Em; [| reflexivity].
  apply bool_decide_eq_true, Hexp, eligible_elem.
  split; [exact Hb|]. unfold bet_passes. rewrite Ho. exact Em.
Qed.

(* ================================================================== *)
(** * Odds conversions *)

Lemma Qltb_proper (a a' b b' : Q) :
  a == a' -> b == b' -> Qltb a b = Qltb a' b'.
Proof.
  intros Ha Hb.
  destruct (Qltb a b) eqn:E1, (Qltb a' b') eqn:E2; try reflexivity;
    repeat match goal with
    | H : Qltb _ _ = true |- _ => apply Qltb_lt in H
    | H : Qltb _ _ = false |- _ => apply Qltb_ge in H
    end; lra.
Qed.

Lemma Qleb_proper (a a' b b' : Q) :
  a == a' -> b == b' -> Qleb a b = Qleb a' b'.
Proof.
  intros Ha Hb.
  destruct (Qleb a b) eqn:E1, (Qleb a' b') eqn:E2; try reflexivity;
    repeat match goal with
    | H : Qleb _ _ = true |- _ => apply Qleb_le in H
    | H : Qleb _ _ = false |- _ => apply Qleb_gt in H
    end; lra.
Qed.

Lemma implied_probability_pos (odds : Q) :
  0 < american_odds_to_probability odds.
Proof.
  unfold american_odds_to_probability.
  destruct (Qltb odds 0) eqn:E.
  - apply Qltb_lt in E.
    assert (Ha : Qabs odds == - odds) by (apply Qabs_neg; lra).
    apply Qlt_shift_div_l; lra.
  - apply Qltb_ge in E. apply Qlt_shift_div_l; lra.
Qed.

Lemma implied_probability_sides (odds : Q) :
  (odds <= -100 -> 0.5 <= american_odds_to_probability odds)
  /\ (100 <= odds -> american_odds_to_probability odds <= 0.5).
Proof.
  unfold american_odds_to_probability. split; intros Ho.
  - assert (E : Qltb odds 0 = true) by (apply Qltb_lt; lra). rewrite E.
    assert (Ha : Qabs odds == - odds) by (apply Qabs_neg; lra).
    apply Qle_shift_div_l; lra.
  - assert (E : Qltb odds 0 = false) by (apply Qltb_ge; lra). rewrite E.
    apply Qle_shift_div_r; lra.
Qed.

(** X1: the implied probability of any odds lies in (0, 1]; it is at
    least one half for favourites priced at -100 or shorter and at most one
    half for underdogs priced at +100 or longer. *)
Theorem implied_probability_range (odds : Q) :
  (0 < american_odds_to_probability odds <= 1)
  /\ (odds <= -100 -> 0.5 <= american_odds_to_probability odds)
  /\ (100 <= odds -> american_odds_to_probability odds <= 0.5).
Proof.
  split; [split; [apply implied_probability_pos
                 | apply implied_probability_le_1]|].
  apply implied_probability_sides.
Qed.

Lemma implied_probability_range_witness :
  (-110 <= -100 /\ 100 <= 150)
  /\ 0.5 <= american_odds_to_probability (-110)
  /\ american_odds_to_probability 150 <= 0.5.
Proof.
  split; [split; discriminate|]. split.
  - apply (implied_probability_range (-110)). discriminate.
  - apply (implied_probability_range 150). discriminate.
Defined.

(** X2: on whole-number odds the two conversions put even money at the
    same prices: decimal odds are never below 1, and they are at least 2
    exactly when the implied probability is at most one half, which is
    for odds of +100 and longer and for negative odds down to -100. *)
Theorem decimal_odds_even_money (odds : Z) :
  let decimal := american_odds_to_decimal (inject_Z odds) in
  let probability := american_odds_to_probability (inject_Z odds) in
  1 <= decimal
  /\ (2 <= decimal <-> probability <= 0.5)
  /\ (2 <= decimal <-> (-100 <= odds < 0)%Z \/ (100 <= odds)%Z).
Proof.
  cbv zeta.
  assert (Hodds : ((-100 <= odds < 0)%Z \/ (100 <= odds)%Z)
                  <-> (-100 <= inject_Z odds /\ inject_Z odds < 0)
                      \/ 100 <= inject_Z odds).
  { change (-100) with (inject_Z (-100)). change 100 with (inject_Z 100).
    change 0 with (inject_Z 0).
    rewrite <- !Zle_Qle, <- Zlt_Qlt. reflexivity. }
  rewrite Hodds. clear Hodds. generalize (inject_Z odds) as o. intros o.
  unfold american_odds_to_decimal, american_odds_to_probability.
  destruct (Qltb o 0) eqn:E.
  - apply Qltb_lt in E.
    assert (Ha : Qabs o == - o) by (apply Qabs_neg; lra).
    set (a := Qabs o) in *.
    assert (Hd : 100 / a * a == 100) by (field; lra).
    assert (Hp : a / (a + 100) * (a + 100) == a) by (field; lra).
    set (d := 100 / a) in *. set (p := a / (a + 100)) in *.
    assert (Hd0 : 0 < d).
    { apply Qnot_le_lt. intros Hn. assert (d * a <= 0) by nra. lra. }
    assert (Hdec : 2 <= 1 + d <-> a <= 100).
    { split; intros H.
      - apply Qnot_lt_le. intros Hn. assert (100 < d * a) by nra. lra.
      - apply Qnot_lt_le. intros Hn. assert (d * a < 100) by nra. lra. }
    assert (Hprob : p <= 0.5 <-> a <= 100).
    { split; intros H.
      - apply Qnot_lt_le. intros Hn. nra.
      - apply Qnot_lt_le. intros Hn. nra. }
    split; [lra|]. split; [rewrite Hdec, Hprob; reflexivity|].
    rewrite Hdec. split; [intros H; left; lra | intros [H | H]; lra].
  - apply Qltb_ge in E.
    assert (Hd : o / 100 * 100 == o) by field.
    assert (Hp : 100 / (o + 100) * (o + 100) == 100) by (field; lra).
    set (d := o / 100) in *. set (p := 100 / (o + 100)) in *.
    assert (Hdec : 2 <= 1 + d <-> 100 <= o) by (split; intros H; lra).
    assert (Hprob : p <= 0.5 <-> 100 <= o).
    { split; intros H.
      - apply Qnot_lt_le. intros Hn. nra.
      - apply Qnot_lt_le. intros Hn. nra. }
    split; [lra|]. split; [rewrite Hdec, Hprob; reflexivity|].
    rewrite Hdec. split; [intros H; right; exact H | intros [H | H]; lra].
Qed.

(* ================================================================== *)
(** * Bounds of the bet score *)

Lemma odds_factor_range (odds : Q) :
  0.9 <= 1 - (american_odds_to_probability odds - 0.5) * 0.2 < 1.1.
Proof.
  pose proof (implied_probability_le_1 odds).
  pose proof (implied_probability_pos odds). lra.
Qed.

(** The odds factor penalises favourites and rewards underdogs. *)
Lemma odds_factor_sides (odds : Q) :
  (odds <= -100 -> 1 - (american_odds_to_probability odds - 0.5) * 0.2 <= 1)
  /\ (100 <= odds -> 1 <= 1 - (american_odds_to_probability odds - 0.5) * 0.2).
Proof.
  destruct (implied_probability_sides odds) as (Hfav & Hdog).
  split; intros Ho; [specialize (Hfav Ho) | specialize (Hdog Ho)]; lra.
Qed.

Lemma bet_score_window {R : Rounding} (predicted_prob odds confidence : Q) :
  0.50 <= predicted_prob <= 0.70 -> 0.25 <= confidence <= 0.88 ->
  0.36 <= calculate_bet_score predicted_prob odds confidence <= 0.8492.
Proof.
  intros [Hp1 Hp2] [Hc1 Hc2].
  pose proof (odds_factor_range odds) as [Hf1 Hf2].
  unfold calculate_bet_score.
  apply py_round_between; [reflexivity | reflexivity |].
  unfold raw_bet_score.
  set (f := 1 - (american_odds_to_probability odds - 0.5) * 0.2) in *.
  set (b := predicted_prob * 0.6 + confidence * 0.4).
  assert (Hb : 0.4 <= b <= 0.772) by (unfold b; lra).
  split.
  - apply Qle_trans with (0.4 * f); [lra|].
    apply Qmult_le_compat_r; lra.
  - apply Qle_trans with (0.772 * f); [| lra].
    apply Qmult_le_compat_r; lra.
Qed.

(** X3: for a value rating in [[0.50, 0.70]] and a confidence in
    [[0.25, 0.88]], which is what create_bet_from_prediction produces, the
    score lies in [[0.36, 0.8492]] whatever the odds; it never reaches
    0.85. *)
Theorem calculate_bet_score_bounds {R : Rounding}
    (predicted_prob odds confidence : Q) :
  0.50 <= predicted_prob <= 0.70 -> 0.25 <= confidence <= 0.88 ->
  0.36 <= calculate_bet_score predicted_prob odds confidence <= 0.8492.
Proof. apply bet_score_window. Qed.

Lemma calculate_bet_score_bounds_witness :
  (0.50 <= 0.575 <= 0.70 /\ 0.25 <= 0.42 <= 0.88)
  /\ 0.36 <= calculate_bet_score (R := half_even) 0.575 (-110) 0.42 <= 0.8492.
Proof.
  split; [repeat split; discriminate|].
  apply (calculate_bet_score_bounds (R := half_even) 0.575 (-110) 0.42);
    split; discriminate.
Defined.

(** X4: the odds filter is a threshold: odds that pass keep passing when
    they get longer or when the ceiling is lowered, and a ceiling at or
    above zero lets exactly the non-negative odds through. *)
Theorem meets_odds_criteria_threshold (max_odds max_odds' odds odds' : Q) :
  (meets_odds_criteria max_odds odds = true ->
   odds <= odds' -> max_odds' <= max_odds ->
   meets_odds_criteria max_odds' odds' = true)
  /\ (0 <= max_odds ->
      (meets_odds_criteria max_odds odds = true <-> 0 <= odds))
  /\ (max_odds <= 0 ->
      (meets_odds_criteria max_odds odds = true <-> max_odds <= odds)).
Proof.
  unfold meets_odds_criteria. split; [| split].
  - intros Hm Ho Hc.
    destruct (Qleb 0 odds') eqn:E'; [reflexivity|].
    apply Qleb_gt in E'. apply Qleb_le.
    destruct (Qleb 0 odds) eqn:E.
    + apply Qleb_le in E. lra.
    + apply Qleb_le in Hm. lra.
  - intros Hc. destruct (Qleb 0 odds) eqn:E.
    + apply Qleb_le in E. tauto.
    + apply Qleb_gt in E. split; intros H.
      * apply Qleb_le in H. lra.
      * lra.
  - intros Hc. destruct (Qleb 0 odds) eqn:E.
    + apply Qleb_le in E. split; intros H; [lra | reflexivity].
    + apply Qleb_le.
Qed.

Lemma meets_odds_criteria_threshold_witness :
  meets_odds_criteria (-150) (-110) = true
  /\ (meets_odds_criteria 100 50 = true <-> 0 <= 50)
  /\ (meets_odds_criteria (-125) (-150) = true <-> -125 <= -150).
Proof.
  destruct (meets_odds_criteria_threshold (-125) (-150) (-120) (-110))
    as (Hmono & _ & _).
  destruct (meets_odds_criteria_threshold 100 100 50 50) as (_ & Hpos & _).
  destruct (meets_odds_criteria_threshold (-125) (-125) (-150) (-150))
    as (_ & _ & Hneg).
  split; [apply Hmono; [reflexivity | discriminate | discriminate]|].
  split; [apply Hpos; discriminate | apply Hneg; discriminate].
Defined.

(* ================================================================== *)
(** * The confidence adjustment and the curves, further *)

Lemma adjust_confidence_window {R : Rounding}
    (base_confidence edge : Q) (bet_type : string) :
  0.25 <= _adjust_confidence_for_edge base_confidence edge bet_type <= 0.88.
Proof.
  unfold _adjust_confidence_for_edge.
  apply py_round_between; [reflexivity | reflexivity |].
  apply clamp_bounds. discriminate.
Qed.

(** X5: the edge-adjusted confidence lies in [[0.25, 0.88]] for every
    base confidence, edge and bet type, and it depends on the edge through
    its magnitude only. *)
Theorem adjust_confidence_range {R : Rounding}
    (base_confidence edge : Q) (bet_type : string) :
  0.25 <= _adjust_confidence_for_edge base_confidence edge bet_type <= 0.88
  /\ _adjust_confidence_for_edge base_confidence (- edge) bet_type
     = _adjust_confidence_for_edge base_confidence edge bet_type.
Proof.
  split; [apply adjust_confidence_window|].
  - unfold _adjust_confidence_for_edge.
    assert (Ha : Qabs (- edge) == Qabs edge) by apply Qabs_opp.
    rewrite !(Qltb_proper (Qabs (- edge)) (Qabs edge) _ _ Ha (Qeq_refl _)).
    reflexivity.
Qed.

(** Within the bands the multiplier is at most 1.05: a confidence is
    never raised by more than 5 percent (up to the rounding). *)
Lemma adjust_confidence_at_most {R : Rounding}
    (base_confidence edge : Q) (bet_type : string) :
  0.25 <= base_confidence ->
  _adjust_confidence_for_edge base_confidence edge bet_type
  <= py_round (base_confidence * 1.05) 3.
Proof.
  intros Hb. unfold _adjust_confidence_for_edge.
  apply py_round_mono.
  set (a := Qabs edge).
  destruct (String.eqb bet_type "spread"); qbool; qclamp; lra.
Qed.

Lemma total_to_probability_mono_pos (e1 e2 : Q) :
  0 < e1 -> e1 <= e2 ->
  _total_to_probability e1 <= _total_to_probability e2.
Proof.
  intros H1 H12.
  assert (Ha1 : Qabs e1 == e1) by (apply Qabs_pos; lra).
  assert (Ha2 : Qabs e2 == e2) by (apply Qabs_pos; lra).
  assert (Hs1 : Qltb 0 e1 = true) by (apply Qltb_lt; lra).
  assert (Hs2 : Qltb 0 e2 = true) by (apply Qltb_lt; lra).
  pose proof (total_to_probability_range e2) as Hr2.
  unfold _total_to_probability in *. rewrite Hs1, Hs2 in *.
  set (a1 := Qabs e1) in *. set (a2 := Qabs e2) in *.
  destruct (Qltb a1 0.5) eqn:E1; [apply Hr2|].
  apply Qltb_ge in E1.
  destruct (Qltb a2 0.5) eqn:E2; [apply Qltb_lt in E2; lra|].
  apply clamp_mono. qbool; qclamp; lra.
Qed.

(** X6: the total curve stays in [[0.50, 0.65]], never goes down on
    positive edges, is 0.50 for every edge of magnitude below 0.5 and
    reaches its cap 0.65 at an edge of 32 points. *)
Theorem total_to_probability_shape (e1 e2 : Q) :
  0.50 <= _total_to_probability e1 <= 0.65
  /\ (0 < e1 -> e1 <= e2 ->
      _total_to_probability e1 <= _total_to_probability e2)
  /\ (Qabs e1 < 0.5 -> _total_to_probability e1 == 0.50)
  /\ (32 <= e1 -> _total_to_probability e1 == 0.65).
Proof.
  split; [apply total_to_probability_range|].
  split; [apply total_to_probability_mono_pos|].
  split.
  - intros Hs. unfold _total_to_probability.
    assert (E : Qltb (Qabs e1) 0.5 = true) by (apply Qltb_lt; exact Hs).
    rewrite E. reflexivity.
  - intros He.
    assert (Ha : Qabs e1 == e1) by (apply Qabs_pos; lra).
    assert (Hs : Qltb 0 e1 = true) by (apply Qltb_lt; lra).
    unfold _total_to_probability. rewrite Hs.
    set (a := Qabs e1) in *. qbool; qclamp; lra.
Qed.

Lemma total_to_probability_shape_witness :
  _total_to_probability 3 <= _total_to_probability 10
  /\ _total_to_probability 0.4 == 0.50
  /\ _total_to_probability 40 == 0.65.
Proof.
  destruct (total_to_probability_shape 3 10) as (_ & Hmono & _).
  destruct (total_to_probability_shape 0.4 0.4) as (_ & _ & Hsmall & _).
  destruct (total_to_probability_shape 40 40) as (_ & _ & _ & Hcap).
  split; [apply Hmono; [reflexivity | discriminate]|].
  split; [apply Hsmall; reflexivity | apply Hcap; discriminate].
Defined.

(** X7: the spread curve reaches its cap 0.70 at an edge of 25 points,
    and it is flat at 0.50 from an edge of -5 up to, but not including,
    an edge of 0.5. *)
Theorem spread_to_probability_flat_and_cap (edge : Q) :
  (25 <= edge -> _spread_to_probability edge == 0.70)
  /\ (-5 <= edge -> edge < 0.5 -> _spread_to_probability edge == 0.50).
Proof.
  split.
  - intros He.
    assert (Ha : Qabs edge == edge) by (apply Qabs_pos; lra).
    assert (Hs : Qltb 0 edge = true) by (apply Qltb_lt; lra).
    unfold _spread_to_probability. rewrite Hs.
    set (a := Qabs edge) in *. qbool; qclamp; lra.
  - intros H1 H2.
    assert (Ha : Qabs edge <= 5) by (apply Qabs_Qle_condition; lra).
    unfold _spread_to_probability.
    destruct (Qltb (Qabs edge) 0.5) eqn:E0; [reflexivity|].
    apply Qltb_ge in E0.
    assert (E5 : Qleb (Qabs edge) 5 = true) by (apply Qleb_le; exact Ha).
    rewrite E5.
    assert (Hneg : edge <= 0).
    { destruct (Qlt_le_dec 0 edge) as [Hp | Hn]; [| exact Hn].
      assert (Qabs edge == edge) by (apply Qabs_pos; lra). lra. }
    qclamp; lra.
Qed.

Lemma spread_to_probability_flat_and_cap_witness :
  _spread_to_probability 30 == 0.70 /\ _spread_to_probability (-3) == 0.50.
Proof.
  split.
  - apply (spread_to_probability_flat_and_cap 30). discriminate.
  - apply (spread_to_probability_flat_and_cap (-3));
      [discriminate | reflexivity].
Defined.

(* ================================================================== *)
(** * Bounds of the predictions *)


Lemma validate_rating_range (rating : Q) : 60 <= validate_rating rating <= 180.
Proof.
  unfold validate_rating.
  destruct (Qleb rating 0); [split; discriminate|].
  destruct (Qltb rating 60) eqn:E1; [split; discriminate|].
  destruct (Qltb 180 rating) eqn:E2; [split; discriminate|].
  apply Qltb_ge in E1, E2. cbn [orb]. lra.
Qed.

Lemma validate_rating_id (rating : Q) :
  60 <= rating <= 180 -> validate_rating rating = rating.
Proof.
  intros [H1 H2]. unfold validate_rating.
  assert (E0 : Qleb rating 0 = false) by (apply Qleb_gt; lra).
  assert (E1 : Qltb rating 60 = false) by (apply Qltb_ge; lra).
  assert (E2 : Qltb 180 rating = false) by (apply Qltb_ge; lra).
  rewrite E0, E1, E2. reflexivity.
Qed.

Lemma validate_pace_id (pace : Q) :
  55 <= pace <= 85 -> validate_pace pace = pace.
Proof.
  intros [H1 H2]. unfold validate_pace.
  assert (E0 : Qleb pace 0 = false) by (apply Qleb_gt; lra).
  assert (E1 : Qltb pace 55 = false) by (apply Qltb_ge; lra).
  assert (E2 : Qltb 85 pace = false) by (apply Qltb_ge; lra).
  rewrite E0, E1, E2. reflexivity.
Qed.

(** X9: with a regression weight in [[0, 1]] the projected scores are
    positive and bounded: the game pace lies in [[55, 85]], the home team
    is projected between 12.9 and 224 points and the away team between 11
    and 221, whatever the ratings and paces on record. *)
Theorem projected_scores_bounds (home_metrics away_metrics : TeamMetrics)
    (regression_weight : Q) :
  0 <= regression_weight <= 1 ->
  let p := project home_metrics away_metrics regression_weight in
  55 <= game_pace p <= 85
  /\ 12.9 <= home_projected p <= 224
  /\ 11 <= away_projected p <= 221.
Proof.
  intros [Hw0 Hw1]. cbv zeta. unfold project.
  cbn [game_pace home_projected away_projected].
  pose proof (validate_pace_range (pace home_metrics)) as Hhp.
  pose proof (validate_pace_range (pace away_metrics)) as Hap.
  pose proof (validate_rating_range (offensive_rating home_metrics)) as Hho.
  pose proof (validate_rating_range (defensive_rating home_metrics)) as Hhd.
  pose proof (validate_rating_range (offensive_rating away_metrics)) as Hao.
  pose proof (validate_rating_range (defensive_rating away_metrics)) as Had.
  set (hp := validate_pace (pace home_metrics)) in *.
  set (ap := validate_pace (pace away_metrics)) in *.
  set (ho := validate_rating (offensive_rating home_metrics)) in *.
  set (hd := validate_rating (defensive_rating home_metrics)) in *.
  set (ao := validate_rating (offensive_rating away_metrics)) in *.
  set (ad := validate_rating (defensive_rating away_metrics)) in *.
  unfold league_avg, home_court_boost.
  set (w := regression_weight) in *.
  assert (Hadj : forall r, 60 <= r <= 180 ->
            60 <= r * w + 100 * (1 - w) <= 180).
  { intros r [Hr1 Hr2].
    assert (H1 : 0 <= (r - 60) * w) by (apply Qmult_le_0_compat; lra).
    assert (H2 : 0 <= (180 - r) * w) by (apply Qmult_le_0_compat; lra).
    lra. }
  pose proof (Hadj ho Hho) as Aho. pose proof (Hadj hd Hhd) as Ahd.
  pose proof (Hadj ao Hao) as Aao. pose proof (Hadj ad Had) as Aad.
  set (xho := ho * w + 100 * (1 - w)) in *.
  set (xhd := hd * w + 100 * (1 - w)) in *.
  set (xao := ao * w + 100 * (1 - w)) in *.
  set (xad := ad * w + 100 * (1 - w)) in *.
  set (gp := hp * 0.55 + ap * 0.45).
  assert (Hgp : 55 <= gp <= 85) by (unfold gp; lra).
  assert (Hprod : forall e lo hi, 0 <= lo -> lo <= e <= hi ->
            lo * 55 / 100 <= e * gp / 100 <= hi * 85 / 100).
  { intros e lo hi Hlo [He1 He2]. split.
    - apply Qmult_le_compat_r; [| discriminate].
      apply Qle_trans with (e * 55); [apply Qmult_le_compat_r; lra|].
      assert (H : 0 <= e * (gp - 55)) by (apply Qmult_le_0_compat; lra). lra.
    - apply Qmult_le_compat_r; [| discriminate].
      apply Qle_trans with (e * 85); [| apply Qmult_le_compat_r; lra].
      assert (H : 0 <= e * (85 - gp)) by (apply Qmult_le_0_compat; lra). lra. }
  split; [exact Hgp|]. split.
  - assert (He : 23.5 <= xho + (xad - 100) + 3.5 <= 263.5) by lra.
    pose proof (Hprod _ 23.5 263.5 ltac:(discriminate) He) as [H1 H2].
    split; [eapply Qle_trans; [| exact H1]; discriminate
           | eapply Qle_trans; [exact H2 |]; discriminate].
  - assert (He : 20 <= xao + (xhd - 100) <= 260) by lra.
    pose proof (Hprod _ 20 260 ltac:(discriminate) He) as [H1 H2].
    split; [eapply Qle_trans; [| exact H1]; discriminate
           | eapply Qle_trans; [exact H2 |]; discriminate].
Qed.

(* ================================================================== *)
(** * The regression weight *)

(** Names every quotient by a constant and records what it is. *)
Ltac qdivc :=
  repeat match goal with
  | |- context [?x / ?c] =>
      let d := fresh "d" in
      let H := fresh "Hd" in
      assert (H : (x / c) * c == x)
        by (field; let Hc := fresh in intro Hc; vm_compute in Hc;
            discriminate Hc);
      set (d := x / c) in *
  end.

Lemma talent_boost_nonneg (max_gap : Q) :
  0 <= (if Qltb 30 max_gap then 0.10
        else if Qltb 20 max_gap then 0.07
        else if Qltb 15 max_gap then 0.04
        else 0.00) <= 0.10.
Proof.
  destruct (Qltb 30 max_gap); [split; discriminate|].
  destruct (Qltb 20 max_gap); [split; discriminate|].
  destruct (Qltb 15 max_gap); split; discriminate.
Qed.

(** X10: the regression weight never exceeds 0.99, and it is at least
    0.75 as soon as the games played on record are not negative. *)
Theorem regression_weight_range
    (home_stats away_stats : gmap string Q)
    (home_recent away_recent : list (gmap string Q))
    (game_info : option GameInfo) :
  let w := get_adaptive_regression_weight
             home_stats away_stats home_recent away_recent game_info in
  w <= 0.99
  /\ (0 <= dget home_stats "games" (nat_Q (length home_recent))
           + dget away_stats "games" (nat_Q (length away_recent)) ->
      0.75 <= w).
Proof.
  cbv zeta. split.
  - unfold get_adaptive_regression_weight. apply py_min_spec.
  - intros Hg. unfold get_adaptive_regression_weight.
    set (hg := dget home_stats "games" (nat_Q (length home_recent))) in *.
    set (ag := dget away_stats "games" (nat_Q (length away_recent))) in *.
    set (gap := py_max (py_max _ _) _).
    pose proof (talent_boost_nonneg gap) as Ht.
    set (t1 := if Qltb 30 gap then _ else _) in *.
    set (t2 := if Qleb 2 hg && Qleb 2 ag then _ else t1).
    assert (Ht2 : 0 <= t2).
    { unfold t2. destruct (Qleb 2 hg && Qleb 2 ag); [| apply Ht].
      destruct (_ && _); [| apply Ht].
      eapply Qle_trans; [apply Ht | apply py_max_spec]. }
    set (t3 := match game_info with Some _ => _ | None => t2 end).
    assert (Ht3 : 0 <= t3).
    { unfold t3. destruct game_info as [gi|]; [| exact Ht2].
      destruct (Qltb _ 10); [| exact Ht2].
      eapply Qle_trans; [exact Ht2 | apply py_max_spec]. }
    apply py_min_glb; [discriminate|].
    qdivc. clearbody t3. qbool; qclamp; lra.
Qed.

Lemma regression_weight_range_witness :
  0 <= dget (∅ : gmap string Q) "games" (nat_Q (length (@nil (gmap string Q))))
       + dget (∅ : gmap string Q) "games"
           (nat_Q (length (@nil (gmap string Q))))
  /\ 0.75 <= get_adaptive_regression_weight ∅ ∅ [] [] None.
Proof.
  split; [vm_compute; discriminate|].
  apply (regression_weight_range ∅ ∅ [] [] None). vm_compute. discriminate.
Defined.

(** X11: the extra regression of predict_spread only lowers the weight:
    for a weight that is not negative, the weight it uses lies between
    0.60 times and 1 times the adaptive weight. *)
Theorem spread_regression_weight_range
    (home_stats away_stats : gmap string Q) (base_regression_weight : Q) :
  0 <= base_regression_weight ->
  base_regression_weight * 0.60
  <= spread_regression_weight home_stats away_stats base_regression_weight
  <= base_regression_weight.
Proof.
  intros Hb. unfold spread_regression_weight.
  destruct (_ && Qltb _ 6); [lra|].
  destruct (Qltb _ 4); lra.
Qed.

Lemma spread_regression_weight_range_witness :
  0 <= 0.75
  /\ 0.75 * 0.60 <= spread_regression_weight ∅ ∅ 0.75 <= 0.75.
Proof.
  split; [discriminate|].
  apply (spread_regression_weight_range ∅ ∅ 0.75). discriminate.
Defined.

Lemma projected_scores_bounds_witness :
  0 <= 0.8 <= 1
  /\ 12.9 <= home_projected (project (calculate_team_metrics ∅)
                               (calculate_team_metrics ∅) 0.8) <= 224.
Proof.
  assert (Hw : 0 <= 0.8 <= 1) by (split; discriminate).
  split; [exact Hw|].
  destruct (projected_scores_bounds (calculate_team_metrics ∅)
              (calculate_team_metrics ∅) 0.8 Hw) as (_ & Hhome & _).
  exact Hhome.
Defined.

(* ================================================================== *)
(** * Recent form, further *)

Lemma nat_Q_le (a b : nat) : (a <= b)%nat -> nat_Q a <= nat_Q b.
Proof. intros H. unfold nat_Q. rewrite <- Zle_Qle. lia. Qed.

Lemma sample_size_factor_range (num_games : nat) :
  0.3 <= sample_size_factor num_games <= 0.90.
Proof.
  unfold sample_size_factor.
  destruct (num_games <=? 2)%nat eqn:E2; [split; discriminate|].
  apply Nat.leb_gt in E2. pose proof (nat_Q_le 3 num_games E2) as H3.
  change (nat_Q 3) with 3 in H3.
  destruct (num_games <=? 5)%nat eqn:E5.
  { apply Nat.leb_le in E5. pose proof (nat_Q_le num_games 5 E5) as H5.
    change (nat_Q 5) with 5 in H5. lra. }
  destruct (num_games <=? 10)%nat eqn:E10.
  { apply Nat.leb_le in E10. pose proof (nat_Q_le num_games 10 E10) as H10.
    change (nat_Q 10) with 10 in H10. lra. }
  qclamp; lra.
Qed.

Lemma variance_factor_floor (np_sqrt : Q -> Q) (margins : list Q) :
  0.3 <= variance_factor np_sqrt margins.
Proof.
  unfold variance_factor.
  destruct (1 <? length margins)%nat; [| discriminate].
  set (s := np_std np_sqrt margins). qdivc. qbool; qclamp; lra.
Qed.

Lemma quality_factor_range (margins : list Q) :
  0.3 <= quality_factor margins < 1.
Proof.
  unfold quality_factor.
  destruct (3 <=? length margins)%nat; [| split; [discriminate | reflexivity]].
  set (swing := list_max margins - list_min margins).
  destruct (Qltb 40 swing) eqn:E; [| split; [discriminate | reflexivity]].
  apply Qltb_lt in E. qdivc. qclamp; lra.
Qed.

(** X12: the consistency score is never below 0.30, whatever the games
    and whatever np.std returns: the 0.25 floor of the clamp is never
    reached. *)
Theorem consistency_floor {R : Rounding} (np_sqrt : Q -> Q)
    (recent_games : list (gmap string Q)) (team_id : Z) :
  0.30 <= consistency (analyze_recent_form np_sqrt recent_games team_id).
Proof.
  destruct recent_games as [| g rest];
    [cbn [analyze_recent_form consistency]; discriminate|].
  cbn [analyze_recent_form consistency].
  set (margins := map fst _).
  pose proof (sample_size_factor_range (length margins)) as Hs.
  pose proof (variance_factor_floor np_sqrt margins) as Hv.
  pose proof (quality_factor_range margins) as Hq.
  rewrite <- (py_round_on_grid 0.30 3 eq_refl).
  apply py_round_mono. qclamp; lra.
Qed.

Lemma filter_true_length (l : list bool) :
  (length (filter (fun b => b = true) l) <= length l)%nat.
Proof. apply length_filter. Qed.

(** X13: the win rate lies in [[0, 1]] for every list of games. *)
Theorem win_rate_range {R : Rounding} (np_sqrt : Q -> Q)
    (recent_games : list (gmap string Q)) (team_id : Z) :
  0 <= win_rate (analyze_recent_form np_sqrt recent_games team_id) <= 1.
Proof.
  destruct recent_games as [| g rest]; [split; discriminate|].
  cbn [analyze_recent_form win_rate].
  set (results := map _ (map fst _)).
  pose proof (filter_true_length results) as Hlen.
  assert (Hpos : 0 < nat_Q (length results)).
  { unfold results. rewrite !length_map. cbn [length].
    unfold nat_Q. change 0 with (inject_Z 0). rewrite <- Zlt_Qlt. lia. }
  pose proof (nat_Q_le _ _ Hlen) as Hle.
  pose proof (nat_Q_nonneg (length (filter (fun b => b = true) results))) as H0.
  split.
  - apply Qle_shift_div_l; lra.
  - apply Qle_shift_div_r; lra.
Qed.

(** X27: with three or more recent margins, the quality factor of
    analyze_recent_form is 0.8 for a swing of at most 40 between the best
    and the worst margin, is above 0.8 for a swing between 40 and 60, at
    most 0.8 from 60 on and 0.3 from 110 on: it is not decreasing in the
    swing. *)
Theorem quality_factor_swing (margins : list Q) :
  (3 <= length margins)%nat ->
  let swing := list_max margins - list_min margins in
  (swing <= 40 -> quality_factor margins == 0.8)
  /\ (40 < swing -> swing < 60 -> 0.8 < quality_factor margins)
  /\ (60 <= swing -> quality_factor margins <= 0.8)
  /\ (110 <= swing -> quality_factor margins == 0.3).
Proof.
  intros Hlen. cbv zeta. unfold quality_factor.
  apply Nat.leb_le in Hlen. rewrite Hlen.
  set (swing := list_max margins - list_min margins).
  repeat split; intros; qdivc; qbool; qclamp; lra.
Qed.

Lemma quality_factor_swing_witness :
  (3 <= length [10%Q; (-5)%Q; 36%Q])%nat
  /\ 40 < list_max [10%Q; (-5)%Q; 36%Q] - list_min [10%Q; (-5)%Q; 36%Q]
  /\ 0.8 < quality_factor [10%Q; (-5)%Q; 36%Q].
Proof.
  assert (Hlen : (3 <= length [10%Q; (-5)%Q; 36%Q])%nat) by (cbn; lia).
  split; [exact Hlen|]. split; [vm_compute; reflexivity|].
  destruct (quality_factor_swing [10%Q; (-5)%Q; 36%Q] Hlen) as (_ & H & _).
  apply H; vm_compute; reflexivity.
Defined.

(* ================================================================== *)
(** * The market adjustment, in general *)

Lemma blend_step (gap bf : Q) :
  5 < gap -> 0.40 <= bf <= 0.90 -> 2 < gap * bf < gap.
Proof.
  intros Hg [Hb1 Hb2]. split.
  - apply Qlt_le_trans with (gap * 0.40); [lra|].
    apply Qmult_le_l; lra.
  - apply Qle_lt_trans with (gap * 0.90); [| lra].
    apply Qmult_le_l; lra.
Qed.

(** What lines 484-523 do to a spread: nothing, or a step of
    gap x blend factor away from zero on the side both the market and the
    model favour. *)
Lemma market_blend_cases (ms : Q) (num_games : nat) (x : Q) :
  market_blend ms num_games x = x
  \/ (5 < Qabs ms - Qabs x
      /\ ((ms < 0 /\ 0 < x
           /\ market_blend ms num_games x
              = x + (Qabs ms - Qabs x) * blend_factor (Qabs ms) num_games)
          \/ (0 <= ms /\ x <= 0
              /\ market_blend ms num_games x
                 = x - (Qabs ms - Qabs x)
                       * blend_factor (Qabs ms) num_games))).
Proof.
  unfold market_blend. cbv zeta.
  destruct (Qltb ms 0) eqn:Em, (Qltb 0 x) eqn:Ex; cbn [Bool.eqb];
    try (left; reflexivity);
    (destruct (Qltb 5 (Qabs ms - Qabs x)) eqn:Eg; [| left; reflexivity]);
    apply Qltb_lt in Eg; right; (split; [exact Eg|]).
  - left. apply Qltb_lt in Em, Ex. auto.
  - right. apply Qltb_ge in Em, Ex. auto.
Qed.

(** What lines 476-523 return, when they return. *)
Lemma market_adjust_cases (game_info : option GameInfo) (num_games : nat)
    (x r : Q) :
  market_adjust game_info num_games x = Ok r ->
  r = x
  \/ exists ms,
       context_home_spread game_info = Some ms
       /\ (num_games < 15)%nat
       /\ r = market_blend ms num_games x.
Proof.
  unfold market_adjust, context_home_spread.
  destruct game_info as [gi|]; [| intros [= <-]; left; reflexivity].
  destruct (num_games <? 15)%nat eqn:En; [| intros [= <-]; left; reflexivity].
  apply Nat.ltb_lt in En.
  destruct (odds gi) as [[od |] |]; cbn;
    [| discriminate | intros [= <-]; left; reflexivity].
  destruct (spread od) as [[d|]|]; cbn;
    try (intros [= <-]; left; reflexivity).
  destruct (home_spread d) as [[z | q | t |] |]; cbn;
    try (intros [= <-]; left; reflexivity); try discriminate;
    intros [= <-]; right; eexists; (split; [reflexivity|]); auto.
Qed.

(** X14: when the market adjustment returns, which it does on every
    context whose market can be read, it never moves a spread toward zero
    or across it, never past the market line (the magnitude stays within
    the larger of the model's and the market's), and it leaves the spread
    alone from 15 recent games on, when there is no market spread and
    when the market is not more than 5 points further out. *)
Theorem market_adjust_toward_market (game_info : option GameInfo)
    (num_games : nat) (x : Q) :
  (odds_readable game_info = true ->
   exists r, market_adjust game_info num_games x = Ok r)
  /\ forall r,
       market_adjust game_info num_games x = Ok r ->
       (0 < x -> x <= r)
       /\ (x <= 0 -> r <= x)
       /\ ((15 <= num_games)%nat -> r = x)
       /\ (context_home_spread game_info = None -> r = x)
       /\ (forall ms, context_home_spread game_info = Some ms ->
             Qabs r <= py_max (Qabs x) (Qabs ms)
             /\ (Qabs ms - Qabs x <= 5 -> r = x)).
Proof.
  split; [apply market_adjust_returns|].
  intros r Hr.
  assert (Hcases :
            r = x
            \/ exists ms,
                 context_home_spread game_info = Some ms
                 /\ (num_games < 15)%nat
                 /\ 5 < Qabs ms - Qabs x
                 /\ ((ms < 0 /\ 0 < x
                      /\ r = x + (Qabs ms - Qabs x)
                                 * blend_factor (Qabs ms) num_games)
                     \/ (0 <= ms /\ x <= 0
                         /\ r = x - (Qabs ms - Qabs x)
                                    * blend_factor (Qabs ms) num_games))).
  { destruct (market_adjust_cases game_info num_games x r Hr)
      as [-> | (ms & Hms & Hn & ->)]; [left; reflexivity|].
    destruct (market_blend_cases ms num_games x)
      as [-> | (Hgap & [(Hm & Hx & ->) | (Hm & Hx & ->)])];
      [left; reflexivity | right; exists ms; auto 10
      | right; exists ms; auto 10]. }
  destruct Hcases as [-> | (ms & Hms & Hn & Hgap & Hside)].
  { split; [intros; lra|]. split; [intros; lra|].
    split; [reflexivity|]. split; [reflexivity|].
    intros ms _. split; [apply py_max_spec | reflexivity]. }
  pose proof (blend_step _ _ Hgap (blend_factor_range (Qabs ms) num_games))
    as Hstep.
  set (step := (Qabs ms - Qabs x) * blend_factor (Qabs ms) num_games) in *.
  split; [| split; [| split; [| split]]].
  - intros Hx. destruct Hside as [(_ & _ & ->) | (_ & Hx' & _)]; lra.
  - intros Hx. destruct Hside as [(_ & Hx' & _) | (_ & _ & ->)]; lra.
  - intros Hn'. lia.
  - intros Hnone. congruence.
  - intros ms' Hms'. assert (ms' = ms) by congruence. subst ms'.
    split; [| intros Hle; lra].
    eapply Qle_trans; [| apply py_max_spec].
    destruct Hside as [(Hm & Hx & ->) | (Hm & Hx & ->)].
    + assert (Hax : Qabs x == x) by (apply Qabs_pos; lra).
      apply Qabs_Qle_condition. lra.
    + assert (Hax : Qabs x == - x) by (apply Qabs_neg; lra).
      apply Qabs_Qle_condition. lra.
Qed.

Lemma market_adjust_toward_market_witness :
  exists r late,
    market_adjust (Some info_home_minus_20) 2 5 = Ok r
    /\ market_adjust (Some info_home_minus_20) 15 5 = Ok late
    /\ 5 <= r
    /\ Qabs r <= py_max (Qabs 5) (Qabs (-20))
    /\ late = 5.
Proof.
  destruct (market_adjust_toward_market (Some info_home_minus_20) 2 5)
    as (Hret & Hfacts).
  destruct (Hret eq_refl) as [r Hr].
  destruct (Hfacts r Hr) as (Hup & _ & _ & _ & Hms).
  destruct (market_adjust_toward_market (Some info_home_minus_20) 15 5)
    as (Hret' & Hfacts').
  destruct (Hret' eq_refl) as [late Hl].
  destruct (Hfacts' late Hl) as (_ & _ & Hlate & _).
  exists r, late. split; [exact Hr|]. split; [exact Hl|].
  split; [apply Hup; reflexivity|].
  split; [apply (Hms (-20) eq_refl) | apply Hlate; lia].
Defined.

(* ================================================================== *)
(** * Bets from predictions *)

(** The numeric fields of a bet dictionary, within the ranges that
    create_bet_from_prediction keeps, and no score yet. *)
Lemma bet_fields_intro (bet : gmap string pyval) (o : Z) (p c : Q) :
  bet !! "odds" = Some (VInt o) ->
  bet !! "predicted_prob" = Some (VFloat p) ->
  bet !! "confidence" = Some (VFloat c) ->
  bet !! "score" = None ->
  0.50 <= p <= 0.70 -> 0.25 <= c <= 0.88 ->
  exists o p c,
    bet !! "odds" = Some (VInt o)
    /\ bet !! "predicted_prob" = Some (VFloat p)
    /\ bet !! "confidence" = Some (VFloat c)
    /\ bet !! "score" = None
    /\ 0.50 <= p <= 0.70 /\ 0.25 <= c <= 0.88.
Proof. intros. exists o, p, c. auto 10. Qed.

Lemma total_rating_in_spread_range (edge : Q) :
  0.50 <= _total_to_probability edge <= 0.70.
Proof. pose proof (total_to_probability_range edge). lra. Qed.

Lemma created_bet_fields {R : Rounding} (bet : gmap string pyval) :
  created_bet bet ->
  exists o p c,
    bet !! "odds" = Some (VInt o)
    /\ bet !! "predicted_prob" = Some (VFloat p)
    /\ bet !! "confidence" = Some (VFloat c)
    /\ bet !! "score" = None
    /\ 0.50 <= p <= 0.70 /\ 0.25 <= c <= 0.88.
Proof.
  intros (repr & f1 & f2 & game & ty & x & conf & od & bets & Hrun & Hin).
  unfold create_bet_from_prediction in Hrun.
  destruct (String.eqb ty "spread").
  - destruct (default (SpreadDict empty_spread) (spread od)) as [d|];
      [| discriminate Hrun].
    cbn [mbind result_bind rbind] in Hrun.
    destruct (spread_side _ _ _ _ _ _ _) as [[[[team sp] o] edge] | e];
      [| discriminate Hrun].
    cbv beta iota zeta in Hrun. injection Hrun as <-.
    apply list_elem_of_singleton in Hin. subst bet.
    eapply bet_fields_intro;
      [reflexivity | reflexivity | reflexivity | reflexivity
      | apply spread_to_probability_range
      | apply adjust_confidence_window].
  - destruct (String.eqb ty "total"); [| injection Hrun as <-; inversion Hin].
    destruct (default (TotalDict empty_total) (total od)) as [d|];
      [| discriminate Hrun].
    cbn [mbind result_bind rbind] in Hrun.
    destruct (as_pynum (default (VInt 140) (line d))) as [n|];
      [| discriminate Hrun].
    cbn [mbind result_bind rbind] in Hrun.
    destruct (Qltb (num_val n) x);
      cbv beta iota zeta in Hrun; injection Hrun as <-;
      apply list_elem_of_singleton in Hin; subst bet;
      (eapply bet_fields_intro;
       [reflexivity | reflexivity | reflexivity | reflexivity
       | apply total_rating_in_spread_range
       | apply adjust_confidence_window]).
Qed.

(** X15: every bet that create_bet_from_prediction returns, of either
    type, has integer odds, a value rating in [[0.50, 0.70]], a confidence
    in [[0.25, 0.88]] and no ['score'] key. *)
Theorem created_bet_invariants {R : Rounding} (bet : gmap string pyval) :
  created_bet bet ->
  exists o p c,
    bet !! "odds" = Some (VInt o)
    /\ bet !! "predicted_prob" = Some (VFloat p)
    /\ bet !! "confidence" = Some (VFloat c)
    /\ bet !! "score" = None
    /\ 0.50 <= p <= 0.70 /\ 0.25 <= c <= 0.88.
Proof. apply created_bet_fields. Qed.

Lemma sample_spread_bet_created :
  exists bet,
    create_bet_from_prediction (R := half_even)
          fmt_1f_exact fmt_1f_exact fmt_plus_1f_exact
      game_unnamed "spread" 3 0.5 odds_home_plus_5 = Ok [bet]
    /\ created_bet (R := half_even) bet.
Proof.
  eexists. split; [reflexivity|].
  exists fmt_1f_exact, fmt_1f_exact, fmt_plus_1f_exact, game_unnamed,
    "spread"%string, 3, 0.5, odds_home_plus_5. eexists.
  split; [reflexivity | apply list_elem_of_here].
Defined.

Lemma created_bet_invariants_witness :
  exists bet o p c,
    created_bet (R := half_even) bet
    /\ bet !! "odds" = Some (VInt o)
    /\ bet !! "predicted_prob" = Some (VFloat p)
    /\ 0.50 <= p <= 0.70 /\ 0.25 <= c <= 0.88.
Proof.
  destruct sample_spread_bet_created as (bet & _ & Hc).
  destruct (created_bet_invariants (R := half_even) bet Hc)
    as (o & p & c & Ho & Hp & _ & _ & Hpr & Hcr).
  exists bet, o, p, c. auto.
Defined.

(** The side of the spread is found unless a line that is needed is
    not a number: the home line when the prediction is positive, the away
    line otherwise, and the other line when the first does not settle the
    pick. *)
Lemma spread_side_outcomes (home_team away_team : string) (prediction : Q)
    (home_spread away_spread : pyval) (home_odds away_odds : Z) :
  let side :=
    spread_side home_team away_team prediction home_spread away_spread
      home_odds away_odds in
  (0 < prediction ->
     (as_number home_spread = None -> side = Raise TypeError)
     /\ (forall h, as_number home_spread = Some h ->
           (Qabs h < prediction ->
            side = Ok (home_team, h, home_odds, prediction - h))
           /\ (prediction <= Qabs h ->
               (as_number away_spread = None -> side = Raise TypeError)
               /\ (forall a, as_number away_spread = Some a ->
                     side = Ok (away_team, a, away_odds, a - prediction)))))
  /\ (prediction <= 0 ->
     (as_number away_spread = None -> side = Raise TypeError)
     /\ (forall a, as_number away_spread = Some a ->
           (Qabs a < Qabs prediction ->
            side = Ok (away_team, a, away_odds, Qabs prediction - Qabs a))
           /\ (Qabs prediction <= Qabs a ->
               (as_number home_spread = None -> side = Raise TypeError)
               /\ (forall h, as_number home_spread = Some h ->
                     side = Ok (home_team, h, home_odds,
                                h + Qabs prediction))))).
Proof.
  cbv zeta. unfold spread_side, number. split.
  - intros Hp. apply Qltb_lt in Hp. rewrite Hp. split.
    + intros ->. reflexivity.
    + intros h ->. cbn [mbind result_bind rbind]. split.
      * intros Hh. apply Qltb_lt in Hh. rewrite Hh. reflexivity.
      * intros Hh. apply Qltb_ge in Hh. rewrite Hh. split.
        -- intros ->. reflexivity.
        -- intros a ->. reflexivity.
  - intros Hp. apply Qltb_ge in Hp. rewrite Hp. split.
    + intros ->. reflexivity.
    + intros a ->. cbn [mbind result_bind rbind]. split.
      * intros Ha. apply Qltb_lt in Ha. rewrite Ha. reflexivity.
      * intros Ha. apply Qltb_ge in Ha. rewrite Ha. split.
        -- intros ->. reflexivity.
        -- intros h ->. reflexivity.
Qed.

Lemma spread_side_numbers (home_team away_team : string) (prediction : Q)
    (home_spread away_spread : pyval) (home_odds away_odds : Z) (h a : Q) :
  as_number home_spread = Some h -> as_number away_spread = Some a ->
  exists side,
    spread_side home_team away_team prediction home_spread away_spread
      home_odds away_odds = Ok side
    /\ (side = (home_team, h, home_odds,
                if Qltb 0 prediction then prediction - h
                else h + Qabs prediction)
        \/ side = (away_team, a, away_odds,
                   if Qltb 0 prediction then a - prediction
                   else Qabs prediction - Qabs a)).
Proof.
  intros Hh Ha. unfold spread_side, number. rewrite Hh, Ha.
  cbn [mbind result_bind rbind].
  destruct (Qltb 0 prediction);
    [destruct (Qltb (Qabs h) prediction)
    | destruct (Qltb (Qabs a) (Qabs prediction))];
    eexists; (split; [reflexivity|]); auto.
Qed.

(** X16: what create_bet_from_prediction returns and raises.  For the
    type ['total'] it raises [AttributeError] when the value under
    ['total'] is not a dictionary and [TypeError] when the line is not a
    number, and returns one bet otherwise.  For the type ['spread'] it
    raises [AttributeError] when the value under ['spread'] is not a
    dictionary, returns one bet when both lines are numbers, and raises
    [TypeError] when the line it compares the prediction with is not a
    number: the home line for a positive prediction, the away line
    otherwise.  For any other type it returns the empty list. *)
Theorem create_bet_from_prediction_outcomes {R : Rounding}
    (repr_float fmt_1f fmt_plus_1f : Q -> string) (game : GameRef)
    (prediction_type : string) (prediction confidence : Q)
    (odds_data : OddsData) :
  let result :=
    create_bet_from_prediction repr_float fmt_1f fmt_plus_1f game
      prediction_type prediction confidence odds_data in
  (prediction_type = "total"%string ->
     (total odds_data = Some TotalNotDict -> result = Raise AttributeError)
     /\ (forall d,
           default (TotalDict empty_total) (total odds_data) = TotalDict d ->
           (line_number 140 (line d) = None -> result = Raise TypeError)
           /\ (line_number 140 (line d) <> None ->
               exists bet, result = Ok [bet])))
  /\ (prediction_type = "spread"%string ->
     (spread odds_data = Some SpreadNotDict -> result = Raise AttributeError)
     /\ (forall d,
           default (SpreadDict empty_spread) (spread odds_data)
           = SpreadDict d ->
           (line_number 0 (home_spread d) <> None ->
            line_number 0 (away_spread d) <> None ->
            exists bet, result = Ok [bet])
           /\ (0 < prediction -> line_number 0 (home_spread d) = None ->
               result = Raise TypeError)
           /\ (prediction <= 0 -> line_number 0 (away_spread d) = None ->
               result = Raise TypeError)))
  /\ (prediction_type <> "spread"%string ->
      prediction_type <> "total"%string -> result = Ok []).
Proof.
  cbv zeta. unfold create_bet_from_prediction, line_number.
  split; [| split].
  - intros ->. cbn [String.eqb Ascii.eqb Bool.eqb]. split.
    + intros ->. reflexivity.
    + intros d ->. cbn [mbind result_bind rbind].
      destruct (default (VInt 140) (line d)) as [z | q | t |];
        cbn [as_number as_pynum mbind result_bind rbind];
        (split; [intros Hn; try discriminate Hn; reflexivity |]);
        intros Hn; try contradiction;
        destruct (Qltb _ prediction); eexists; reflexivity.
  - intros ->. cbn [String.eqb Ascii.eqb Bool.eqb]. split.
    + intros ->. reflexivity.
    + intros d ->. cbn [mbind result_bind rbind].
      set (hs := default (VInt 0) (home_spread d)).
      set (aw := default (VInt 0) (away_spread d)).
      pose proof (spread_side_outcomes (default "Home" (home_team game))
                    (default "Away" (away_team game)) prediction hs aw
                    (default (-110)%Z (home_odds d))
                    (default (-110)%Z (away_odds d))) as [Hpos Hneg].
      split; [| split].
      * intros Hh Ha.
        destruct (as_number hs) as [h|] eqn:Eh; [| contradiction].
        destruct (as_number aw) as [a|] eqn:Ea; [| contradiction].
        destruct (spread_side_numbers (default "Home" (home_team game))
                    (default "Away" (away_team game)) prediction hs aw
                    (default (-110)%Z (home_odds d))
                    (default (-110)%Z (away_odds d)) h a Eh Ea)
          as ([[[team sp] o] e] & -> & _).
        eexists. reflexivity.
      * intros Hp Hh. destruct (Hpos Hp) as [Hraise _].
        rewrite (Hraise Hh). reflexivity.
      * intros Hp Ha. destruct (Hneg Hp) as [Hraise _].
        rewrite (Hraise Ha). reflexivity.
  - intros Hs Ht.
    apply String.eqb_neq in Hs, Ht. rewrite Hs, Ht. reflexivity.
Qed.

Lemma create_bet_from_prediction_outcomes_witness :
  (exists bet,
     create_bet_from_prediction (R := half_even)
       fmt_1f_exact fmt_1f_exact fmt_plus_1f_exact
       game_unnamed "total" 150 0.5 empty_odds = Ok [bet])
  /\ create_bet_from_prediction (R := half_even)
       fmt_1f_exact fmt_1f_exact fmt_plus_1f_exact
       game_unnamed "total" 150 0.5 odds_total_none
     = Raise AttributeError
  /\ create_bet_from_prediction (R := half_even)
       fmt_1f_exact fmt_1f_exact fmt_plus_1f_exact
       game_unnamed "total" 150 0.5 odds_line_none
     = Raise TypeError
  /\ create_bet_from_prediction (R := half_even)
       fmt_1f_exact fmt_1f_exact fmt_plus_1f_exact
       game_unnamed "spread" 3 0.5
       {| spread := Some SpreadNotDict; total := None |}
     = Raise AttributeError
  /\ create_bet_from_prediction (R := half_even)
       fmt_1f_exact fmt_1f_exact fmt_plus_1f_exact
       game_unnamed "moneyline" 3 0.5 empty_odds = Ok [].
Proof.
  split; [| split; [| split; [| split]]].
  - destruct (create_bet_from_prediction_outcomes (R := half_even)
                fmt_1f_exact fmt_1f_exact
                fmt_plus_1f_exact game_unnamed "total" 150 0.5 empty_odds)
      as (Ht & _).
    destruct (Ht eq_refl) as (_ & Hd).
    destruct (Hd empty_total eq_refl) as (_ & Hok).
    apply Hok. discriminate.
  - destruct (create_bet_from_prediction_outcomes (R := half_even)
                fmt_1f_exact fmt_1f_exact
                fmt_plus_1f_exact game_unnamed "total" 150 0.5
                odds_total_none)
      as (Ht & _).
    destruct (Ht eq_refl) as (He & _). apply He. reflexivity.
  - destruct (create_bet_from_prediction_outcomes (R := half_even)
                fmt_1f_exact fmt_1f_exact
                fmt_plus_1f_exact game_unnamed "total" 150 0.5
                odds_line_none)
      as (Ht & _).
    destruct (Ht eq_refl) as (_ & Hd).
    destruct (Hd _ eq_refl) as (He & _). apply He. reflexivity.
  - destruct (create_bet_from_prediction_outcomes (R := half_even)
                fmt_1f_exact fmt_1f_exact
                fmt_plus_1f_exact game_unnamed "spread" 3 0.5
                {| spread := Some SpreadNotDict; total := None |})
      as (_ & Hs & _).
    destruct (Hs eq_refl) as (He & _). apply He. reflexivity.
  - destruct (create_bet_from_prediction_outcomes (R := half_even)
                fmt_1f_exact fmt_1f_exact
                fmt_plus_1f_exact game_unnamed "moneyline" 3 0.5 empty_odds)
      as (_ & _ & Hn).
    apply Hn; discriminate.
Defined.

(* ================================================================== *)
(** * select_best_bets, further *)

Lemma ranked_perm (h : heap) (eligible : list loc) :
  Permutation
    (map snd (sorted_desc (map (fun bet => (score_in h bet, bet)) eligible)))
    eligible.
Proof. rewrite sorted_desc_perm. rewrite keyed_snd. reflexivity. Qed.

Lemma ranked_head_elem (h : heap) (eligible : list loc) (n : nat) (b : loc) :
  b ∈ firstn n
        (map snd (sorted_desc (map (fun bet => (score_in h bet, bet)) eligible)))
  -> b ∈ eligible.
Proof.
  intros Hb. rewrite <- (ranked_perm h eligible).
  eapply subseteq_take, Hb.
Qed.

Lemma bet_ready_scores_only {R : Rounding}
    (max_odds : Q) (h0 h : heap) (bet : loc) :
  scores_only h0 h -> bet_ready max_odds h bet = bet_ready max_odds h0 bet.
Proof.
  intros Hinv. unfold bet_ready.
  rewrite (scores_only_number h0 h bet "odds" Hinv) by discriminate.
  rewrite (scores_only_expected h0 h bet Hinv). reflexivity.
Qed.

Lemma eligible_scores_only {R : Rounding}
    (max_odds : Q) (h0 h : heap) (all_bets : list loc) :
  scores_only h0 h ->
  List.filter (bet_passes max_odds h) all_bets
  = List.filter (bet_passes max_odds h0) all_bets.
Proof.
  intros Hinv. induction all_bets as [| b r IH]; [reflexivity|].
  cbn [List.filter]. rewrite IH, (scores_only_passes max_odds h0 h b Hinv).
  reflexivity.
Qed.

(** X17: select_best_bets is idempotent: a second call on the same list
    returns the same bets and leaves every dictionary as the first call
    left it. *)
Theorem select_best_bets_idempotent {R : Rounding} (max_odds : Q) (h h' : heap)
    (all_bets best : list loc) :
  select_best_bets max_odds h all_bets = (h', Ok best) ->
  select_best_bets max_odds h' all_bets = (h', Ok best).
Proof.
  intros Hfirst.
  pose proof (select_best_bets_returns_ready _ _ _ _ _ Hfirst) as Hready.
  destruct (select_best_bets_run max_odds h all_bets Hready)
    as (h1 & Hrun1 & Hinv1 & Hin1 & Hout1).
  rewrite Hrun1 in Hfirst. injection Hfirst as -> <-.
  assert (Hready' : Forall (fun bet => bet_ready max_odds h' bet = true)
                      all_bets).
  { eapply Forall_impl; [exact Hready|]. intros b Hb.
    rewrite (bet_ready_scores_only max_odds h h' b Hinv1). exact Hb. }
  destruct (select_best_bets_run max_odds h' all_bets Hready')
    as (h2 & Hrun2 & Hinv2 & Hin2 & Hout2).
  rewrite (eligible_scores_only max_odds h h' all_bets Hinv1) in *.
  set (eligible := List.filter (bet_passes max_odds h) all_bets) in *.
  assert (Heq : h2 = h').
  { apply map_eq. intros b.
    destruct (decide (b ∈ eligible)) as [Hb | Hb]; [| apply Hout2, Hb].
    destruct (Hin1 b Hb) as (d & s & Hd & Hs & Hh').
    destruct (Hin2 b Hb) as (d' & s' & Hd' & Hs' & Hh2).
    rewrite (scores_only_expected h h' b Hinv1) in Hs'.
    assert (s' = s) by congruence. subst s'.
    assert (d' = <["score" := VFloat s]> d) by congruence. subst d'.
    rewrite Hh2, Hh'. f_equal. apply insert_insert_eq. }
  rewrite Hrun2, Heq. reflexivity.
Qed.

Lemma select_best_bets_idempotent_witness :
  exists h' best,
    select_best_bets (R := half_even)
          (-125) sample_heap [0; 1; 2; 3; 0]%nat = (h', Ok best)
    /\ select_best_bets (R := half_even)
          (-125) h' [0; 1; 2; 3; 0]%nat = (h', Ok best).
Proof.
  destruct (select_best_bets_run (R := half_even)
        (-125) sample_heap [0; 1; 2; 3; 0]%nat
              sample_bets_ready) as (h' & Hrun & _).
  eexists h', _. split; [exact Hrun|].
  apply (select_best_bets_idempotent (R := half_even) (-125) sample_heap), Hrun.
Defined.

(** X18: on bets that are ready for it, select_best_bets returns
    min(5, number of bets that pass the odds filter) bets, each of which
    is one of the input references. *)
Theorem select_best_bets_size {R : Rounding}
    (max_odds : Q) (h : heap) (all_bets : list loc) :
  Forall (fun bet => bet_ready max_odds h bet = true) all_bets ->
  exists h' best,
    select_best_bets max_odds h all_bets = (h', Ok best)
    /\ length best
       = Nat.min 5 (length (List.filter (bet_passes max_odds h) all_bets))
    /\ (forall b, b ∈ best -> b ∈ all_bets).
Proof.
  intros Hready.
  destruct (select_best_bets_run max_odds h all_bets Hready)
    as (h' & Hrun & _).
  eexists h', _. split; [exact Hrun|]. split.
  - rewrite length_take.
    rewrite (Permutation_length (ranked_perm h' _)). reflexivity.
  - intros b Hb. apply ranked_head_elem in Hb.
    apply eligible_elem in Hb. apply Hb.
Qed.

Lemma select_best_bets_size_witness :
  exists h' best,
    select_best_bets (R := half_even)
          (-125) sample_heap [0; 1; 2; 3; 0]%nat = (h', Ok best)
    /\ length best = 4%nat.
Proof.
  destruct (select_best_bets_size (R := half_even)
        (-125) sample_heap [0; 1; 2; 3; 0]%nat
              sample_bets_ready) as (h' & best & Hrun & Hlen & _).
  exists h', best. split; [exact Hrun|]. rewrite Hlen. reflexivity.
Defined.

Lemma assign_scores_keeps {R : Rounding} (bets : list loc) :
  forall h0 h : heap,
    scores_only h0 h -> scores_only h0 (fst (assign_scores h bets)).
Proof.
  induction bets as [| bet rest IH]; intros h0 h Hinv; [exact Hinv|].
  cbn [assign_scores].
  destruct (bet_score h bet) as [s|] eqn:Es; [| exact Hinv].
  apply bet_score_Ok in Es.
  rewrite (scores_only_expected h0 h bet Hinv) in Es.
  apply IH. apply (set_score_step h0 h bet s Hinv Es).
Qed.

Lemma select_best_bets_scores_only {R : Rounding} (max_odds : Q) (h : heap)
    (all_bets : list loc) :
  scores_only h (fst (select_best_bets max_odds h all_bets)).
Proof.
  assert (Hinv0 : scores_only h h) by (intros b; left; reflexivity).
  unfold select_best_bets.
  destruct (eligible_bets max_odds h all_bets) as [eligible|]; [| exact Hinv0].
  pose proof (assign_scores_keeps eligible h h Hinv0) as Hinv.
  destruct (assign_scores h eligible) as [h' [u|e]]; cbn [fst] in *;
    [| exact Hinv].
  destruct (sort_keys h' eligible); exact Hinv.
Qed.

(** X19: whether select_best_bets returns or raises, it changes no key
    other than ['score'] in any dictionary, and it neither adds nor removes
    a dictionary. *)
Theorem select_best_bets_touches_scores_only {R : Rounding}
    (max_odds : Q) (h : heap)
    (all_bets : list loc) (bet : loc) :
  let h' := fst (select_best_bets max_odds h all_bets) in
  (forall k, k <> "score"%string ->
     (h' !! bet) ≫= (.!! k) = (h !! bet) ≫= (.!! k))
  /\ (is_Some (h' !! bet) <-> is_Some (h !! bet)).
Proof.
  cbv zeta.
  pose proof (select_best_bets_scores_only max_odds h all_bets) as Hinv.
  split.
  - intros k Hk. apply scores_only_item; assumption.
  - destruct (Hinv bet) as [-> | (d & s & Hd & _ & Hh)]; [reflexivity|].
    rewrite Hd, Hh. split; eauto.
Qed.

Lemma eligible_bets_raise (max_odds : Q) (h : heap) (all_bets : list loc)
    (bet : loc) :
  bet ∈ all_bets -> item_number h bet "odds" = None ->
  exists e, eligible_bets max_odds h all_bets = Raise e
            /\ (e = KeyError \/ e = TypeError).
Proof.
  intros Hin Hno. induction all_bets as [| b r IH]; [inversion Hin|].
  cbn [eligible_bets].
  destruct (get_item h b "odds") as [v|e] eqn:Eg.
  2:{ exists e. split; [reflexivity|]. left.
      unfold get_item in Eg.
      destruct (h !! b) as [d|]; [destruct (d !! "odds") |];
        congruence. }
  cbn. destruct (number v) as [o|e] eqn:En.
  2:{ exists e. split; [reflexivity|]. right.
      unfold number in En. destruct (as_number v); congruence. }
  cbn. apply elem_of_cons in Hin as [-> | Hin].
  - rewrite (item_number_of_get _ _ _ _ _ Eg En) in Hno. discriminate Hno.
  - destruct (IH Hin) as (e & -> & He). exists e. auto.
Qed.

(** X20: when some bet of the list has no numeric ['odds'],
    select_best_bets raises [KeyError] or [TypeError] before it assigns
    any score: every dictionary is left as it was. *)
Theorem select_best_bets_bad_odds {R : Rounding} (max_odds : Q) (h : heap)
    (all_bets : list loc) (bet : loc) :
  bet ∈ all_bets -> item_number h bet "odds" = None ->
  exists e,
    select_best_bets max_odds h all_bets = (h, Raise e)
    /\ (e = KeyError \/ e = TypeError).
Proof.
  intros Hin Hno.
  destruct (eligible_bets_raise max_odds h all_bets bet Hin Hno)
    as (e & He & Hkind).
  exists e. unfold select_best_bets. rewrite He. auto.
Qed.

Lemma select_best_bets_bad_odds_witness :
  select_best_bets (R := half_even) (-125) sample_heap [0; 7; 2]%nat
  = (sample_heap, Raise KeyError).
Proof.
  destruct (select_best_bets_bad_odds (R := half_even)
        (-125) sample_heap [0; 7; 2]%nat 7%nat)
    as (e & Hrun & _).
  - apply list_elem_of_further, list_elem_of_here.
  - reflexivity.
  - rewrite Hrun. f_equal.
    assert (He : snd (select_best_bets (R := half_even)
          (-125) sample_heap [0; 7; 2]%nat)
                 = Raise KeyError) by (vm_compute; reflexivity).
    rewrite Hrun in He. exact He.
Defined.

(** X21: bets that come from create_bet_from_prediction can always be
    ranked: on a list of references to such dictionaries select_best_bets
    returns, and every returned bet has a score in [[0.36, 0.8492]]. *)
Theorem created_bets_selectable {R : Rounding} (max_odds : Q) (h : heap)
    (all_bets : list loc) :
  Forall (fun bet => exists d, h !! bet = Some d /\ created_bet d) all_bets ->
  exists h' best,
    select_best_bets max_odds h all_bets = (h', Ok best)
    /\ Forall (fun bet => 0.36 <= score_in h' bet <= 0.8492) best.
Proof.
  intros Hcreated.
  assert (Hscore : Forall (fun bet =>
            exists s, expected_score h bet = Some s
                      /\ is_Some (item_number h bet "odds")
                      /\ 0.36 <= s <= 0.8492) all_bets).
  { eapply Forall_impl; [exact Hcreated|].
    intros b (d & Hd & Hc).
    destruct (created_bet_fields d Hc)
      as (o & p & c & Ho & Hp & Hcf & _ & Hpr & Hcr).
    exists (calculate_bet_score p (inject_Z o) c).
    unfold expected_score, item_number. rewrite Hd. cbn.
    rewrite Hp, Ho, Hcf. cbn.
    split; [reflexivity|]. split; [eauto|]. apply bet_score_window; assumption. }
  assert (Hready : Forall (fun bet => bet_ready max_odds h bet = true) all_bets).
  { eapply Forall_impl; [exact Hscore|].
    intros b (s & Hs & [o Ho] & _). unfold bet_ready. rewrite Ho, Hs.
    destruct (meets_odds_criteria max_odds o); [| reflexivity].
    apply bool_decide_eq_true. eauto. }
  destruct (select_best_bets_run max_odds h all_bets Hready)
    as (h' & Hrun & _ & Hin & _).
  eexists h', _. split; [exact Hrun|].
  apply Forall_forall. intros b Hb. apply ranked_head_elem in Hb.
  pose proof (scored_score_in h h' b (Hin b Hb)) as Hsc.
  apply eligible_elem in Hb as [Hb _].
  rewrite Forall_forall in Hscore.
  destruct (Hscore b Hb) as (s & Hs & _ & Hr).
  assert (s = score_in h' b) by congruence. subst s. exact Hr.
Qed.

Lemma created_bets_selectable_witness :
  exists bet h' best,
    created_bet (R := half_even) bet
    /\ select_best_bets (R := half_even)
          (-125) {[ 0%nat := bet ]} [0%nat] = (h', Ok best)
    /\ Forall (fun b => 0.36 <= score_in h' b <= 0.8492) best.
Proof.
  destruct sample_spread_bet_created as (bet & _ & Hc).
  destruct (created_bets_selectable (R := half_even)
        (-125) {[ 0%nat := bet ]} [0%nat])
    as (h' & best & Hrun & Hscores).
  - constructor; [| constructor].
    exists bet. split; [apply lookup_singleton_eq | exact Hc].
  - exists bet, h', best. auto.
Defined.

(* ================================================================== *)
(** * Splitting pick strings *)

Lemma append_empty_r (w : string) : w +:+ EmptyString = w.
Proof.
  induction w as [| c r IH]; [reflexivity|].
  change (String c r +:+ EmptyString) with (String c (r +:+ EmptyString)).
  f_equal. exact IH.
Qed.

Lemma append_snoc (w : string) (c : ascii) (b : string) :
  (w +:+ String c EmptyString) +:+ b = w +:+ String c b.
Proof.
  induction w as [| a r IH]; [reflexivity|].
  change ((String a r +:+ String c EmptyString) +:+ b)
    with (String a ((r +:+ String c EmptyString) +:+ b)).
  change (String a r +:+ String c b) with (String a (r +:+ String c b)).
  f_equal. exact IH.
Qed.

Lemma append_nonempty (w : string) (c : ascii) (b : string) :
  w +:+ String c b <> EmptyString.
Proof. destruct w; discriminate. Qed.

(** A run without whitespace is one word. *)
Lemma py_split_from_word (b : string) :
  forall w, no_space b = true -> w +:+ b <> EmptyString ->
            py_split_from b w = [w +:+ b].
Proof.
  induction b as [| c r IH]; intros w Hb Hne.
  - rewrite append_empty_r in *. destruct w; [congruence | reflexivity].
  - cbn [no_space] in Hb. apply andb_true_iff in Hb as [Hc Hr].
    apply negb_true_iff in Hc. cbn [py_split_from]. rewrite Hc.
    rewrite (IH _ Hr); rewrite append_snoc; [reflexivity|].
    apply append_nonempty.
Qed.

(** A last word after a space is split off as it is. *)
Lemma py_split_from_snoc (a b : string) :
  no_space b = true -> b <> EmptyString ->
  forall w, py_split_from (a +:+ String " " b) w = py_split_from a w ++ [b].
Proof.
  intros Hb Hne. induction a as [| c r IH]; intros w.
  - change (EmptyString +:+ String " " b) with (String " " b).
    cbn [py_split_from]. change (is_space " ") with true. cbv iota.
    rewrite (py_split_from_word b EmptyString Hb Hne).
    destruct w; reflexivity.
  - change (String c r +:+ String " " b) with (String c (r +:+ String " " b)).
    cbn [py_split_from].
    destruct (is_space c); [| apply IH].
    destruct w; rewrite IH; reflexivity.
Qed.

Lemma py_split_snoc (team f : string) :
  no_space f = true -> f <> EmptyString ->
  py_split (team +:+ " " +:+ f) = py_split team ++ [f].
Proof. intros Hf Hne. apply py_split_from_snoc; assumption. Qed.

Lemma py_split_all_space (s : string) :
  all_space s = true -> py_split s = [].
Proof.
  unfold py_split. induction s as [| c r IH]; [reflexivity|].
  cbn [all_space py_split_from]. intros [Hc Hr]%andb_true_iff.
  rewrite Hc. apply IH, Hr.
Qed.

Lemma last_number_snoc (py_float : string -> option Q)
    (parts : list string) (f : string) (v : Q) :
  py_float f = Some v -> last_number py_float (parts ++ [f]) = Returns v.
Proof. intros Hf. unfold last_number. rewrite last_snoc, Hf. reflexivity. Qed.

(* ================================================================== *)
(** * Grading stored picks *)

Lemma contains_over_prefix (s : string) :
  py_contains "Over" ("Over " +:+ s) = true.
Proof. reflexivity. Qed.

Lemma contains_over_under (s : string) :
  py_contains "Over" ("Under " +:+ s) = py_contains "Over" s.
Proof. reflexivity. Qed.

Lemma spread_pick_grades (py_float : string -> option Q)
    (team line home : string) (v : Q) (home_score away_score : Z) :
  join_spaces (py_split team) = team ->
  no_space line = true -> line <> EmptyString -> py_float line = Some v ->
  let margin := inject_Z (home_score - away_score) in
  exists won,
    _calculate_spread_result py_float
      {| row_pick := team +:+ " " +:+ line; row_home_team := home |}
      home_score away_score = Returns won
    /\ (team = home -> (won = true <-> - v < margin))
    /\ (team <> home -> (won = true <-> margin < v)).
Proof.
  intros Hteam Hns Hne Hf. cbv zeta. unfold _calculate_spread_result.
  cbn [row_pick row_home_team].
  rewrite (py_split_snoc team line Hns Hne), removelast_last, Hteam.
  rewrite (last_number_snoc py_float _ line v Hf).
  destruct (String.eqb_spec team home) as [Heq | Hneq]; eexists;
    (split; [reflexivity|]); split; intros H; try contradiction;
    apply Qltb_lt.
Qed.

(** X22: a stored spread pick ["{team} {line}"], with a team name whose
    words are separated by single spaces and a line that [float] reads as
    [v], is graded without error: as a home pick, won when the home margin
    is above [-v], if the team is the row's home team, and as an away pick,
    won when the home margin is below [v], for any other team name. *)
Theorem spread_pick_grading (py_float : string -> option Q)
    (team line home : string) (v : Q) (home_score away_score : Z) :
  join_spaces (py_split team) = team ->
  no_space line = true -> line <> EmptyString -> py_float line = Some v ->
  let margin := inject_Z (home_score - away_score) in
  exists won,
    _calculate_spread_result py_float
      {| row_pick := team +:+ " " +:+ line; row_home_team := home |}
      home_score away_score = Returns won
    /\ (team = home -> (won = true <-> - v < margin))
    /\ (team <> home -> (won = true <-> margin < v)).
Proof. apply spread_pick_grades. Qed.

Lemma spread_pick_grading_witness :
  exists won,
    _calculate_spread_result decimal_of_string
      {| row_pick := "North Carolina -5.5"; row_home_team := "North Carolina" |}
      80 70 = Returns won
    /\ (won = true <-> - (-5.5) < inject_Z (80 - 70)).
Proof.
  destruct (spread_pick_grading decimal_of_string "North Carolina" "-5.5"
              "North Carolina" (-5.5) 80 70)
    as (won & Hrun & Hhome & _); try reflexivity; [discriminate|].
  exists won. split; [exact Hrun | apply Hhome; reflexivity].
Defined.

Lemma total_pick_grades (py_float : string -> option Q)
    (line home : string) (v : Q) (home_score away_score : Z) :
  no_space line = true -> line <> EmptyString ->
  py_contains "Over" line = false -> py_float line = Some v ->
  let total := inject_Z (home_score + away_score) in
  exists over_won under_won,
    _calculate_total_result py_float
      {| row_pick := "Over " +:+ line; row_home_team := home |}
      home_score away_score = Returns over_won
    /\ _calculate_total_result py_float
         {| row_pick := "Under " +:+ line; row_home_team := home |}
         home_score away_score = Returns under_won
    /\ (over_won = true <-> v < total)
    /\ (under_won = true <-> total < v)
    /\ (total == v -> over_won = false /\ under_won = false).
Proof.
  intros Hns Hne Hno Hf. cbv zeta. unfold _calculate_total_result.
  cbn [row_pick].
  rewrite contains_over_prefix, contains_over_under, Hno.
  change ("Over " +:+ line) with ("Over" +:+ " " +:+ line).
  change ("Under " +:+ line) with ("Under" +:+ " " +:+ line).
  rewrite (py_split_snoc "Over" line Hns Hne).
  rewrite (py_split_snoc "Under" line Hns Hne).
  rewrite !(last_number_snoc py_float _ line v Hf).
  eexists _, _. split; [reflexivity|]. split; [reflexivity|].
  split; [apply Qltb_lt|]. split; [apply Qltb_lt|].
  intros Heq. split; apply Qltb_ge; lra.
Qed.

(** X23: a stored total pick ["Over {line}"] or ["Under {line}"], with a
    line that [float] reads as [v], is graded without error: Over is won
    when the points scored are above [v], Under when they are below; on
    the line itself both are lost. *)
Theorem total_pick_grading (py_float : string -> option Q)
    (line home : string) (v : Q) (home_score away_score : Z) :
  no_space line = true -> line <> EmptyString ->
  py_contains "Over" line = false -> py_float line = Some v ->
  let total := inject_Z (home_score + away_score) in
  exists over_won under_won,
    _calculate_total_result py_float
      {| row_pick := "Over " +:+ line; row_home_team := home |}
      home_score away_score = Returns over_won
    /\ _calculate_total_result py_float
         {| row_pick := "Under " +:+ line; row_home_team := home |}
         home_score away_score = Returns under_won
    /\ (over_won = true <-> v < total)
    /\ (under_won = true <-> total < v)
    /\ (total == v -> over_won = false /\ under_won = false).
Proof. apply total_pick_grades. Qed.

Lemma total_pick_grading_witness :
  exists over_won under_won,
    _calculate_total_result decimal_of_string
      {| row_pick := "Over 145.5"; row_home_team := "Duke" |} 80 70
    = Returns over_won
    /\ _calculate_total_result decimal_of_string
         {| row_pick := "Under 145.5"; row_home_team := "Duke" |} 80 70
       = Returns under_won
    /\ (over_won = true <-> 145.5 < inject_Z (80 + 70))
    /\ (under_won = true <-> inject_Z (80 + 70) < 145.5).
Proof.
  destruct (total_pick_grading decimal_of_string "145.5" "Duke" 145.5 80 70)
    as (ow & uw & Ho & Hu & Hov & Hun & _); try reflexivity; [discriminate|].
  exists ow, uw. auto.
Defined.

(** X24: a pick that is empty or all whitespace makes both graders raise
    [IndexError], and a pick whose last word [float] refuses makes both
    raise [ValueError]. *)
Theorem grading_errors (py_float : string -> option Q) (pick : PickRow)
    (home_score away_score : Z) :
  (all_space (row_pick pick) = true ->
   _calculate_spread_result py_float pick home_score away_score
   = Raises IndexError
   /\ _calculate_total_result py_float pick home_score away_score
      = Raises IndexError)
  /\ (forall w, last (py_split (row_pick pick)) = Some w ->
        py_float w = None ->
        _calculate_spread_result py_float pick home_score away_score
        = Raises ValueError
        /\ _calculate_total_result py_float pick home_score away_score
           = Raises ValueError).
Proof.
  unfold _calculate_spread_result, _calculate_total_result, last_number.
  split.
  - intros Hs. rewrite (py_split_all_space _ Hs). split; reflexivity.
  - intros w Hl Hf. rewrite Hl, Hf. split; reflexivity.
Qed.

Lemma grading_errors_witness :
  _calculate_spread_result decimal_of_string
    {| row_pick := "   "; row_home_team := "Duke" |} 80 70 = Raises IndexError
  /\ _calculate_total_result decimal_of_string
       {| row_pick := "Over the line"; row_home_team := "Duke" |} 80 70
     = Raises ValueError.
Proof.
  split.
  - destruct (grading_errors decimal_of_string
                {| row_pick := "   "; row_home_team := "Duke" |} 80 70)
      as (Hidx & _).
    apply Hidx. reflexivity.
  - destruct (grading_errors decimal_of_string
                {| row_pick := "Over the line"; row_home_team := "Duke" |}
                80 70) as (_ & Hval).
    apply (Hval "line"); reflexivity.
Defined.

(* ================================================================== *)
(** * From a prediction to a graded pick *)

(** X25: the pick of a total bet reads back: for a market total with a
    numeric line, when the printed line has no whitespace and no ["Over"]
    in it and [float] reads it as the line, the bet that
    create_bet_from_prediction makes is graded by _calculate_total_result
    as won exactly when the points scored fall strictly on the side of
    the line that was predicted. *)
Theorem total_bet_round_trip {R : Rounding}
    (repr_float fmt_1f fmt_plus_1f : Q -> string)
    (py_float : string -> option Q)
    (game : GameRef) (prediction confidence : Q) (odds_data : OddsData)
    (market_total : TotalOdds) (total_line : pynum)
    (home : string) (v : Q) (home_score away_score : Z) :
  default (TotalDict empty_total) (total odds_data) = TotalDict market_total ->
  as_pynum (default (VInt 140) (line market_total)) = Some total_line ->
  let shown := py_str repr_float total_line in
  let scored := inject_Z (home_score + away_score) in
  no_space shown = true -> shown <> EmptyString ->
  py_contains "Over" shown = false ->
  py_float shown = Some v -> v == num_val total_line ->
  exists bet text won,
    create_bet_from_prediction repr_float fmt_1f fmt_plus_1f
      game "total" prediction confidence odds_data = Ok [bet]
    /\ bet !! "pick" = Some (VStr text)
    /\ _calculate_total_result py_float
         {| row_pick := text; row_home_team := home |}
         home_score away_score = Returns won
    /\ (won = true <->
        (num_val total_line < prediction /\ num_val total_line < scored)
        \/ (prediction <= num_val total_line /\ scored < num_val total_line)).
Proof.
  intros Hdict Hline. cbv zeta. intros Hns Hne Hno Hf Hv.
  destruct (total_pick_grades py_float _ home _ home_score away_score
              Hns Hne Hno Hf)
    as (ow & uw & Hover & Hunder & How & Huw & _).
  unfold create_bet_from_prediction.
  change (String.eqb "total" "spread") with false.
  change (String.eqb "total" "total") with true. cbv iota.
  rewrite Hdict. cbn [mbind result_bind rbind]. rewrite Hline.
  cbn [mbind result_bind rbind].
  destruct (Qltb (num_val total_line) prediction) eqn:E.
  - apply Qltb_lt in E. eexists _, _, ow.
    split; [reflexivity|]. split; [reflexivity|]. split; [exact Hover|].
    rewrite How, Hv. split; [intros H; left; auto|].
    intros [[_ H] | [H _]]; [exact H | lra].
  - apply Qltb_ge in E. eexists _, _, uw.
    split; [reflexivity|]. split; [reflexivity|]. split; [exact Hunder|].
    rewrite Huw, Hv. split; [intros H; right; auto|].
    intros [[H _] | [_ H]]; [lra | exact H].
Qed.

Lemma total_bet_round_trip_witness :
  exists bet text won,
    create_bet_from_prediction (R := half_even)
      fmt_1f_exact fmt_1f_exact fmt_plus_1f_exact
      game_unnamed "total" 150 0.5 empty_odds = Ok [bet]
    /\ bet !! "pick" = Some (VStr text)
    /\ _calculate_total_result decimal_of_string
         {| row_pick := text; row_home_team := "Home" |} 80 70
       = Returns won
    /\ won = true.
Proof.
  destruct (total_bet_round_trip (R := half_even)
              fmt_1f_exact fmt_1f_exact fmt_plus_1f_exact
              decimal_of_string game_unnamed 150 0.5 empty_odds
              empty_total (PInt 140) "Home" 140 80 70 eq_refl eq_refl)
    as (bet & text & won & Hrun & Hpick & Hgrade & Hwon);
    [vm_compute; reflexivity | discriminate | vm_compute; reflexivity
    | vm_compute; reflexivity | reflexivity |].
  exists bet, text, won.
  split; [exact Hrun|]. split; [exact Hpick|]. split; [exact Hgrade|].
  apply Hwon. left. split; vm_compute; reflexivity.
Defined.

(** X26: the pick of a spread bet reads back: for a market spread with
    numeric lines, two different team names with single spaces between
    their words, and lines that print without whitespace and that [float]
    reads back, the bet that create_bet_from_prediction makes is graded by
    _calculate_spread_result, with the game's home team, either as the
    home side at the home line (won when margin plus line is positive) or
    as the away side at the away line (won when the home margin is below
    the away line). *)
Theorem spread_bet_round_trip {R : Rounding}
    (repr_float fmt_1f fmt_plus_1f : Q -> string)
    (py_float : string -> option Q)
    (game : GameRef) (prediction confidence : Q) (odds_data : OddsData)
    (market : SpreadOdds) (home_line away_line vh va : Q)
    (home_score away_score : Z) :
  let home := default "Home" (home_team game) in
  let away := default "Away" (away_team game) in
  let margin := inject_Z (home_score - away_score) in
  default (SpreadDict empty_spread) (spread odds_data) = SpreadDict market ->
  line_number 0 (home_spread market) = Some home_line ->
  line_number 0 (away_spread market) = Some away_line ->
  join_spaces (py_split home) = home ->
  join_spaces (py_split away) = away ->
  away <> home ->
  no_space (fmt_plus_1f home_line) = true ->
  fmt_plus_1f home_line <> EmptyString ->
  py_float (fmt_plus_1f home_line) = Some vh -> vh == home_line ->
  no_space (fmt_plus_1f away_line) = true ->
  fmt_plus_1f away_line <> EmptyString ->
  py_float (fmt_plus_1f away_line) = Some va -> va == away_line ->
  exists bet text won,
    create_bet_from_prediction repr_float fmt_1f fmt_plus_1f
      game "spread" prediction confidence odds_data = Ok [bet]
    /\ bet !! "pick" = Some (VStr text)
    /\ _calculate_spread_result py_float
         {| row_pick := text; row_home_team := home |}
         home_score away_score = Returns won
    /\ ((text = home +:+ " " +:+ fmt_plus_1f home_line
         /\ (won = true <-> 0 < margin + home_line))
        \/ (text = away +:+ " " +:+ fmt_plus_1f away_line
            /\ (won = true <-> margin < away_line))).
Proof.
  cbv zeta.
  intros Hmarket Hhl Hal Hhome Haway Hne Hns1 Hne1 Hf1 Hvh Hns2 Hne2 Hf2 Hva.
  destruct (spread_pick_grades py_float _ _ (default "Home" (home_team game))
              _ home_score away_score Hhome Hns1 Hne1 Hf1)
    as (hw & Hhrun & Hhwon & _).
  destruct (spread_pick_grades py_float _ _ (default "Home" (home_team game))
              _ home_score away_score Haway Hns2 Hne2 Hf2)
    as (aw & Harun & _ & Hawon).
  specialize (Hhwon eq_refl). specialize (Hawon Hne).
  assert (Hh : hw = true <->
               0 < inject_Z (home_score - away_score) + home_line)
    by (rewrite Hhwon, Hvh; split; intros; lra).
  rewrite Hva in Hawon.
  unfold create_bet_from_prediction.
  change (String.eqb "spread" "spread") with true. cbv iota.
  rewrite Hmarket. cbn [mbind result_bind rbind].
  destruct (spread_side_numbers (default "Home" (home_team game))
              (default "Away" (away_team game)) prediction
              (default (VInt 0) (home_spread market))
              (default (VInt 0) (away_spread market))
              (default (-110)%Z (home_odds market))
              (default (-110)%Z (away_odds market))
              home_line away_line Hhl Hal)
    as (side & -> & [-> | ->]); cbn [mbind result_bind rbind].
  - eexists _, _, hw. split; [reflexivity|]. split; [reflexivity|].
    split; [exact Hhrun|]. left. split; [reflexivity | exact Hh].
  - eexists _, _, aw. split; [reflexivity|]. split; [reflexivity|].
    split; [exact Harun|]. right. split; [reflexivity | exact Hawon].
Qed.

Lemma spread_bet_round_trip_witness :
  exists bet text won,
    create_bet_from_prediction (R := half_even)
      fmt_1f_exact fmt_1f_exact fmt_plus_1f_exact
      game_unnamed "spread" 8 0.5 odds_home_plus_5 = Ok [bet]
    /\ bet !! "pick" = Some (VStr text)
    /\ _calculate_spread_result decimal_of_string
         {| row_pick := text; row_home_team := "Home" |} 70 72
       = Returns won
    /\ ((text = "Home +5.0" /\ (won = true <-> 0 < inject_Z (70 - 72) + 5))
        \/ (text = "Away -5.0"
            /\ (won = true <-> inject_Z (70 - 72) < - (5)))).
Proof.
  apply (spread_bet_round_trip (R := half_even)
           fmt_1f_exact fmt_1f_exact fmt_plus_1f_exact
           decimal_of_string game_unnamed 8 0.5 odds_home_plus_5
           {| home_spread := Some (VFloat 5);
              away_spread := Some (VFloat (-5));
              home_odds := Some (-110)%Z; away_odds := Some (-110)%Z |}
           5 (- (5)) (50 # 10) (- (50 # 10)) 70 72);
    try (vm_compute; reflexivity); discriminate.
Defined.

(* ================================================================== *)
(** * The win probability *)

(** X28: calculate_win_probability returns a value in [0, 1] when the
    confidence is in [0, 1] and the exponential it reads is not negative;
    the value is on the side of 0.5 that the exponential decides (at least
    0.5 when it is at most 1, at most 0.5 when it is at least 1), and it
    is 0.5 when the confidence is 0. *)
Theorem win_probability_range {R : Rounding} (np_exp : Q -> Q)
    (predicted_spread confidence : Q) :
  let e := np_exp (- predicted_spread / 7) in
  let p := calculate_win_probability np_exp predicted_spread confidence in
  0 <= e -> 0 <= confidence <= 1 ->
  0 <= p <= 1
  /\ (e <= 1 -> 0.5 <= p)
  /\ (1 <= e -> p <= 0.5)
  /\ (confidence == 0 -> p == 0.5).
Proof.
  cbv zeta. intros He [Hc0 Hc1]. unfold calculate_win_probability.
  set (e := np_exp (- predicted_spread / 7)) in *.
  assert (Hb : 1 / (1 + e) * (1 + e) == 1) by (field; lra).
  set (b := 1 / (1 + e)) in *.
  assert (Hb0 : 0 < b).
  { apply Qnot_le_lt. intros Hn.
    assert (b * (1 + e) <= 0) by nra. lra. }
  assert (Hb1 : b <= 1) by nra.
  assert (Hm : -(1 # 2) <= (b - 0.5) * confidence <= 1 # 2) by nra.
  split; [| split; [| split]].
  - apply py_round_between; [reflexivity | reflexivity | lra].
  - intros H1. assert (0.5 <= b) by nra.
    assert (0 <= (b - 0.5) * confidence) by nra.
    apply Qle_trans with (py_round 0.5 3);
      [rewrite (py_round_on_grid 0.5 3 eq_refl); apply Qle_refl|].
    apply py_round_mono. lra.
  - intros H1. assert (b <= 0.5) by nra.
    assert ((b - 0.5) * confidence <= 0) by nra.
    apply Qle_trans with (py_round 0.5 3);
      [| rewrite (py_round_on_grid 0.5 3 eq_refl); apply Qle_refl].
    apply py_round_mono. lra.
  - intros H0. rewrite (py_round_proper _ 0.5); [round_fixed|].
    rewrite H0. ring.
Qed.

Lemma win_probability_range_witness :
  0 <= calculate_win_probability (R := half_even)
        (fun x => 1 + x * x) 7 (1 # 2) <= 1.
Proof.
  apply (win_probability_range (R := half_even) (fun x => 1 + x * x) 7 (1 # 2));
    [vm_compute; discriminate | split; vm_compute; discriminate].
Defined.

(* ================================================================== *)
(** * Checking a bet against a final score *)

Lemma rsplit_space_no_space (s : string) :
  no_space s = true -> rsplit_space s = None.
Proof.
  induction s as [| c r IH]; [reflexivity|].
  cbn [no_space rsplit_space]. intros H.
  apply andb_true_iff in H as [Hc Hr]. rewrite (IH Hr).
  destruct (Ascii.eqb_spec c " ") as [-> | _]; [discriminate | reflexivity].
Qed.

Lemma rsplit_space_snoc (team line : string) :
  no_space line = true ->
  rsplit_space (team +:+ " " +:+ line) = Some (team, line).
Proof.
  intros Hns. induction team as [| c r IH].
  - change (EmptyString +:+ " " +:+ line) with (String " " line).
    cbn [rsplit_space]. rewrite (rsplit_space_no_space line Hns). reflexivity.
  - change (String c r +:+ " " +:+ line) with (String c (r +:+ " " +:+ line)).
    cbn [rsplit_space]. rewrite IH. reflexivity.
Qed.

Lemma prefix_space_no_space (w s : string) :
  no_space s = true -> String.prefix (w +:+ " ") s = false.
Proof.
  revert s. induction w as [| a w IH]; intros [| b s] H; try reflexivity.
  - change (EmptyString +:+ " ") with (String " " EmptyString).
    cbn [String.prefix]. cbn [no_space] in H.
    apply andb_true_iff in H as [Hb _].
    destruct (ascii_dec " " b) as [<- | _]; [discriminate | reflexivity].
  - change (String a w +:+ " ") with (String a (w +:+ " ")).
    cbn [String.prefix]. cbn [no_space] in H.
    apply andb_true_iff in H as [_ Hs].
    destruct (ascii_dec a b); [apply IH, Hs | reflexivity].
Qed.

Lemma before_first_no_space (w s : string) :
  no_space s = true -> before_first (w +:+ " ") s = s.
Proof.
  induction s as [| c r IH]; intros H.
  - cbn [before_first]. destruct (String.prefix _ _); reflexivity.
  - cbn [before_first]. rewrite (prefix_space_no_space w _ H).
    cbn [no_space] in H. apply andb_true_iff in H as [_ Hr].
    rewrite (IH Hr). reflexivity.
Qed.

Lemma second_part_over (line : string) :
  no_space line = true -> second_part "Over " ("Over " +:+ line) = Returns line.
Proof.
  intros H. unfold second_part.
  replace (after_first "Over " ("Over " +:+ line)) with (Some line)
    by (destruct line; reflexivity).
  change "Over " with ("Over" +:+ " ").
  rewrite (before_first_no_space "Over" line H). reflexivity.
Qed.

Lemma second_part_under (line : string) :
  no_space line = true ->
  second_part "Under " ("Under " +:+ line) = Returns line.
Proof.
  intros H. unfold second_part.
  replace (after_first "Under " ("Under " +:+ line)) with (Some line)
    by (destruct line; reflexivity).
  change "Under " with ("Under" +:+ " ").
  rewrite (before_first_no_space "Under" line H). reflexivity.
Qed.

Lemma check_spread_pick (py_float : string -> option Q)
    (repr_float fmt_plus_0f : Q -> string)
    (team line : string) (v : Q) (game : FinalGame) :
  no_space line = true -> py_float line = Some v ->
  let home := default EmptyString (final_home_team game) in
  let away := default EmptyString (final_away_team game) in
  let margin :=
    inject_Z (default 0%Z (final_home_score game)
              - default 0%Z (final_away_score game)) in
  exists won text distance,
    check_bet_result py_float repr_float fmt_plus_0f
      {| bet_type := "Spread"; bet_pick := team +:+ " " +:+ line |} game
    = Returns (won, text, distance)
    /\ (team = home -> (won = true <-> v < margin) /\ distance == margin - v)
    /\ (team <> home -> team = away ->
        (won = true <-> margin < v) /\ distance == v - margin)
    /\ (team <> home -> team <> away ->
        won = false /\ text = "Team name mismatch" /\ distance == 0).
Proof.
  intros Hns Hf. cbv zeta. unfold check_bet_result.
  cbn [bet_type bet_pick].
  change (String.eqb "Spread" "Spread") with true. cbv iota.
  rewrite (rsplit_space_snoc team line Hns), Hf.
  destruct (String.eqb_spec team (default EmptyString (final_home_team game)))
    as [Hh | Hh];
    [| destruct (String.eqb_spec team
                   (default EmptyString (final_away_team game))) as [Ha | Ha]];
    eexists _, _, _; (split; [reflexivity|]);
    (split; [| split]); intros; try contradiction.
  - split; [apply Qltb_lt | reflexivity].
  - split; [apply Qltb_lt | reflexivity].
  - split; [reflexivity | split; reflexivity].
Qed.

Lemma bool_eq_iff (a b : bool) (P R : Prop) :
  (a = true <-> P) -> (b = true <-> R) -> (a = b <-> (P <-> R)).
Proof.
  intros Ha Hb. destruct a, b; split; intros H; try reflexivity;
    try discriminate; try tauto.
  exfalso. assert (true = true) as Ht by reflexivity.
  apply Ha in Ht. apply H in Ht. apply Hb in Ht. discriminate.
Qed.

(** X29: the two graders on a spread pick ["{team} {line}"] that both
    read as the number [v].  On a pick of the home team check_bet_result
    counts it won when the home margin is above [v], while
    _calculate_spread_result counts it won when the margin is above [-v]:
    they agree exactly when the margin is not between the two.  On a pick
    of the away team they agree, and a pick of any other name is a team
    name mismatch for the first and an away pick for the second. *)
Theorem spread_graders_compared (py_float : string -> option Q)
    (repr_float fmt_plus_0f : Q -> string)
    (team line home away : string) (v : Q) (home_score away_score : Z) :
  join_spaces (py_split team) = team ->
  no_space line = true -> line <> EmptyString -> py_float line = Some v ->
  let margin := inject_Z (home_score - away_score) in
  let game :=
    {| final_home_score := Some home_score;
       final_away_score := Some away_score;
       final_home_team := Some home; final_away_team := Some away |} in
  exists checked text distance graded,
    check_bet_result py_float repr_float fmt_plus_0f
      {| bet_type := "Spread"; bet_pick := team +:+ " " +:+ line |} game
    = Returns (checked, text, distance)
    /\ _calculate_spread_result py_float
         {| row_pick := team +:+ " " +:+ line; row_home_team := home |}
         home_score away_score = Returns graded
    /\ (team = home ->
        (checked = true <-> v < margin)
        /\ (graded = true <-> - v < margin)
        /\ (checked = graded <->
            ~ (v < margin <= - v) /\ ~ (- v < margin <= v)))
    /\ (team <> home -> team = away ->
        checked = graded /\ (graded = true <-> margin < v))
    /\ (team <> home -> team <> away ->
        checked = false /\ text = "Team name mismatch"
        /\ (graded = true <-> margin < v)).
Proof.
  intros Hteam Hns Hne Hf. cbv zeta.
  destruct (check_spread_pick py_float repr_float fmt_plus_0f team line v
              {| final_home_score := Some home_score;
                 final_away_score := Some away_score;
                 final_home_team := Some home;
                 final_away_team := Some away |} Hns Hf)
    as (checked & text & distance & Hrun & Hhome & Haway & Hother).
  destruct (spread_pick_grades py_float team line home v
              home_score away_score Hteam Hns Hne Hf)
    as (graded & Hgrade & Hgh & Hga).
  cbn [final_home_score final_away_score final_home_team final_away_team
       default from_option id] in Hhome, Haway, Hother.
  exists checked, text, distance, graded.
  split; [exact Hrun|]. split; [exact Hgrade|]. split; [| split].
  - intros Heq. destruct (Hhome Heq) as [Hc _]. specialize (Hgh Heq).
    split; [exact Hc|]. split; [exact Hgh|].
    rewrite (bool_eq_iff _ _ _ _ Hc Hgh).
    set (margin := inject_Z (home_score - away_score)).
    split.
    + intros [H1 H2]. split; intros [Ha Hb].
      * apply H1 in Ha. lra.
      * apply H2 in Ha. lra.
    + intros [H1 H2]. split; intros H.
      * apply Qnot_le_lt. intros Hn. apply H1. lra.
      * apply Qnot_le_lt. intros Hn. apply H2. lra.
  - intros Hneq Heq. destruct (Haway Hneq Heq) as [Hc _].
    specialize (Hga Hneq). split; [| exact Hga].
    apply (bool_eq_iff _ _ _ _ Hc Hga). tauto.
  - intros Hneq Hneq'. destruct (Hother Hneq Hneq') as (Hc & Ht & _).
    split; [exact Hc|]. split; [exact Ht | exact (Hga Hneq)].
Qed.

Lemma spread_graders_compared_witness :
  exists checked text distance graded,
    check_bet_result decimal_of_string fmt_1f_exact fmt_plus_0f_exact
      {| bet_type := "Spread"; bet_pick := "Home -5.0" |} home_by_two
    = Returns (checked, text, distance)
    /\ _calculate_spread_result decimal_of_string
         {| row_pick := "Home -5.0"; row_home_team := "Home" |} 72 70
       = Returns graded
    /\ checked = true /\ graded = false.
Proof.
  destruct (spread_graders_compared decimal_of_string fmt_1f_exact
              fmt_plus_0f_exact "Home" "-5.0" "Home" "Away" (-50 # 10) 72 70)
    as (checked & text & distance & graded & Hrun & Hgrade & Hhome & _);
    [reflexivity | reflexivity | discriminate | vm_compute; reflexivity |].
  destruct (Hhome eq_refl) as (Hc & Hg & _).
  exists checked, text, distance, graded.
  split; [exact Hrun|]. split; [exact Hgrade|]. split.
  - apply Hc. vm_compute. reflexivity.
  - destruct graded; [| reflexivity].
    assert (Hlt : - (-50 # 10) < inject_Z (72 - 70)) by (apply Hg; reflexivity).
    vm_compute in Hlt. discriminate.
Defined.

(** X30: on a total pick ["Over {line}"] or ["Under {line}"], with a line
    that has no whitespace and no ["Over"] in it and that [float] reads as
    [v], check_bet_result and _calculate_total_result give the same
    verdict, and the distance that check_bet_result reports is the one
    between the points scored and the line, on the side of the pick. *)
Theorem total_graders_agree (py_float : string -> option Q)
    (repr_float fmt_plus_0f : Q -> string)
    (line home : string) (v : Q) (game : FinalGame) :
  no_space line = true -> line <> EmptyString ->
  py_contains "Over" line = false -> py_float line = Some v ->
  let home_score := default 0%Z (final_home_score game) in
  let away_score := default 0%Z (final_away_score game) in
  let scored := inject_Z (home_score + away_score) in
  exists over_won over_text over_by under_won under_text under_by,
    check_bet_result py_float repr_float fmt_plus_0f
      {| bet_type := "Total"; bet_pick := "Over " +:+ line |} game
    = Returns (over_won, over_text, over_by)
    /\ check_bet_result py_float repr_float fmt_plus_0f
         {| bet_type := "Total"; bet_pick := "Under " +:+ line |} game
       = Returns (under_won, under_text, under_by)
    /\ _calculate_total_result py_float
         {| row_pick := "Over " +:+ line; row_home_team := home |}
         home_score away_score = Returns over_won
    /\ _calculate_total_result py_float
         {| row_pick := "Under " +:+ line; row_home_team := home |}
         home_score away_score = Returns under_won
    /\ over_by == scored - v /\ under_by == v - scored
    /\ (over_won = true <-> 0 < over_by)
    /\ (under_won = true <-> 0 < under_by).
Proof.
  intros Hns Hne Hno Hf. cbv zeta.
  destruct (total_pick_grades py_float line home v
              (default 0%Z (final_home_score game))
              (default 0%Z (final_away_score game)) Hns Hne Hno Hf)
    as (ow & uw & Hover & Hunder & How & Huw & _).
  unfold check_bet_result. cbn [bet_type bet_pick].
  change (String.eqb "Total" "Spread") with false.
  change (String.eqb "Total" "Total") with true. cbv iota.
  rewrite contains_over_prefix, contains_over_under, Hno.
  replace (py_contains "Under" ("Under " +:+ line)) with true by reflexivity.
  rewrite (second_part_over line Hns), (second_part_under line Hns), Hf.
  set (scored := inject_Z (default 0%Z (final_home_score game)
                           + default 0%Z (final_away_score game))) in *.
  assert (Eo : Qltb v scored = ow).
  { destruct (Qltb v scored) eqn:E, ow; try reflexivity.
    - apply Qltb_lt, How in E. discriminate.
    - apply Qltb_ge in E. assert (v < scored) by (apply How; reflexivity). lra. }
  assert (Eu : Qltb scored v = uw).
  { destruct (Qltb scored v) eqn:E, uw; try reflexivity.
    - apply Qltb_lt, Huw in E. discriminate.
    - apply Qltb_ge in E. assert (scored < v) by (apply Huw; reflexivity). lra. }
  rewrite Eo, Eu.
  eexists ow, _, _, uw, _, _.
  split; [reflexivity|]. split; [reflexivity|].
  split; [exact Hover|]. split; [exact Hunder|].
  split; [reflexivity|]. split; [reflexivity|].
  split; [rewrite How | rewrite Huw]; split; intros; lra.
Qed.

Lemma total_graders_agree_witness :
  exists over_won over_text over_by,
    check_bet_result decimal_of_string fmt_1f_exact fmt_plus_0f_exact
      {| bet_type := "Total"; bet_pick := "Over 140.5" |} home_by_two
    = Returns (over_won, over_text, over_by)
    /\ _calculate_total_result decimal_of_string
         {| row_pick := "Over 140.5"; row_home_team := "Home" |} 72 70
       = Returns over_won
    /\ over_won = true.
Proof.
  destruct (total_graders_agree decimal_of_string fmt_1f_exact
              fmt_plus_0f_exact "140.5" "Home" (1405 # 10) home_by_two)
    as (ow & ot & ob & uw & ut & ub & Hc1 & _ & Hg1 & _ & Hob & _ & How & _);
    [reflexivity | discriminate | reflexivity | vm_compute; reflexivity |].
  exists ow, ot, ob. split; [exact Hc1|]. split; [exact Hg1|].
  apply How. rewrite Hob. vm_compute. reflexivity.
Defined.
